(** * Type checking and conversion of easyconfig parameter values

    A shallow embedding of [easybuild/framework/easyconfig/types.py]:
    the type descriptors, the structural matcher [is_value_of_type], the
    conversion dispatcher [convert_value_type] and the conversion
    functions, followed by the properties proved about them. *)

From Stdlib Require Import List String Ascii ZArith Bool Lia Permutation Sorted.
Import ListNotations.
Local Open Scope string_scope.
Local Open Scope Z_scope.
Set Warnings "-register-all".

(** ** Python values *)

(** The runtime types the module tests with [isinstance]. *)
Inductive pytype : Type :=
| Tstr | Tbool | Tdict | Tint | Tlist | Ttuple | TNoneType | Tfloat.

(** Easyconfig parameter values.  A [dict] is an association list in
    insertion order; a finite float [m * 2^e] is kept as mantissa and
    exponent (NaN and the infinities are left out). *)
Inductive pyval : Type :=
| VNone
| VBool (b : bool)
| VInt (n : Z)
| VFloat (m e : Z)
| VStr (s : string)
| VList (l : list pyval)
| VTuple (l : list pyval)
| VDict (d : list (pyval * pyval)).

(** ** Exceptions and results *)

Inductive exn : Type :=
| EasyBuildError (msg : string)
| ValueError (msg : string)
| TypeError
| AttributeError
| KeyError
| IndexError.

Inductive result (A : Type) : Type :=
| Ok (a : A)
| Err (e : exn).
Arguments Ok {A} a.
Arguments Err {A} e.

Definition bind {A B} (r : result A) (f : A -> result B) : result B :=
  match r with
  | Ok a => f a
  | Err e => Err e
  end.

Notation "'let*' x ':=' r 'in' k" := (bind r (fun x => k))
  (at level 10, x name, r at level 100, k at level 200).

(** ** Type descriptors

    A descriptor is a Python object: a type, or the pair
    [(parent type, as_hashable(requirements))], which is a tuple of
    tuples of strings, types and descriptors.  Lists and dicts only
    occur in the arguments of [as_hashable]. *)
Inductive tobj : Type :=
| OType (t : pytype)
| OStr (s : string)
| OTuple (l : list tobj)
| OList (l : list tobj)
| ODict (d : list (string * tobj)).

Definition pytype_eqb (a b : pytype) : bool :=
  match a, b with
  | Tstr, Tstr | Tbool, Tbool | Tdict, Tdict | Tint, Tint
  | Tlist, Tlist | Ttuple, Ttuple | TNoneType, TNoneType | Tfloat, Tfloat => true
  | _, _ => false
  end.

(** Python's [==] on descriptor objects. *)
Fixpoint tobj_eqb (a b : tobj) {struct a} : bool :=
  match a, b with
  | OType s, OType t => pytype_eqb s t
  | OStr s, OStr t => String.eqb s t
  | OTuple l, OTuple m =>
      (fix go (l m : list tobj) {struct l} : bool :=
         match l, m with
         | [], [] => true
         | x :: l', y :: m' => tobj_eqb x y && go l' m'
         | _, _ => false
         end) l m
  | OList l, OList m =>
      (fix go (l m : list tobj) {struct l} : bool :=
         match l, m with
         | [], [] => true
         | x :: l', y :: m' => tobj_eqb x y && go l' m'
         | _, _ => false
         end) l m
  | ODict d, ODict f =>
      (* same length, and every entry of [d] is an entry of [f] *)
      Nat.eqb (List.length d) (List.length f) &&
      (fix go (d : list (string * tobj)) {struct d} : bool :=
         match d with
         | [] => true
         | (k, x) :: d' =>
             (fix find (f : list (string * tobj)) : bool :=
                match f with
                | [] => false
                | (k', y) :: f' => if String.eqb k k' then tobj_eqb x y else find f'
                end) f && go d'
         end) d
  | _, _ => false
  end.

(** [x in l] for a list of descriptor objects. *)
Definition tobj_in (x : tobj) (l : list tobj) : bool :=
  existsb (tobj_eqb x) l.

(** ** [as_hashable] *)

(** Insertion of an entry in a key-sorted list; [sorted] on the items of
    a dict with string keys orders them by key. *)
Fixpoint insert_by_key (kv : string * tobj) (l : list (string * tobj))
  : list (string * tobj) :=
  match l with
  | [] => [kv]
  | kv' :: l' =>
      if String.leb (fst kv) (fst kv') then kv :: l else kv' :: insert_by_key kv l'
  end.

Definition sort_by_key (l : list (string * tobj)) : list (string * tobj) :=
  fold_right insert_by_key [] l.

(** The values of the dict, made hashable: a list becomes a tuple and a
    dict is converted in turn.  The source converts each value while it
    walks the sorted items; converting first and sorting next gives the
    same tuple, since sorting looks at the keys only. *)
Fixpoint hashable_val (v : tobj) : tobj :=
  match v with
  | OList l => OTuple l
  | ODict d =>
      OTuple (map (fun kv : string * tobj => OTuple [OStr (fst kv); snd kv])
                  (sort_by_key
                     ((fix go (d : list (string * tobj)) : list (string * tobj) :=
                         match d with
                         | [] => []
                         | (k, x) :: d' => (k, hashable_val x) :: go d'
                         end) d)))
  | _ => v
  end.

Definition as_hashable (dict_value : list (string * tobj)) : tobj :=
  hashable_val (ODict dict_value).

(** ** The descriptors of the module *)

(** Modelled from the spec: the constants [SANITY_CHECK_PATHS_FILES] and
    [SANITY_CHECK_PATHS_DIRS] of [easyconfig/format/format.py], the two
    check categories (files/dirs) of a sanity-check-paths mapping. *)
Definition SANITY_CHECK_PATHS_FILES : string := "files".
Definition SANITY_CHECK_PATHS_DIRS : string := "dirs".

Definition str_ := OType Tstr.
Definition bool_ := OType Tbool.
Definition int_ := OType Tint.
Definition float_ := OType Tfloat.
Definition dict_ := OType Tdict.
Definition list_ := OType Tlist.
Definition tuple_ := OType Ttuple.
Definition NoneType_ := OType TNoneType.

Definition TOOLCHAIN_DICT : tobj :=
  OTuple [dict_; as_hashable [
    ("elem_types", ODict [
       ("hidden", OList [bool_]);
       ("name", OList [str_]);
       ("version", OList [str_])]);
    ("opt_keys", OList [OStr "hidden"]);
    ("req_keys", OList [OStr "name"; OStr "version"])]].

Definition DEPENDENCY_DICT : tobj :=
  OTuple [dict_; as_hashable [
    ("elem_types", ODict [
       ("full_mod_name", OList [str_]);
       ("name", OList [str_]);
       ("short_mod_name", OList [str_]);
       ("toolchain", OList [TOOLCHAIN_DICT]);
       ("version", OList [str_]);
       ("versionsuffix", OList [str_])]);
    ("opt_keys", OList [OStr "full_mod_name"; OStr "short_mod_name";
                        OStr "toolchain"; OStr "versionsuffix"]);
    ("req_keys", OList [OStr "name"; OStr "version"])]].

Definition DEPENDENCIES : tobj :=
  OTuple [list_; as_hashable [("elem_types", OList [DEPENDENCY_DICT])]].

Definition TUPLE_OF_STRINGS : tobj :=
  OTuple [tuple_; as_hashable [("elem_types", OList [str_])]].
Definition LIST_OF_STRINGS : tobj :=
  OTuple [list_; as_hashable [("elem_types", OList [str_])]].
Definition STRING_OR_TUPLE_LIST : tobj :=
  OTuple [list_; as_hashable [("elem_types", OList [str_; TUPLE_OF_STRINGS])]].
Definition STRING_DICT : tobj :=
  OTuple [dict_; as_hashable [
    ("elem_types", OList [str_]);
    ("key_types", OList [str_])]].
Definition STRING_OR_TUPLE_DICT : tobj :=
  OTuple [dict_; as_hashable [
    ("elem_types", OList [str_]);
    ("key_types", OList [str_; TUPLE_OF_STRINGS])]].
Definition STRING_OR_TUPLE_OR_DICT_LIST : tobj :=
  OTuple [list_; as_hashable [
    ("elem_types", OList [str_; TUPLE_OF_STRINGS; STRING_DICT])]].
Definition SANITY_CHECK_PATHS_ENTRY : tobj :=
  OTuple [list_; as_hashable [
    ("elem_types", OList [str_; TUPLE_OF_STRINGS; STRING_OR_TUPLE_DICT])]].
Definition SANITY_CHECK_PATHS_DICT : tobj :=
  OTuple [dict_; as_hashable [
    ("elem_types", ODict [
       (SANITY_CHECK_PATHS_FILES, OList [SANITY_CHECK_PATHS_ENTRY]);
       (SANITY_CHECK_PATHS_DIRS, OList [SANITY_CHECK_PATHS_ENTRY])]);
    ("opt_keys", OList []);
    ("req_keys", OList [OStr SANITY_CHECK_PATHS_FILES;
                        OStr SANITY_CHECK_PATHS_DIRS])]].

Definition CHECKSUM_AND_TYPE : tobj :=
  OTuple [tuple_; as_hashable [("elem_types", OList [str_; int_])]].
Definition CHECKSUM_LIST : tobj :=
  OTuple [list_; as_hashable [("elem_types", OList [str_; CHECKSUM_AND_TYPE])]].
Definition CHECKSUM_TUPLE : tobj :=
  OTuple [tuple_; as_hashable [("elem_types", OList [str_; CHECKSUM_AND_TYPE])]].
Definition CHECKSUM_DICT : tobj :=
  OTuple [dict_; as_hashable [
    ("elem_types", OList [NoneType_; str_; CHECKSUM_AND_TYPE;
                          CHECKSUM_TUPLE; CHECKSUM_LIST]);
    ("key_types", OList [str_])]].
Definition CHECKSUM_LIST_W_DICT : tobj :=
  OTuple [list_; as_hashable [
    ("elem_types", OList [str_; CHECKSUM_AND_TYPE; CHECKSUM_DICT])]].
Definition CHECKSUM_TUPLE_W_DICT : tobj :=
  OTuple [tuple_; as_hashable [
    ("elem_types", OList [str_; CHECKSUM_AND_TYPE; CHECKSUM_DICT])]].
Definition CHECKSUMS : tobj :=
  OTuple [list_; as_hashable [
    ("elem_types", OList [NoneType_; str_; CHECKSUM_AND_TYPE;
                          CHECKSUM_LIST_W_DICT; CHECKSUM_TUPLE_W_DICT;
                          CHECKSUM_DICT])]].

Definition CHECKABLE_TYPES : list tobj :=
  [CHECKSUM_AND_TYPE; CHECKSUM_LIST; CHECKSUM_TUPLE;
   CHECKSUM_LIST_W_DICT; CHECKSUM_TUPLE_W_DICT; CHECKSUM_DICT; CHECKSUMS;
   DEPENDENCIES; DEPENDENCY_DICT; LIST_OF_STRINGS;
   SANITY_CHECK_PATHS_DICT; SANITY_CHECK_PATHS_ENTRY; STRING_DICT;
   STRING_OR_TUPLE_LIST; STRING_OR_TUPLE_DICT; STRING_OR_TUPLE_OR_DICT_LIST;
   TOOLCHAIN_DICT; TUPLE_OF_STRINGS].

(** Easy types, verified with [isinstance]; [float] is not among them. *)
Definition EASY_TYPES : list tobj :=
  [str_; bool_; dict_; int_; list_; str_; tuple_; NoneType_].
(** ** Python primitives used by the matcher *)

Definition type_of (v : pyval) : pytype :=
  match v with
  | VNone => TNoneType
  | VBool _ => Tbool
  | VInt _ => Tint
  | VFloat _ _ => Tfloat
  | VStr _ => Tstr
  | VList _ => Tlist
  | VTuple _ => Ttuple
  | VDict _ => Tdict
  end.

(** [isinstance(v, t)] for a type [t]: [bool] is a subclass of [int]. *)
Definition instance_of (v : pyval) (t : pytype) : bool :=
  pytype_eqb (type_of v) t ||
  match v, t with
  | VBool _, Tint => true
  | _, _ => false
  end.

(** [isinstance(v, t)] for any second argument: a type, or a tuple whose
    items are tried in order until one accepts [v]; anything else raises
    [TypeError]. *)
Fixpoint py_isinstance (v : pyval) (t : tobj) : result bool :=
  match t with
  | OType ty => Ok (instance_of v ty)
  | OTuple l =>
      (fix go (l : list tobj) : result bool :=
         match l with
         | [] => Ok false
         | x :: l' =>
             let* b := py_isinstance v x in
             if b then Ok true else go l'
         end) l
  | _ => Err TypeError
  end.

(** [t[i]] on a tuple or list. *)
Definition py_index (t : tobj) (i : nat) : result tobj :=
  match t with
  | OTuple l | OList l =>
      match nth_error l i with
      | Some x => Ok x
      | None => Err IndexError
      end
  | _ => Err TypeError
  end.

(** The items a [for] loop over [t] visits. *)
Definition py_iter (t : tobj) : result (list tobj) :=
  match t with
  | OTuple l | OList l => Ok l
  | ODict d => Ok (map (fun kv : string * tobj => OStr (fst kv)) d)
  | OStr s => Ok (map (fun c => OStr (String c EmptyString)) (list_ascii_of_string s))
  | OType _ => Err TypeError
  end.

(** Tuples of hashable items, strings and types can be dict keys. *)
Fixpoint hashable (t : tobj) : bool :=
  match t with
  | OType _ | OStr _ => true
  | OTuple l =>
      (fix go (l : list tobj) : bool :=
         match l with
         | [] => true
         | x :: l' => hashable x && go l'
         end) l
  | OList _ | ODict _ => false
  end.

(** [d[k] = v] on a dict with descriptor objects as keys. *)
Fixpoint odict_set (k v : tobj) (d : list (tobj * tobj)) : list (tobj * tobj) :=
  match d with
  | [] => [(k, v)]
  | (k', v') :: d' =>
      if tobj_eqb k k' then (k', v) :: d' else (k', v') :: odict_set k v d'
  end.

(** [dict(t)]: every item of [t] has to be a pair with a hashable first
    component; a later pair overrides an earlier one with the same key. *)
Definition py_dict (t : tobj) : result (list (tobj * tobj)) :=
  let* items := py_iter t in
  fold_left
    (fun (acc : result (list (tobj * tobj))) (item : tobj) =>
       let* d := acc in
       let* kv := py_iter item in
       match kv with
       | [k; v] => if hashable k then Ok (odict_set k v d) else Err TypeError
       | _ => Err (ValueError "dictionary update sequence element has wrong length")
       end)
    items (Ok []).

(** [k == o] for a key [k] of a value and a key [o] of a requirement. *)
Fixpoint key_eq (k : pyval) (o : tobj) {struct k} : bool :=
  match k, o with
  | VStr s, OStr t => String.eqb s t
  | VTuple l, OTuple m =>
      (fix go (l : list pyval) (m : list tobj) {struct l} : bool :=
         match l, m with
         | [], [] => true
         | x :: l', y :: m' => key_eq x y && go l' m'
         | _, _ => false
         end) l m
  | _, _ => false
  end.

(** [d.get(k)] on a dict of requirements, for a key of a value. *)
Fixpoint odict_find (k : pyval) (d : list (tobj * tobj)) : option tobj :=
  match d with
  | [] => None
  | (k', v) :: d' => if key_eq k k' then Some v else odict_find k d'
  end.

(** [d[name]] for a requirement name. *)
Fixpoint odict_get (name : string) (d : list (tobj * tobj)) : result tobj :=
  match d with
  | [] => Err KeyError
  | (k, v) :: d' => if tobj_eqb (OStr name) k then Ok v else odict_get name d'
  end.

(** [a + b] on two tuples or two lists, which is what the requirements
    of every descriptor of the module are; other operands are not
    modelled and give [TypeError]. *)
Definition py_add (a b : tobj) : result tobj :=
  match a, b with
  | OTuple l, OTuple m => Ok (OTuple (l ++ m))
  | OList l, OList m => Ok (OList (l ++ m))
  | _, _ => Err TypeError
  end.

(** [res = True; for x in l: res &= f(x)]: every item is visited, and the
    first exception ends the loop. *)
Definition all_res {A} (f : A -> result bool) : list A -> result bool :=
  fix go (l : list A) : result bool :=
    match l with
    | [] => Ok true
    | x :: l' =>
        let* b := f x in
        let* r := go l' in
        Ok (b && r)
    end.

(** [any(f(t) for t in l)]: stops at the first item that is accepted. *)
Definition any_res {A} (f : A -> result bool) : list A -> result bool :=
  fix go (l : list A) : result bool :=
    match l with
    | [] => Ok false
    | x :: l' =>
        let* b := f x in
        if b then Ok true else go l'
    end.

(** [all(f(x) for x in l)]: stops at the first item that is refused. *)
Definition all_sc_res {A} (f : A -> result bool) : list A -> result bool :=
  fix go (l : list A) : result bool :=
    match l with
    | [] => Ok true
    | x :: l' =>
        let* b := f x in
        if b then go l' else Ok false
    end.

(** ** The matcher *)

Section Checkers.

(** The helpers call [is_value_of_type] back on the elements and keys
    of the value; here it is the parameter [matches]. *)
Variable matches : pyval -> tobj -> result bool.

(** The source first pairs every element with its allowed types and
    then checks the pairs; both steps are done per element here. *)
Definition check_element_types (elems : pyval) (allowed_types : tobj)
  : result bool :=
  match elems with
  | VList l | VTuple l =>
      match allowed_types with
      | OList ts | OTuple ts =>
          all_res (fun elem => any_res (matches elem) ts) l
      | _ => Err (EasyBuildError "Don't know how to combine value with allowed types")
      end
  | VDict d =>
      (* try to convert to a dict, but ignore if it fails *)
      match py_dict allowed_types, allowed_types with
      | Ok by_key, _ =>
          all_res
            (fun kv : pyval * pyval =>
               match odict_find (fst kv) by_key with
               | Some ts_obj =>
                   let* ts := py_iter ts_obj in
                   any_res (matches (snd kv)) ts
               | None =>
                   (* no known allowed types: empty list of allowed types *)
                   any_res (matches (snd kv)) []
               end) d
      | Err _, (OList ts | OTuple ts) =>
          all_res (fun kv : pyval * pyval => any_res (matches (snd kv)) ts) d
      | Err _, _ => Err (EasyBuildError "Unknown type of allowed types specification")
      end
  | _ => Err (EasyBuildError "Don't know how to check element types for value")
  end.

Definition check_key_types (val : pyval) (allowed_types : tobj) : result bool :=
  match val with
  | VDict d =>
      all_res
        (fun kv : pyval * pyval =>
           let* ts := py_iter allowed_types in
           any_res (matches (fst kv)) ts) d
  | _ => Ok false
  end.

End Checkers.

(** [key in allowed] for a key of a value and the items of a tuple or list. *)
Definition py_contains (key : pyval) (allowed : tobj) : result bool :=
  match allowed with
  | OTuple ks | OList ks => Ok (existsb (key_eq key) ks)
  | _ => Err TypeError
  end.

Definition check_known_keys (val : pyval) (allowed_keys : tobj) : result bool :=
  match val with
  | VDict d =>
      all_sc_res (fun kv : pyval * pyval => py_contains (fst kv) allowed_keys) d
  | _ => Ok false
  end.

Definition check_required_keys (val : pyval) (required_keys : tobj) : result bool :=
  match val with
  | VDict d =>
      let* ks := py_iter required_keys in
      Ok (forallb (fun k => existsb (fun kv : pyval * pyval => key_eq (fst kv) k) d) ks)
  | _ => Ok false
  end.

Fixpoint is_value_of_type (value : pyval) (expected_type : tobj) {struct value}
  : result bool :=
  if tobj_in expected_type EASY_TYPES then
    (* easy types can be checked using isinstance *)
    py_isinstance value expected_type
  else if tobj_in expected_type CHECKABLE_TYPES then
    let* parent_type := py_index expected_type 0 in
    let* reqs := py_index expected_type 1 in
    let* extra_reqs := py_dict reqs in
    (* first step: check parent type *)
    let* type_ok := py_isinstance value parent_type in
    if type_ok then
      (* second step: check additional type requirements *)
      all_res
        (fun er : tobj * tobj =>
           let er_key := fst er in
           if tobj_eqb er_key (OStr "elem_types") then
             let* ts := odict_get "elem_types" extra_reqs in
             check_element_types is_value_of_type value ts
           else if tobj_eqb parent_type dict_ && tobj_eqb er_key (OStr "key_types") then
             let* ts := odict_get "key_types" extra_reqs in
             check_key_types is_value_of_type value ts
           else if tobj_eqb parent_type dict_ && tobj_eqb er_key (OStr "opt_keys") then
             let* opt := odict_get "opt_keys" extra_reqs in
             let* req := odict_get "req_keys" extra_reqs in
             let* allowed := py_add opt req in
             check_known_keys value allowed
           else if tobj_eqb parent_type dict_ && tobj_eqb er_key (OStr "req_keys") then
             let* req := odict_get "req_keys" extra_reqs in
             check_required_keys value req
           else Err (EasyBuildError "Unknown type requirement specified"))
        extra_reqs
    else Ok false
  else
    Err (EasyBuildError "Don't know how to check whether specified value is of type").


(** ** Strings

    A [string] stands for a Python [str] whose code points are below 256. *)

(** [c.isspace()] *)
Definition is_space (c : ascii) : bool :=
  let n := nat_of_ascii c in
  ((9 <=? n) && (n <=? 13) || (28 <=? n) && (n <=? 32)
   || (n =? 133) || (n =? 160))%nat.

(** [c.lower()] *)
Definition lower_char (c : ascii) : ascii :=
  let n := nat_of_ascii c in
  (if (65 <=? n) && (n <=? 90)
      || (192 <=? n) && (n <=? 222) && negb (n =? 215)
   then ascii_of_nat (n + 32) else c)%nat.

Fixpoint lower (s : string) : string :=
  match s with
  | EmptyString => EmptyString
  | String c s' => String (lower_char c) (lower s')
  end.

Fixpoint lstrip (s : string) : string :=
  match s with
  | EmptyString => EmptyString
  | String c s' => if is_space c then lstrip s' else s
  end.

(** Drops the white space at the end: a character is kept when it is
    not white space or something is kept after it. *)
Fixpoint rstrip (s : string) : string :=
  match s with
  | EmptyString => EmptyString
  | String c s' =>
      match rstrip s' with
      | EmptyString => if is_space c then EmptyString else String c EmptyString
      | r => String c r
      end
  end.

(** [s.strip()] *)
Definition strip (s : string) : string := rstrip (lstrip s).

(** [s.split(sep)] for a separator of one character. *)
Fixpoint split (sep : ascii) (s : string) : list string :=
  match s with
  | EmptyString => [EmptyString]
  | String c s' =>
      if Ascii.eqb c sep then EmptyString :: split sep s'
      else match split sep s' with
           | [] => [String c EmptyString]
           | piece :: rest => String c piece :: rest
           end
  end.

(** ** Values as Python sees them *)

(** The number a [bool], [int] or [float] stands for, as [m * 2^e]. *)
Definition num_of (v : pyval) : option (Z * Z) :=
  match v with
  | VBool b => Some (if b then 1 else 0, 0)
  | VInt n => Some (n, 0)
  | VFloat m e => Some (m, e)
  | _ => None
  end.

Definition num_cmp (a b : Z * Z) : comparison :=
  let e := Z.min (snd a) (snd b) in
  Z.compare (fst a * 2 ^ (snd a - e)) (fst b * 2 ^ (snd b - e)).

(** [a == b]: numbers are compared by what they stand for, containers
    item by item, a dict entry by entry whatever the order. *)
Fixpoint pyval_eqb (a b : pyval) {struct a} : bool :=
  match num_of a, num_of b with
  | Some x, Some y => match num_cmp x y with Eq => true | _ => false end
  | _, _ =>
      match a, b with
      | VNone, VNone => true
      | VStr s, VStr t => String.eqb s t
      | VList l, VList m | VTuple l, VTuple m =>
          (fix go (l m : list pyval) {struct l} : bool :=
             match l, m with
             | [], [] => true
             | x :: l', y :: m' => pyval_eqb x y && go l' m'
             | _, _ => false
             end) l m
      | VDict d, VDict f =>
          Nat.eqb (List.length d) (List.length f) &&
          (fix go (d : list (pyval * pyval)) {struct d} : bool :=
             match d with
             | [] => true
             | (k, x) :: d' =>
                 (fix find (f : list (pyval * pyval)) : bool :=
                    match f with
                    | [] => false
                    | (k', y) :: f' =>
                        if pyval_eqb k k' then pyval_eqb x y else find f'
                    end) f && go d'
             end) d
      | _, _ => false
      end
  end.

(** [a < b] where Python defines it; [TypeError] elsewhere. *)
Fixpoint py_lt (a b : pyval) {struct a} : result bool :=
  match num_of a, num_of b with
  | Some x, Some y => Ok match num_cmp x y with Lt => true | _ => false end
  | _, _ =>
      match a, b with
      | VStr s, VStr t => Ok (String.ltb s t)
      | VList l, VList m | VTuple l, VTuple m =>
          (* the first pair of items that differ decides *)
          (fix go (l m : list pyval) {struct l} : result bool :=
             match l, m with
             | [], [] => Ok false
             | [], _ :: _ => Ok true
             | _ :: _, [] => Ok false
             | x :: l', y :: m' => if pyval_eqb x y then go l' m' else py_lt x y
             end) l m
      | _, _ => Err TypeError
      end
  end.

(** [bool(v)] *)
Definition truthy (v : pyval) : bool :=
  match v with
  | VNone => false
  | VBool b => b
  | VInt n => negb (n =? 0)
  | VFloat m _ => negb (m =? 0)
  | VStr s => negb (String.eqb s "")
  | VList l | VTuple l => match l with [] => false | _ => true end
  | VDict d => match d with [] => false | _ => true end
  end.

(** *** Dicts *)

Definition keys (d : list (pyval * pyval)) : list pyval := map fst d.

(** [d.get(k)] *)
Fixpoint dict_get (k : pyval) (d : list (pyval * pyval)) : option pyval :=
  match d with
  | [] => None
  | (k', v) :: d' => if pyval_eqb k k' then Some v else dict_get k d'
  end.

(** [k in d] *)
Definition dict_mem (k : pyval) (d : list (pyval * pyval)) : bool :=
  match dict_get k d with Some _ => true | None => false end.

(** [d[k] = v]: an existing key keeps its place. *)
Fixpoint dict_set (k v : pyval) (d : list (pyval * pyval)) : list (pyval * pyval) :=
  match d with
  | [] => [(k, v)]
  | (k', v') :: d' =>
      if pyval_eqb k k' then (k', v) :: d' else (k', v') :: dict_set k v d'
  end.

(** [l.remove(k)]: drops the first item equal to [k]. *)
Fixpoint list_remove (k : pyval) (l : list pyval) : list pyval :=
  match l with
  | [] => []
  | x :: l' => if pyval_eqb x k then l' else x :: list_remove k l'
  end.

(** *** [sorted] *)

Fixpoint sorted_insert (x : pyval) (l : list pyval) : result (list pyval) :=
  match l with
  | [] => Ok [x]
  | y :: l' =>
      let* lt := py_lt x y in
      if lt then Ok (x :: l)
      else let* r := sorted_insert x l' in Ok (y :: r)
  end.

(** [sorted(l)]: the items in increasing order, [TypeError] when two
    items that have to be compared cannot be. *)
Fixpoint sorted (l : list pyval) : result (list pyval) :=
  match l with
  | [] => Ok []
  | x :: l' =>
      let* r := sorted l' in
      sorted_insert x r
  end.

(** [l == [s1, ..., sn]] for a list of string literals. *)
Definition eq_strings (l : list pyval) (names : list string) : bool :=
  pyval_eqb (VList l) (VList (map VStr names)).

(** ** Conversion functions *)

(** [x.strip()]: only a string has the method. *)
Definition str_strip (x : pyval) : result string :=
  match x with
  | VStr s => Ok (strip s)
  | _ => Err AttributeError
  end.

(** The tokens read as the hidden flag. *)
Definition truthy_tokens : list string := ["yes"; "true"; "t"; "y"; "1"; "on"].
Definition falsy_tokens : list string := ["no"; "false"; "f"; "n"; "0"; "off"].

Definition incorrect_keys : exn :=
  EasyBuildError "Incorrect set of keys in provided dictionary, should be only name/version/hidden".

Definition to_toolchain_dict (spec : pyval) : result pyval :=
  let spec :=
    match spec with
    | VStr s => VList (map VStr (split "," s))
    | _ => spec
    end in
  match spec with
  | VList l | VTuple l =>
      match l with
      | [n; v] =>
          (* 2-element list *)
          let* name := str_strip n in
          let* version := str_strip v in
          Ok (VDict [(VStr "name", VStr name); (VStr "version", VStr version)])
      | [n; v; h] =>
          (* 3-element list *)
          let* h := str_strip h in
          let hidden := lower h in
          let* hidden :=
            if existsb (String.eqb hidden) truthy_tokens
            then Ok true
            else if existsb (String.eqb hidden) falsy_tokens
            then Ok false
            else Err (EasyBuildError "Invalid truth value") in
          let* name := str_strip n in
          let* version := str_strip v in
          Ok (VDict [(VStr "name", VStr name); (VStr "version", VStr version);
                     (VStr "hidden", VBool hidden)])
      | _ => Err (EasyBuildError "Can not convert list to toolchain dict. Expected 2 or 3 elements")
      end
  | VDict d =>
      (* already a dict, check keys *)
      let* sorted_keys := sorted (keys d) in
      if eq_strings sorted_keys ["name"; "version"]
         || eq_strings sorted_keys ["hidden"; "name"; "version"]
      then Ok spec
      else Err incorrect_keys
  | _ => Err (EasyBuildError "Conversion to toolchain dict is not supported")
  end.


(** [[f(x) for x in l]]: the first exception ends the loop. *)
Definition map_res {A B} (f : A -> result B) : list A -> result (list B) :=
  fix go (l : list A) : result (list B) :=
    match l with
    | [] => Ok []
    | x :: l' =>
        let* y := f x in
        let* r := go l' in
        Ok (y :: r)
    end.

Definition is_str (v : pyval) : bool :=
  match v with VStr _ => true | _ => false end.

Definition to_list_of_strings (value : pyval) : result pyval :=
  match value with
  | VList l =>
      if forallb is_str l then Ok value
      else Err (EasyBuildError "Don't know how to convert provided value to a list of strings")
  | VStr _ => Ok (VList [value])
  | VTuple l =>
      if forallb is_str l then Ok (VList l)
      else Err (EasyBuildError "Don't know how to convert provided value to a list of strings")
  | _ => Err (EasyBuildError "Don't know how to convert provided value to a list of strings")
  end.

Definition to_list_of_strings_and_tuples (spec : pyval) : result pyval :=
  match spec with
  | VList l | VTuple l =>
      let* str_tup_list :=
        map_res
          (fun elem =>
             match elem with
             | VStr _ | VTuple _ => Ok elem
             | VList x => Ok (VTuple x)
             | _ => Err (EasyBuildError "Expected elements to be of type string, tuple or list")
             end) l in
      Ok (VList str_tup_list)
  | _ => Err (EasyBuildError "Expected value to be a list")
  end.

Definition to_list_of_strings_and_tuples_and_dicts (spec : pyval) : result pyval :=
  match spec with
  | VList l | VTuple l =>
      let* str_tup_list :=
        map_res
          (fun elem =>
             match elem with
             | VStr _ | VTuple _ | VDict _ => Ok elem
             | VList x => Ok (VTuple x)
             | _ => Err (EasyBuildError "Expected elements to be of type string, tuple, dict or list")
             end) l in
      Ok (VList str_tup_list)
  | _ => Err (EasyBuildError "Expected value to be a list")
  end.

(** The value [to_sanity_check_paths_entry] returns.  The source updates
    the dicts among the elements in place; what that does to the
    argument is modelled on a store in module [Store] below. *)
Definition to_sanity_check_paths_entry (spec : pyval) : result pyval :=
  match spec with
  | VList l | VTuple l =>
      let* result :=
        map_res
          (fun elem =>
             match elem with
             | VStr _ | VTuple _ => Ok elem
             | VList x => Ok (VTuple x)
             | VDict d =>
                 let* d' :=
                   map_res
                     (fun kv : pyval * pyval =>
                        let (key, value) := kv in
                        if negb (is_str key)
                        then Err (EasyBuildError "Expected keys to be of type string")
                        else match value with
                             | VList x => Ok (key, VTuple x)
                             | VStr _ | VTuple _ => Ok (key, value)
                             | _ => Err (EasyBuildError "Expected elements to be of type string, tuple or list")
                             end) d in
                 Ok (VDict d')
             | _ => Err (EasyBuildError "Expected elements to be of type string, tuple/list or dict")
             end) l in
      Ok (VList result)
  | _ => Err (EasyBuildError "Expected value to be a list")
  end.

Definition to_sanity_check_paths_dict (spec : pyval) : result pyval :=
  match spec with
  | VDict d =>
      let* sanity_check_dict :=
        map_res
          (fun kv : pyval * pyval =>
             let* entry := to_sanity_check_paths_entry (snd kv) in
             Ok (fst kv, entry)) d in
      Ok (VDict sanity_check_dict)
  | _ => Err (EasyBuildError "Expected value to be a dict")
  end.

(** [d[k]] *)
Definition dict_item (k : pyval) (d : list (pyval * pyval)) : result pyval :=
  match dict_get k d with
  | Some v => Ok v
  | None => Err KeyError
  end.

(** The items a [for] loop over a value visits. *)
Definition iter_val (v : pyval) : result (list pyval) :=
  match v with
  | VList l | VTuple l => Ok l
  | VDict d => Ok (keys d)
  | VStr s => Ok (map (fun c => VStr (String c EmptyString)) (list_ascii_of_string s))
  | _ => Err TypeError
  end.

Section Builtins.

(** Python's built-in [str], which the module calls on arbitrary values. *)
Variable py_str : pyval -> string.

Definition unexpected_external : exn :=
  EasyBuildError "Unexpected format for dependency marked as external module".

Definition to_dependency (dep : pyval) : result pyval :=
  match dep with
  | VDict d =>
      let has_name_version (depspec : list (pyval * pyval)) :=
        dict_mem (VStr "name") depspec && dict_mem (VStr "version") depspec in
      let* depspec :=
        if match dict_get (VStr "external_module") d with
           | Some m => truthy m
           | None => false
           end
        then
          let* sorted_keys := sorted (keys d) in
          if eq_strings sorted_keys ["external_module"; "name"]
          then
            let* full := dict_item (VStr "name") d in
            let* short := dict_item (VStr "name") d in
            Ok [(VStr "external_module", VBool true);
                (VStr "full_mod_name", full);
                (VStr "name", VNone);
                (VStr "short_mod_name", short);
                (VStr "version", VNone)]
          else Err unexpected_external
        else
          (* name/version keys are handled first *)
          let* first :=
            fold_left
              (fun (acc : result (list (pyval * pyval) * list pyval)) (key : string) =>
                 let* st := acc in
                 let (depspec, dep_keys) := st in
                 if dict_mem (VStr key) d
                 then
                   let* v := dict_item (VStr key) d in
                   Ok (dict_set (VStr key) (VStr (py_str v)) depspec,
                       list_remove (VStr key) dep_keys)
                 else Ok st)
              ["name"; "version"] (Ok ([], keys d)) in
          let (depspec, dep_keys) := first in
          let* depspec :=
            fold_left
              (fun (acc : result (list (pyval * pyval))) (key : pyval) =>
                 let* depspec := acc in
                 if pyval_eqb key (VStr "versionsuffix")
                 then
                   let* v := dict_item key d in
                   Ok (dict_set key (VStr (py_str v)) depspec)
                 else if pyval_eqb key (VStr "toolchain")
                 then
                   let* v := dict_item key d in
                   let* tc := to_toolchain_dict v in
                   Ok (dict_set (VStr "toolchain") tc depspec)
                 else if negb (has_name_version depspec)
                 then
                   let* v := dict_item key d in
                   Ok (dict_set (VStr "version") (VStr (py_str v))
                         (dict_set (VStr "name") key depspec))
                 else Err (EasyBuildError "Found unexpected (key, value) pair"))
              dep_keys (Ok depspec) in
          if negb (has_name_version depspec)
          then Err (EasyBuildError "Can not parse dependency without name and version")
          else Ok depspec in
      Ok (VDict depspec)
  | _ =>
      (* pass down value untouched *)
      Ok dep
  end.

Definition to_dependencies (dep_list : pyval) : result pyval :=
  let* deps := iter_val dep_list in
  let* res := map_res to_dependency deps in
  Ok (VList res).

End Builtins.

Definition is_str_or_int (v : pyval) : bool :=
  match v with VStr _ | VInt _ | VBool _ => true | _ => false end.

Definition is_none (v : pyval) : bool :=
  match v with VNone => true | _ => false end.

Definition unexpected_type : exn := ValueError "Unexpected type".

Fixpoint _to_checksum (checksum : pyval) (list_level : Z) (allow_dict : bool)
  {struct checksum} : result pyval :=
  match checksum with
  | VNone | VStr _ => Ok checksum
  | VList l | VTuple l =>
      if match l with
         | [c0; c1] => is_str c0 && is_str_or_int c1
         | _ => false
         end
      then
        (* convert to tuple only if this cannot be 2 checksums of a list *)
        if negb (is_str (nth 1 l VNone)) || (list_level >? 0)
        then Ok (VTuple l)
        else Ok checksum
      else if list_level <? 2 then
        if existsb is_none l
        then Err (ValueError "Unexpected None")
        else if match checksum with VTuple _ => true | _ => false end
                || (list_level >? 0)
        then
          let* r := map_res (fun x => _to_checksum x 99 allow_dict) l in
          Ok (VTuple r)
        else
          let* r := map_res (fun x => _to_checksum x (list_level + 1) allow_dict) l in
          Ok (VList r)
      else Err unexpected_type
  | VDict d =>
      if allow_dict
      then
        let* r :=
          map_res
            (fun kv : pyval * pyval =>
               let* v := _to_checksum (snd kv) 0 false in
               Ok (fst kv, v)) d in
        Ok (VDict r)
      else Err unexpected_type
  | _ => Err unexpected_type
  end.

Definition to_checksums (checksums : pyval) : result pyval :=
  let* items := iter_val checksums in
  match map_res (fun checksum => _to_checksum checksum 0 true) items with
  | Ok r => Ok (VList r)
  | Err (ValueError _) => Err (EasyBuildError "Invalid checksums")
  | Err e => Err e
  end.


Definition unsupported_license_type : exn :=
  EasyBuildError "Unsupported type for easyconfig parameter 'license_file'! Can either be None, a string, or a tuple/list of strings.".

Definition ensure_iterable_license_specs (specs : pyval) : result pyval :=
  match specs with
  | VNone => Ok (VList [VNone])
  | VStr _ => Ok (VList [specs])
  | VList l | VTuple l =>
      if forallb is_str l then Ok (VList l) else Err unsupported_license_type
  | _ => Err unsupported_license_type
  end.

(** ** The dispatcher *)

(** [d[k] = v] and [d.get(k)] on a dict with string keys. *)
Fixpoint sdict_set {A} (k : string) (v : A) (d : list (string * A)) : list (string * A) :=
  match d with
  | [] => [(k, v)]
  | (k', v') :: d' =>
      if String.eqb k k' then (k', v) :: d' else (k', v') :: sdict_set k v d'
  end.

Fixpoint sdict_get {A} (k : string) (d : list (string * A)) : option A :=
  match d with
  | [] => None
  | (k', v) :: d' => if String.eqb k k' then Some v else sdict_get k d'
  end.

Section Dispatcher.

(** Python's built-in [str], [int] and [float], which are the conversion
    functions of the types of the same name. *)
Variable py_str : pyval -> string.
Variable py_int : pyval -> result pyval.
Variable py_float : pyval -> result pyval.

(** The constant [DEPENDENCY_PARAMETERS] of [easyconfig/format/format.py]:
    the names of the parameters that hold dependencies. *)
Variable DEPENDENCY_PARAMETERS : list string.

(** Type checking is skipped for parameter names not listed here. *)
Definition PARAMETER_TYPES : list (string * tobj) :=
  fold_left
    (fun types dep => sdict_set dep DEPENDENCIES types)
    DEPENDENCY_PARAMETERS
    [("checksums", CHECKSUMS);
     ("docurls", LIST_OF_STRINGS);
     ("name", str_);
     ("osdependencies", STRING_OR_TUPLE_LIST);
     ("patches", STRING_OR_TUPLE_OR_DICT_LIST);
     ("sanity_check_paths", SANITY_CHECK_PATHS_DICT);
     ("toolchain", TOOLCHAIN_DICT);
     ("version", str_)].

Definition TYPE_CONVERSION_FUNCTIONS : list (tobj * (pyval -> result pyval)) :=
  [(str_, fun v => Ok (VStr (py_str v)));
   (float_, py_float);
   (int_, py_int);
   (CHECKSUMS, to_checksums);
   (DEPENDENCIES, to_dependencies py_str);
   (LIST_OF_STRINGS, to_list_of_strings);
   (TOOLCHAIN_DICT, to_toolchain_dict);
   (SANITY_CHECK_PATHS_DICT, to_sanity_check_paths_dict);
   (STRING_OR_TUPLE_LIST, to_list_of_strings_and_tuples);
   (STRING_OR_TUPLE_OR_DICT_LIST, to_list_of_strings_and_tuples_and_dicts)].

Fixpoint conversion_function (typ : tobj)
  (fs : list (tobj * (pyval -> result pyval))) : option (pyval -> result pyval) :=
  match fs with
  | [] => None
  | (t, f) :: fs' => if tobj_eqb typ t then Some f else conversion_function typ fs'
  end.

Definition conversion_failed : exn :=
  EasyBuildError "Converting type failed".
Definition conversion_unexpected : exn :=
  EasyBuildError "Converting value to type didn't work as expected".
Definition no_conversion : exn :=
  EasyBuildError "No conversion function available (yet) for target type".

Definition convert_value_type (val : pyval) (typ : tobj) : result pyval :=
  let* easy :=
    if tobj_in typ EASY_TYPES then py_isinstance val typ else Ok false in
  if easy then Ok val
  else
    let* checkable :=
      if tobj_in typ CHECKABLE_TYPES then is_value_of_type val typ else Ok false in
    if checkable then Ok val
    else if negb (hashable typ) then Err TypeError
    else
      match conversion_function typ TYPE_CONVERSION_FUNCTIONS with
      | Some func =>
          match func val with
          | Err _ => Err conversion_failed
          | Ok res =>
              let* ok := py_isinstance res typ in
              if ok then Ok res else Err conversion_unexpected
          end
      | None => Err no_conversion
      end.

(** Returns the pair [(type_ok, newval)]; [newval] is [None] when the
    check fails and no conversion is asked for. *)
Definition check_type_of_param_value (key : string) (val : pyval)
  (auto_convert : bool) : result (bool * pyval) :=
  let expected_type := sdict_get key PARAMETER_TYPES in
  let* type_ok :=
    match expected_type with
    | None => Ok true
    | Some t => is_value_of_type val t
    end in
  if type_ok then Ok (true, val)
  else if auto_convert then
    match expected_type with
    | Some t =>
        let* newval := convert_value_type val t in
        Ok (true, newval)
    | None => Err no_conversion
    end
  else Ok (false, VNone).

End Dispatcher.


(** What a call of [convert_value_type] for the type [T] may end in: a
    value that [isinstance] accepts for [T], or an [EasyBuildError],
    which is the one about an unexpected result for [int] and [float]
    only. *)
Definition conversion_outcome (T : tobj) (res : result pyval) : Prop :=
  match res with
  | Ok r => py_isinstance r T = Ok true
  | Err e => (exists msg, e = EasyBuildError msg) /\
             (e = conversion_unexpected -> T = int_ \/ T = float_)
  end.

(** ** The sanity-check-paths conversions on a store

    [to_sanity_check_paths_entry] assigns to the dicts it finds among the
    elements of its argument.  To see what a call does to the objects of
    the caller, lists and dicts live in a store and are referred to by
    their location; strings, numbers, [None] and tuples are immutable and
    stay values. *)
Module Store.

Definition loc := nat.

Inductive sval : Type :=
| SNone
| SBool (b : bool)
| SInt (n : Z)
| SFloat (m e : Z)
| SStr (s : string)
| STuple (l : list sval)
| SRef (p : loc).

Inductive cell : Type :=
| CList (items : list sval)
| CDict (items : list (sval * sval)).

Definition store := list cell.

Definition lookup (st : store) (p : loc) : option cell := nth_error st p.

Fixpoint update (p : loc) (c : cell) (st : store) : store :=
  match st, p with
  | [], _ => []
  | _ :: st', O => c :: st'
  | x :: st', S p' => x :: update p' c st'
  end.

(** [d[key] = v] for a string [key] that [d] has. *)
Fixpoint set_item (key : string) (v : sval) (d : list (sval * sval))
  : list (sval * sval) :=
  match d with
  | [] => [(SStr key, v)]
  | (SStr k, v') :: d' =>
      if String.eqb key k then (SStr k, v) :: d'
      else (SStr k, v') :: set_item key v d'
  | kv :: d' => kv :: set_item key v d'
  end.

(** [elem[key] = v] for the dict at [q]. *)
Definition assign (q : loc) (key : string) (v : sval) (st : store) : store :=
  match lookup st q with
  | Some (CDict d) => update q (CDict (set_item key v d)) st
  | _ => st
  end.

(** The loop over [elem.items()] for the dict [elem] at [q].  It
    assigns to the key it is at only, so the items still to be visited
    are the ones the dict had when the loop started. *)
Fixpoint convert_items (q : loc) (items : list (sval * sval)) (st : store)
  : result unit * store :=
  match items with
  | [] => (Ok tt, st)
  | (key, value) :: rest =>
      match key with
      | SStr k =>
          match value with
          | SStr _ | STuple _ => convert_items q rest st
          | SRef r =>
              match lookup st r with
              | Some (CList x) => convert_items q rest (assign q k (STuple x) st)
              | _ => (Err (EasyBuildError "Expected elements to be of type string, tuple or list"), st)
              end
          | _ => (Err (EasyBuildError "Expected elements to be of type string, tuple or list"), st)
          end
      | _ => (Err (EasyBuildError "Expected keys to be of type string"), st)
      end
  end.

(** The loop over the elements of [spec]; returns the items of [result]. *)
Fixpoint convert_elems (elems : list sval) (st : store)
  : result (list sval) * store :=
  let continue (x : sval) (rest : list sval) (st : store) :=
    match convert_elems rest st with
    | (Ok r, st') => (Ok (x :: r), st')
    | (Err e, st') => (Err e, st')
    end in
  match elems with
  | [] => (Ok [], st)
  | elem :: rest =>
      match elem with
      | SStr _ | STuple _ => continue elem rest st
      | SRef q =>
          match lookup st q with
          | Some (CList x) => continue (STuple x) rest st
          | Some (CDict d) =>
              match convert_items q d st with
              | (Ok _, st') => continue elem rest st'
              | (Err e, st') => (Err e, st')
              end
          | None => (Err TypeError, st)
          end
      | _ => (Err (EasyBuildError "Expected elements to be of type string, tuple/list or dict"), st)
      end
  end.

(** The items of a list or tuple. *)
Definition sequence (spec : sval) (st : store) : option (list sval) :=
  match spec with
  | STuple l => Some l
  | SRef p => match lookup st p with Some (CList l) => Some l | _ => None end
  | _ => None
  end.

(** Returns the new list [result], and the store the call leaves. *)
Definition to_sanity_check_paths_entry (spec : sval) (st : store)
  : result sval * store :=
  match sequence spec st with
  | Some elems =>
      match convert_elems elems st with
      | (Ok r, st') => (Ok (SRef (List.length st')), (st' ++ [CList r])%list)
      | (Err e, st') => (Err e, st')
      end
  | None => (Err (EasyBuildError "Expected value to be a list"), st)
  end.

(** The loop [for key in spec] for the dict [spec] at [q]: the keys are
    the [n] keys from position [i] on, and [spec[key]] is read from
    the store as it is when the key is reached. *)
Fixpoint convert_keys (q : loc) (i n : nat) (st : store)
  : result (list (sval * sval)) * store :=
  match n with
  | O => (Ok [], st)
  | S n' =>
      match lookup st q with
      | Some (CDict d) =>
          match nth_error d i with
          | Some (key, value) =>
              match to_sanity_check_paths_entry value st with
              | (Ok entry, st') =>
                  match convert_keys q (S i) n' st' with
                  | (Ok r, st'') => (Ok ((key, entry) :: r), st'')
                  | (Err e, st'') => (Err e, st'')
                  end
              | (Err e, st') => (Err e, st')
              end
          | None => (Err KeyError, st)
          end
      | _ => (Err TypeError, st)
      end
  end.

Definition to_sanity_check_paths_dict (spec : sval) (st : store)
  : result sval * store :=
  match spec with
  | SRef q =>
      match lookup st q with
      | Some (CDict d) =>
          match convert_keys q 0 (List.length d) st with
          | (Ok r, st') => (Ok (SRef (List.length st')), (st' ++ [CDict r])%list)
          | (Err e, st') => (Err e, st')
          end
      | _ => (Err (EasyBuildError "Expected value to be a dict"), st)
      end
  | _ => (Err (EasyBuildError "Expected value to be a dict"), st)
  end.

(** The value an object of the store stands for, down to depth [fuel]. *)
Fixpoint snapshot (fuel : nat) (st : store) (v : sval) : option pyval :=
  let all (f : sval -> option pyval) :=
    fix go (l : list sval) : option (list pyval) :=
      match l with
      | [] => Some []
      | x :: l' =>
          match f x, go l' with
          | Some y, Some r => Some (y :: r)
          | _, _ => None
          end
      end in
  match fuel with
  | O => None
  | S fuel' =>
      match v with
      | SNone => Some VNone
      | SBool b => Some (VBool b)
      | SInt n => Some (VInt n)
      | SFloat m e => Some (VFloat m e)
      | SStr s => Some (VStr s)
      | STuple l => option_map VTuple (all (snapshot fuel' st) l)
      | SRef p =>
          match lookup st p with
          | Some (CList l) => option_map VList (all (snapshot fuel' st) l)
          | Some (CDict d) =>
              match all (snapshot fuel' st) (map fst d),
                    all (snapshot fuel' st) (map snd d) with
              | Some ks, Some vs => Some (VDict (combine ks vs))
              | _, _ => None
              end
          | None => None
          end
      end
  end.

(** The objects of the docstring example
    [['foo', ['bar', 'baz'], {'f42': ['a', 'b']}]]: the list of the dict
    at 0, the dict at 1, the inner list at 2 and the argument at 3. *)
Definition example_store : store :=
  [CList [SStr "a"; SStr "b"];
   CDict [(SStr "f42", SRef 0%nat)];
   CList [SStr "bar"; SStr "baz"];
   CList [SStr "foo"; SRef 2%nat; SRef 1%nat]].
Definition example_spec : sval := SRef 3%nat.

(** The value [v] after conversion: the tuple of the items of the list
    [v] refers to, and [v] itself when it is no list. *)
Definition conv_value (st : store) (v : sval) : sval :=
  match v with
  | SRef r =>
      match lookup st r with
      | Some (CList x) => STuple x
      | _ => v
      end
  | _ => v
  end.

Definition conv_item (st : store) (kv : sval * sval) : sval * sval :=
  (fst kv, conv_value st (snd kv)).

(** An entry of a dict is as it was, or converted. *)
Definition item_step (st : store) (kv kv' : sval * sval) : Prop :=
  kv' = kv \/ kv' = conv_item st kv.

(** The keys of a dict are different from each other. *)
Definition unique_keys (st : store) : Prop :=
  forall p d, lookup st p = Some (CDict d) -> NoDup (map fst d).

(** Every reference in [v] is to one of the first [n] objects. *)
Fixpoint bounded (n : nat) (v : sval) : Prop :=
  match v with
  | SRef p => (p < n)%nat
  | STuple l =>
      (fix all (l : list sval) : Prop :=
         match l with
         | [] => True
         | x :: l' => bounded n x /\ all l'
         end) l
  | _ => True
  end.

(** The objects of the store refer to objects of the store. *)
Definition closed (st : store) : Prop :=
  forall p c, lookup st p = Some c ->
    match c with
    | CList l => Forall (bounded (List.length st)) l
    | CDict d => Forall (fun kv => bounded (List.length st) (snd kv)) d
    end.

(** What a call leaves of the objects of [st]: every list with the items
    it had; every dict with its entries in place, each as it was or
    converted, and as it was when the dict is not [touched]. *)
Definition kept (st st' : store) (touched : loc -> Prop) : Prop :=
  (forall p l, lookup st p = Some (CList l) -> lookup st' p = Some (CList l)) /\
  (forall p d, lookup st p = Some (CDict d) ->
     exists d', lookup st' p = Some (CDict d') /\
                Forall2 (item_step st) d d' /\
                (~ touched p -> d' = d)).

(** The dict at [p] is an element of the sequence [spec]. *)
Definition element_of (st : store) (spec : sval) (p : loc) : Prop :=
  exists elems, sequence spec st = Some elems /\ In (SRef p) elems.

(** The list for the sequence [spec] is at [at_loc] in [st']: it has the
    elements of [spec], converted, and the dicts among them have all
    their entries converted. *)
Definition entry_built (st : store) (spec : sval) (st' : store) (at_loc : loc)
  : Prop :=
  exists elems,
    sequence spec st = Some elems /\
    lookup st' at_loc = Some (CList (map (conv_value st) elems)) /\
    forall p d, In (SRef p) elems -> lookup st p = Some (CDict d) ->
                lookup st' p = Some (CDict (map (conv_item st) d)).

(** [v] is the list [to_sanity_check_paths_entry] returns for [spec]: a
    new object, the only one the call adds. *)
Definition entry_result (st : store) (spec : sval) (st' : store) (v : sval)
  : Prop :=
  v = SRef (List.length st) /\
  List.length st' = S (List.length st) /\
  entry_built st spec st' (List.length st).

(** The dict at [p] is an element of one of the values of the dict [spec]. *)
Definition element_of_value (st : store) (spec : sval) (p : loc) : Prop :=
  exists q d k val,
    spec = SRef q /\ lookup st q = Some (CDict d) /\ In (k, val) d /\
    element_of st val p.

(** [v] is the dict [to_sanity_check_paths_dict] returns for [spec]: a
    new object that has the keys of [spec], in their order, and under
    the key at position [i] the new list built for the value at that
    position. *)
Definition dict_result (st : store) (spec : sval) (st' : store) (v : sval)
  : Prop :=
  exists q d,
    spec = SRef q /\ lookup st q = Some (CDict d) /\
    v = SRef (List.length st + List.length d)%nat /\
    List.length st' = S (List.length st + List.length d)%nat /\
    lookup st' (List.length st + List.length d)%nat
    = Some (CDict (combine (map fst d)
                     (map SRef (seq (List.length st) (List.length d))))) /\
    forall i k val, nth_error d i = Some (k, val) ->
                    entry_built st val st' (List.length st + i)%nat.

(** The two stores have the same lists. *)
Definition same_lists (st st' : store) : Prop :=
  forall p l, lookup st p = Some (CList l) <-> lookup st' p = Some (CList l).

(** What the loop over the items of the dict at [q] has done, from the
    point where the entries [done] have been visited: it has assigned to
    the dict at [q] and to nothing else, the entries left are each as
    they were or converted, and all converted when the loop ends without
    error. *)
Definition items_post (q : loc) (done rest : list (sval * sval))
  (st : store) (out : result unit * store) : Prop :=
  List.length (snd out) = List.length st /\
  (forall p, p <> q -> lookup (snd out) p = lookup st p) /\
  exists rest',
    lookup (snd out) q = Some (CDict (done ++ rest')%list) /\
    Forall2 (item_step st) rest rest' /\
    (forall u, fst out = Ok u -> rest' = map (conv_item st) rest).

(** [result.append(x)] after the rest of the loop. *)
Definition push (x : sval) (out : result (list sval) * store)
  : result (list sval) * store :=
  match out with
  | (Ok r, st') => (Ok (x :: r), st')
  | (Err e, st') => (Err e, st')
  end.

(** What the loop over the elements [elems] has done: no object is
    added, the lists are as they were, a dict that is no element is as
    it was, a dict that is one has its entries as they were or
    converted, and all converted when the loop ends without error; the
    elements collected are the elements converted. *)
Definition elems_post (elems : list sval) (st : store)
  (out : result (list sval) * store) : Prop :=
  List.length (snd out) = List.length st /\
  (forall p l, lookup st p = Some (CList l) ->
               lookup (snd out) p = Some (CList l)) /\
  (forall p d, lookup st p = Some (CDict d) ->
     exists d', lookup (snd out) p = Some (CDict d') /\
       Forall2 (item_step st) d d' /\
       (~ In (SRef p) elems -> d' = d) /\
       (forall r, fst out = Ok r -> In (SRef p) elems ->
                  d' = map (conv_item st) d)) /\
  (forall r, fst out = Ok r -> r = map (conv_value st) elems).

(** The values of the entries [d] refer to the first [n] objects. *)
Definition bounded_items (n : nat) (d : list (sval * sval)) : Prop :=
  Forall (fun kv => bounded n (snd kv)) d.

(** The store [st] in the course of [to_sanity_check_paths_dict] on
    [st0]: the objects of [st0] are kept, and the objects added since
    are lists. *)
Definition evolved (st0 st : store) (touched : loc -> Prop) : Prop :=
  kept st0 st touched /\
  forall p, (List.length st0 <= p)%nat -> (p < List.length st)%nat ->
            exists l, lookup st p = Some (CList l).

(** The lists for the first [i] values of the dict [d0] are in [st]. *)
Definition built (st0 : store) (d0 : list (sval * sval)) (st : store)
  (i : nat) : Prop :=
  forall j k val, (j < i)%nat -> nth_error d0 j = Some (k, val) ->
                  entry_built st0 val st (List.length st0 + j)%nat.

End Store.


(** ** Vocabulary of the properties *)



(** [c] does not occur in [s]. *)
Fixpoint no_sep (c : ascii) (s : string) : bool :=
  match s with
  | EmptyString => true
  | String a s' => negb (Ascii.eqb a c) && no_sep c s'
  end.

Definition name_version : list pyval := [VStr "name"; VStr "version"].
Definition hidden_name_version : list pyval :=
  [VStr "hidden"; VStr "name"; VStr "version"].

(** The keys of [d] are exactly name and version, or exactly hidden,
    name and version. *)
Definition toolchain_keys (d : list (pyval * pyval)) : Prop :=
  Permutation (keys d) name_version \/ Permutation (keys d) hidden_name_version.

Definition external_module_name : list pyval :=
  [VStr "external_module"; VStr "name"].

(** The descriptors the matcher knows. *)
Definition registered (T : tobj) : Prop := In T (EASY_TYPES ++ CHECKABLE_TYPES).

(** The parent type of a checkable descriptor. *)
Definition parent_of (T : tobj) : option pytype :=
  match T with
  | OTuple (OType P :: _) => Some P
  | _ => None
  end.

Definition is_bool (v : pyval) : bool :=
  match v with VBool _ => true | _ => false end.

Definition is_list (v : pyval) : bool :=
  match v with VList _ => true | _ => false end.

(** A string, a tuple or a dict: what the list conversions keep. *)
Definition is_str_or_tuple (v : pyval) : bool :=
  match v with VStr _ | VTuple _ => true | _ => false end.

(** What [TOOLCHAIN_DICT] asks of an entry: a boolean under hidden, a
    string under name and version, and no other key. *)
Definition toolchain_item_ok (kv : pyval * pyval) : bool :=
  match fst kv with
  | VStr k =>
      if String.eqb k "hidden" then is_bool (snd kv)
      else if String.eqb k "name" || String.eqb k "version" then is_str (snd kv)
      else false
  | _ => false
  end.

(** [name in d] for a string [name]. *)
Definition has_key (name : string) (d : list (pyval * pyval)) : bool :=
  existsb (fun kv : pyval * pyval => key_eq (fst kv) (OStr name)) d.

Definition unknown_descriptor : exn :=
  EasyBuildError "Don't know how to check whether specified value is of type".

Definition wrong_length : exn :=
  EasyBuildError "Can not convert list to toolchain dict. Expected 2 or 3 elements".

(** A sequence of two items, a string and then a string or an integer. *)
Definition pair_shaped (l : list pyval) : bool :=
  match l with
  | [c0; c1] => is_str c0 && is_str_or_int c1
  | _ => false
  end.

Definition is_tuple (v : pyval) : bool :=
  match v with VTuple _ => true | _ => false end.

(** *** Strings that differ in the case of ASCII letters only *)

Definition is_ascii_upper (c : ascii) : bool :=
  let n := nat_of_ascii c in ((65 <=? n) && (n <=? 90))%nat.

(** [c] and [d] are the same character, or the two cases of one ASCII
    letter. *)
Definition same_char_ci (c d : ascii) : bool :=
  Ascii.eqb c d
  || (is_ascii_upper c && (nat_of_ascii d =? nat_of_ascii c + 32)%nat)
  || (is_ascii_upper d && (nat_of_ascii c =? nat_of_ascii d + 32)%nat).

Fixpoint same_ci (a b : string) : bool :=
  match a, b with
  | EmptyString, EmptyString => true
  | String c a', String d b' => same_char_ci c d && same_ci a' b'
  | _, _ => false
  end.

(** A character that is no upper-case ASCII letter and has no lower-case
    form above the ASCII range either. *)
Definition plain_char (d : ascii) : bool :=
  negb (is_ascii_upper d) && (nat_of_ascii d <? 192)%nat.

Fixpoint plain (t : string) : bool :=
  match t with
  | EmptyString => true
  | String d t' => plain_char d && plain t'
  end.

Definition all_ascii : list ascii := map ascii_of_nat (seq 0 256).

Definition invalid_truth_value : exn := EasyBuildError "Invalid truth value".

(** The parameter types before the dependency parameters are added. *)
Definition base_parameter_types : list (string * tobj) :=
  [("checksums", CHECKSUMS);
   ("docurls", LIST_OF_STRINGS);
   ("name", str_);
   ("osdependencies", STRING_OR_TUPLE_LIST);
   ("patches", STRING_OR_TUPLE_OR_DICT_LIST);
   ("sanity_check_paths", SANITY_CHECK_PATHS_DICT);
   ("toolchain", TOOLCHAIN_DICT);
   ("version", str_)].

(** The keys [to_dependency] gives a meaning of their own. *)
Definition reserved_keys : list string :=
  ["external_module"; "name"; "version"; "versionsuffix"; "toolchain"].

Definition unexpected_pair : exn :=
  EasyBuildError "Found unexpected (key, value) pair".

Definition no_name_version : exn :=
  EasyBuildError "Can not parse dependency without name and version".

(** The matcher returns on [v] for every registered descriptor. *)
Definition checks (v : pyval) : Prop :=
  forall T, registered T -> exists b, is_value_of_type v T = Ok b.

(** [_to_checksum] keeps what the tests on the items of a sequence see. *)
Definition same_kind (x y : pyval) : Prop :=
  is_str y = is_str x /\ is_str_or_int y = is_str_or_int x /\ is_none y = is_none x.


(** Induction on descriptor objects, with the hypothesis for the items of
    a tuple. *)
Fixpoint tobj_tuple_ind (P : tobj -> Prop)
  (HType : forall t, P (OType t)) (HStr : forall s, P (OStr s))
  (HTuple : forall l, Forall P l -> P (OTuple l))
  (HList : forall l, P (OList l)) (HDict : forall d, P (ODict d))
  (t : tobj) {struct t} : P t :=
  match t with
  | OType ty => HType ty
  | OStr s => HStr s
  | OTuple l =>
      HTuple l ((fix go (l : list tobj) : Forall P l :=
                   match l with
                   | [] => Forall_nil P
                   | x :: l' =>
                       Forall_cons x
                         (tobj_tuple_ind P HType HStr HTuple HList HDict x) (go l')
                   end) l)
  | OList l => HList l
  | ODict d => HDict d
  end.

(** Induction on values, with the hypothesis for the items of a container. *)
Fixpoint pyval_nested_ind (P : pyval -> Prop)
  (HNone : P VNone) (HBool : forall b, P (VBool b)) (HInt : forall n, P (VInt n))
  (HFloat : forall m e, P (VFloat m e)) (HStr : forall s, P (VStr s))
  (HList : forall l, Forall P l -> P (VList l))
  (HTuple : forall l, Forall P l -> P (VTuple l))
  (HDict : forall d, Forall (fun kv => P (fst kv) /\ P (snd kv)) d -> P (VDict d))
  (v : pyval) {struct v} : P v :=
  let rec := pyval_nested_ind P HNone HBool HInt HFloat HStr HList HTuple HDict in
  match v with
  | VNone => HNone
  | VBool b => HBool b
  | VInt n => HInt n
  | VFloat m e => HFloat m e
  | VStr s => HStr s
  | VList l =>
      HList l ((fix go (l : list pyval) : Forall P l :=
                  match l with
                  | [] => Forall_nil P
                  | x :: l' => Forall_cons x (rec x) (go l')
                  end) l)
  | VTuple l =>
      HTuple l ((fix go (l : list pyval) : Forall P l :=
                   match l with
                   | [] => Forall_nil P
                   | x :: l' => Forall_cons x (rec x) (go l')
                   end) l)
  | VDict d =>
      HDict d ((fix go (d : list (pyval * pyval))
                  : Forall (fun kv => P (fst kv) /\ P (snd kv)) d :=
                  match d with
                  | [] => Forall_nil _
                  | kv :: d' => Forall_cons kv (conj (rec (fst kv)) (rec (snd kv))) (go d')
                  end) d)
  end.

(** * Properties *)

(** ** Unfolding and basic facts *)

Lemma is_value_of_type_unfold (value : pyval) (expected_type : tobj) :
  is_value_of_type value expected_type =
  if tobj_in expected_type EASY_TYPES then
    py_isinstance value expected_type
  else if tobj_in expected_type CHECKABLE_TYPES then
    let* parent_type := py_index expected_type 0 in
    let* reqs := py_index expected_type 1 in
    let* extra_reqs := py_dict reqs in
    let* type_ok := py_isinstance value parent_type in
    if type_ok then
      all_res
        (fun er : tobj * tobj =>
           let er_key := fst er in
           if tobj_eqb er_key (OStr "elem_types") then
             let* ts := odict_get "elem_types" extra_reqs in
             check_element_types is_value_of_type value ts
           else if tobj_eqb parent_type dict_ && tobj_eqb er_key (OStr "key_types") then
             let* ts := odict_get "key_types" extra_reqs in
             check_key_types is_value_of_type value ts
           else if tobj_eqb parent_type dict_ && tobj_eqb er_key (OStr "opt_keys") then
             let* opt := odict_get "opt_keys" extra_reqs in
             let* req := odict_get "req_keys" extra_reqs in
             let* allowed := py_add opt req in
             check_known_keys value allowed
           else if tobj_eqb parent_type dict_ && tobj_eqb er_key (OStr "req_keys") then
             let* req := odict_get "req_keys" extra_reqs in
             check_required_keys value req
           else Err (EasyBuildError "Unknown type requirement specified"))
        extra_reqs
    else Ok false
  else
    Err (EasyBuildError "Don't know how to check whether specified value is of type").
Proof. destruct value; reflexivity. Qed.

Lemma pytype_eqb_eq (a b : pytype) : pytype_eqb a b = true <-> a = b.
Proof. split; [destruct a, b; simpl; congruence | intros ->; destruct b; reflexivity]. Qed.

(** On an easy type the matcher is [isinstance]. *)
Lemma is_value_of_type_easy (v : pyval) (P : pytype) :
  tobj_in (OType P) EASY_TYPES = true ->
  is_value_of_type v (OType P) = Ok (instance_of v P).
Proof. intros H. rewrite is_value_of_type_unfold, H. reflexivity. Qed.

Lemma instance_of_spec (v : pyval) (P : pytype) :
  instance_of v P = true <-> type_of v = P \/ (type_of v = Tbool /\ P = Tint).
Proof.
  unfold instance_of. rewrite orb_true_iff, pytype_eqb_eq. split.
  - intros [H | H]; [now left | right].
    destruct v, P; simpl in *; try discriminate; auto.
  - intros [H | [Hv HP]]; [now left | right].
    subst P. destruct v; simpl in *; try discriminate; reflexivity.
Qed.

(** ** Primitive descriptors *)

(** C1, as stated, fails: the boolean [True] matches the integer
    descriptor although its runtime kind is not integer. *)
Lemma primitive_identity_fails_on_bool :
  ~ (is_value_of_type (VBool true) int_ = Ok true <-> type_of (VBool true) = Tint).
Proof. intros [H _]. specialize (H eq_refl). discriminate H. Qed.

(** C1 (amended): for every primitive descriptor [P] other than float and
    every value [v], the matcher returns whether [v] is an instance of
    [P], which holds iff the runtime kind of [v] is exactly [P], or [v]
    is a boolean and [P] is the integer descriptor. *)
Theorem primitive_isinstance (v : pyval) (P : pytype) :
  P <> Tfloat ->
  exists b, is_value_of_type v (OType P) = Ok b /\
            (b = true <-> type_of v = P \/ (type_of v = Tbool /\ P = Tint)).
Proof.
  intros HP. exists (instance_of v P). split.
  - apply is_value_of_type_easy. destruct P; try reflexivity. now elim HP.
  - apply instance_of_spec.
Qed.

Lemma primitive_isinstance_witness :
  Tint <> Tfloat /\
  exists b, is_value_of_type (VInt 3) (OType Tint) = Ok b /\
            (b = true <->
             type_of (VInt 3) = Tint \/ (type_of (VInt 3) = Tbool /\ Tint = Tint)).
Proof. split; [discriminate | apply primitive_isinstance; discriminate]. Defined.

(** ** The dispatcher *)

(** C2, as stated, fails: the toolchain conversion hands back a dict
    with the keys name and version whatever its values, and the
    dispatcher returns it, with no error, although the matcher refuses
    it for [TOOLCHAIN_DICT]. *)
Lemma convert_value_type_no_revalidation :
  let py_str := fun _ : pyval => "" in
  let py_num := fun _ : pyval => Err TypeError in
  let val := VDict [(VStr "name", VInt 1); (VStr "version", VInt 2)] in
  to_toolchain_dict val = Ok val /\
  is_value_of_type val TOOLCHAIN_DICT = Ok false /\
  convert_value_type py_str py_num py_num val TOOLCHAIN_DICT = Ok val.
Proof. repeat split. Qed.

(** C5: a value that matches its descriptor is returned as it is, by
    [convert_value_type] and, for every parameter registered with that
    descriptor, by [check_type_of_param_value], with or without
    conversion. *)
Theorem conversion_identity_on_matching
  (py_str : pyval -> string) (py_int py_float : pyval -> result pyval)
  (DEPENDENCY_PARAMETERS : list string) (v : pyval) (T : tobj) :
  is_value_of_type v T = Ok true ->
  convert_value_type py_str py_int py_float v T = Ok v /\
  forall key auto_convert,
    sdict_get key (PARAMETER_TYPES DEPENDENCY_PARAMETERS) = Some T ->
    check_type_of_param_value py_str py_int py_float DEPENDENCY_PARAMETERS
      key v auto_convert = Ok (true, v).
Proof.
  intros H. split.
  - unfold convert_value_type. pose proof H as H'.
    rewrite is_value_of_type_unfold in H'.
    destruct (tobj_in T EASY_TYPES).
    + rewrite H'. reflexivity.
    + destruct (tobj_in T CHECKABLE_TYPES).
      * rewrite H. reflexivity.
      * discriminate H'.
  - intros key auto_convert Hkey. unfold check_type_of_param_value.
    rewrite Hkey, H. reflexivity.
Qed.

Lemma conversion_identity_on_matching_witness :
  let py_str := fun _ : pyval => "" in
  let py_num := fun _ : pyval => Err TypeError in
  let deps := ["dependencies"] in
  let v := VList [VStr "gcc"; VTuple [VStr "clang"; VStr "llvm"]] in
  is_value_of_type v STRING_OR_TUPLE_LIST = Ok true /\
  convert_value_type py_str py_num py_num v STRING_OR_TUPLE_LIST = Ok v /\
  forall key auto_convert,
    sdict_get key (PARAMETER_TYPES deps) = Some STRING_OR_TUPLE_LIST ->
    check_type_of_param_value py_str py_num py_num deps key v auto_convert
    = Ok (true, v).
Proof.
  intros py_str py_num deps v. split; [reflexivity |].
  apply (conversion_identity_on_matching py_str py_num py_num deps v
           STRING_OR_TUPLE_LIST).
  reflexivity.
Defined.

(** ** Required and optional keys *)

(** C7: the toolchain descriptor (required keys name and version,
    optional key hidden) accepts a dict with string values under exactly
    name and version, in either order, and one that also has a boolean
    under hidden; it refuses a dict without version and one with an
    extra key foo, whatever the values there. *)
Theorem toolchain_dict_key_law :
  (forall n v,
     is_value_of_type (VDict [(VStr "name", VStr n); (VStr "version", VStr v)])
       TOOLCHAIN_DICT = Ok true) /\
  (forall n v,
     is_value_of_type (VDict [(VStr "version", VStr v); (VStr "name", VStr n)])
       TOOLCHAIN_DICT = Ok true) /\
  (forall x,
     is_value_of_type (VDict [(VStr "name", x)]) TOOLCHAIN_DICT = Ok false) /\
  (forall n v x,
     is_value_of_type
       (VDict [(VStr "name", VStr n); (VStr "version", VStr v); (VStr "foo", x)])
       TOOLCHAIN_DICT = Ok false) /\
  (forall n v b,
     is_value_of_type
       (VDict [(VStr "name", VStr n); (VStr "version", VStr v);
               (VStr "hidden", VBool b)])
       TOOLCHAIN_DICT = Ok true).
Proof.
  repeat split; intros; try reflexivity.
  destruct x; reflexivity.
Qed.

(** ** Elements of lists and tuples *)

Lemma all_res_cons {A} (f : A -> result bool) (x : A) (l : list A) :
  all_res f (x :: l) =
  let* b := f x in let* r := all_res f l in Ok (b && r).
Proof. reflexivity. Qed.

Lemma any_res_cons {A} (f : A -> result bool) (x : A) (l : list A) :
  any_res f (x :: l) = let* b := f x in if b then Ok true else any_res f l.
Proof. reflexivity. Qed.

Lemma all_res_true {A} (f : A -> result bool) (l : list A) :
  all_res f l = Ok true <-> Forall (fun x => f x = Ok true) l.
Proof.
  induction l as [| x l IH].
  - split; [constructor | reflexivity].
  - rewrite all_res_cons. split.
    + intros H. destruct (f x) as [b | e] eqn:Hx; simpl in H; [| discriminate].
      destruct (all_res f l) as [r | e] eqn:Hl; simpl in H; [| discriminate].
      injection H as H. apply andb_true_iff in H as [-> ->].
      constructor; [assumption | apply (proj1 IH); reflexivity].
    + intros H. inversion H as [| ? ? Hx Hl]; subst.
      rewrite Hx. apply (proj2 IH) in Hl. rewrite Hl. reflexivity.
Qed.






(** ** Keys without allowed types *)

Lemma odict_get_in (name : string) (d : list (tobj * tobj)) (v : tobj) :
  odict_get name d = Ok v -> In (OStr name, v) d.
Proof.
  induction d as [| [k x] d IH]; simpl; [discriminate |].
  destruct k; simpl; auto.
  destruct (String.eqb name s) eqn:E; auto.
  intros H. injection H as ->. apply String.eqb_eq in E. subst. now left.
Qed.

Lemma unlisted_key_check_element_types
  (matches : pyval -> tobj -> result bool)
  (d : list (pyval * pyval)) (ts : tobj) (by_key : list (tobj * tobj))
  (k v : pyval) :
  py_dict ts = Ok by_key ->
  In (k, v) d ->
  odict_find k by_key = None ->
  check_element_types matches (VDict d) ts <> Ok true.
Proof.
  intros Hdict Hin Hfind H. unfold check_element_types in H.
  rewrite Hdict in H. apply all_res_true in H.
  rewrite Forall_forall in H. specialize (H _ Hin). simpl in H.
  rewrite Hfind in H. discriminate H.
Qed.

(** C10: when the [elem_types] requirement of a dict descriptor converts
    to a mapping from keys to allowed types, a dict that has a key
    outside that mapping fails the element check, and so is never
    accepted by the matcher, whatever the other requirements say. *)
Theorem unlisted_key_never_matches
  (parent reqs ts : tobj) (extra by_key : list (tobj * tobj))
  (d : list (pyval * pyval)) (k v : pyval) :
  py_dict reqs = Ok extra ->
  odict_get "elem_types" extra = Ok ts ->
  py_dict ts = Ok by_key ->
  In (k, v) d ->
  odict_find k by_key = None ->
  check_element_types is_value_of_type (VDict d) ts <> Ok true /\
  is_value_of_type (VDict d) (OTuple [parent; reqs]) <> Ok true.
Proof.
  intros Hreqs Hget Hdict Hin Hfind.
  assert (Hce : check_element_types is_value_of_type (VDict d) ts <> Ok true)
    by (eapply unlisted_key_check_element_types; eassumption).
  split; [exact Hce |].
  rewrite is_value_of_type_unfold.
  replace (tobj_in (OTuple [parent; reqs]) EASY_TYPES) with false by reflexivity.
  destruct (tobj_in (OTuple [parent; reqs]) CHECKABLE_TYPES); [| discriminate].
  simpl py_index. simpl bind at 1. simpl bind at 1. rewrite Hreqs. simpl bind at 1.
  destruct (py_isinstance (VDict d) parent) as [[|] | e]; simpl bind at 1;
    try discriminate.
  intros H. apply all_res_true in H. rewrite Forall_forall in H.
  specialize (H _ (odict_get_in _ _ _ Hget)). simpl in H.
  rewrite Hget in H. simpl in H. contradiction.
Qed.

Lemma unlisted_key_never_matches_witness :
  let d := [(VStr "name", VStr "GCC"); (VStr "version", VStr "9.3.0");
            (VStr "foo", VStr "bar")] in
  exists reqs ts extra by_key,
    TOOLCHAIN_DICT = OTuple [dict_; reqs] /\
    py_dict reqs = Ok extra /\
    odict_get "elem_types" extra = Ok ts /\
    py_dict ts = Ok by_key /\
    In (VStr "foo", VStr "bar") d /\
    odict_find (VStr "foo") by_key = None /\
    check_element_types is_value_of_type (VDict d) ts <> Ok true /\
    is_value_of_type (VDict d) (OTuple [dict_; reqs]) <> Ok true.
Proof.
  intros d.
  eexists _, _, _, _.
  split; [reflexivity |].
  split; [reflexivity |].
  split; [reflexivity |].
  split; [reflexivity |].
  split; [right; right; left; reflexivity |].
  split; [reflexivity |].
  eapply (unlisted_key_never_matches dict_ _ _ _ _ d (VStr "foo") (VStr "bar"));
    [reflexivity | reflexivity | reflexivity
     | right; right; left; reflexivity | reflexivity].
Defined.

(** ** Checksums *)

(** C4, as stated, fails: in [["md5", None]] the second element is not a
    string, yet the list is not turned into a pair; it is refused. *)
Lemma checksum_pair_fails_on_none :
  ~ (_to_checksum (VList [VStr "md5"; VNone]) 0 true
     = Ok (VTuple [VStr "md5"; VNone])
     <-> is_str VNone = false \/ 0 > 0).
Proof. intros [_ H]. specialize (H (or_introl eq_refl)). discriminate H. Qed.

(** C4 (amended): a list of two elements, a string followed by a string
    or an integer, becomes a pair iff the second element is not a string
    or the nesting level is above 0, and is returned as it is otherwise;
    a tuple of that shape is returned as the same tuple at every level.
    So two strings in a list stay a list at the top level and become a
    pair inside a list of alternatives. *)
Theorem checksum_pair_rule (a : string) (b : pyval) (level : Z) (allow : bool) :
  is_str_or_int b = true ->
  (_to_checksum (VList [VStr a; b]) level allow = Ok (VTuple [VStr a; b])
   <-> is_str b = false \/ level > 0) /\
  (~ (is_str b = false \/ level > 0) ->
   _to_checksum (VList [VStr a; b]) level allow = Ok (VList [VStr a; b])) /\
  _to_checksum (VTuple [VStr a; b]) level allow = Ok (VTuple [VStr a; b]) /\
  (is_str b = true ->
   _to_checksum (VList [VList [VStr a; b]]) 0 allow
   = Ok (VList [VTuple [VStr a; b]])).
Proof.
  intros Hb.
  assert (Hl : _to_checksum (VList [VStr a; b]) level allow =
               if negb (is_str b) || (level >? 0)
               then Ok (VTuple [VStr a; b]) else Ok (VList [VStr a; b])).
  { simpl. rewrite Hb. reflexivity. }
  assert (Ht : _to_checksum (VTuple [VStr a; b]) level allow
               = Ok (VTuple [VStr a; b])).
  { simpl. rewrite Hb. simpl. destruct (negb (is_str b) || (level >? 0)); reflexivity. }
  assert (Hc : negb (is_str b) || (level >? 0) = true
               <-> is_str b = false \/ level > 0).
  { rewrite orb_true_iff, negb_true_iff, Z.gtb_ltb, Z.ltb_lt. intuition lia. }
  repeat split.
  - rewrite Hl. destruct (negb (is_str b) || (level >? 0)).
    + intros _. now apply Hc.
    + discriminate.
  - intros H. rewrite Hl. apply (proj2 Hc) in H. rewrite H. reflexivity.
  - intros H. rewrite Hl.
    destruct (negb (is_str b) || (level >? 0)); [| reflexivity].
    elim H. now apply Hc.
  - exact Ht.
  - intros Hs. destruct b; try discriminate Hs. reflexivity.
Qed.

Lemma checksum_pair_rule_witness :
  is_str_or_int (VInt 42) = true /\
  (_to_checksum (VList [VStr "size"; VInt 42]) 0 true
   = Ok (VTuple [VStr "size"; VInt 42])
   <-> is_str (VInt 42) = false \/ 0 > 0).
Proof.
  split; [reflexivity |].
  exact (proj1 (checksum_pair_rule "size" (VInt 42) 0 true eq_refl)).
Defined.

(** ** Toolchains *)

Lemma split_no_sep (c : ascii) (s : string) :
  no_sep c s = true -> split c s = [s].
Proof.
  induction s as [| a s IH]; simpl; [reflexivity |].
  intros H. apply andb_true_iff in H as [Ha Hs]. apply negb_true_iff in Ha.
  rewrite Ha, (IH Hs). reflexivity.
Qed.

Lemma split_app (c : ascii) (n v : string) :
  no_sep c n = true -> split c (n ++ String c v) = n :: split c v.
Proof.
  induction n as [| a n IH]; simpl.
  - intros _. rewrite Ascii.eqb_refl. reflexivity.
  - intros H. apply andb_true_iff in H as [Ha Hn]. apply negb_true_iff in Ha.
    rewrite Ha, (IH Hn). reflexivity.
Qed.

(** *** [sorted] on keys *)

Lemma sorted_insert_perm (x : pyval) (l l' : list pyval) :
  sorted_insert x l = Ok l' -> Permutation (x :: l) l'.
Proof.
  revert l'. induction l as [| y l IH]; simpl; intros l' H.
  - injection H as <-. reflexivity.
  - destruct (py_lt x y) as [[|] | e]; simpl in H; try discriminate.
    + injection H as <-. reflexivity.
    + destruct (sorted_insert x l) as [r | e]; simpl in H; [| discriminate].
      injection H as <-. rewrite perm_swap. constructor. now apply IH.
Qed.

Lemma sorted_perm (l l' : list pyval) :
  sorted l = Ok l' -> Permutation l l'.
Proof.
  revert l'. induction l as [| x l IH]; simpl; intros l' H.
  - injection H as <-. constructor.
  - destruct (sorted l) as [r | e]; simpl in H; [| discriminate].
    rewrite (IH r eq_refl). now apply sorted_insert_perm.
Qed.

Lemma sorted_insert_strings (x : pyval) (l : list pyval) :
  is_str x = true -> Forall (fun k => is_str k = true) l ->
  exists l', sorted_insert x l = Ok l' /\ Forall (fun k => is_str k = true) l'.
Proof.
  intros Hx Hl. induction Hl as [| y l Hy Hl IH]; simpl.
  - eexists; split; [reflexivity | auto].
  - destruct x; try discriminate Hx. destruct y; try discriminate Hy. simpl.
    destruct (String.ltb s s0).
    + eexists; split; [reflexivity | auto].
    + destruct IH as [r [-> Hr]]. simpl. eexists; split; [reflexivity | auto].
Qed.

Lemma sorted_strings (l : list pyval) :
  Forall (fun k => is_str k = true) l ->
  exists l', sorted l = Ok l' /\ Forall (fun k => is_str k = true) l'.
Proof.
  induction 1 as [| x l Hx Hl IH]; simpl.
  - eexists; split; [reflexivity | auto].
  - destruct IH as [r [-> Hr]]. simpl. now apply sorted_insert_strings.
Qed.

Lemma pyval_eqb_str (x : pyval) (s : string) :
  pyval_eqb x (VStr s) = true -> x = VStr s.
Proof.
  destruct x; simpl; try discriminate.
  intros H. apply String.eqb_eq in H. now subst.
Qed.

Lemma eq_strings_eq (l : list pyval) (names : list string) :
  eq_strings l names = true -> l = map VStr names.
Proof.
  unfold eq_strings. simpl. revert l.
  induction names as [| n names IH]; intros [| x l]; simpl; try discriminate.
  - reflexivity.
  - intros H. apply andb_true_iff in H as [Hx Hl].
    apply pyval_eqb_str in Hx. subst x. f_equal. now apply IH.
Qed.

Lemma perm3 {A} (a b c : A) (l : list A) :
  NoDup [a; b; c] ->
  Permutation l [a; b; c] ->
  l = [a; b; c] \/ l = [a; c; b] \/ l = [b; a; c] \/
  l = [b; c; a] \/ l = [c; a; b] \/ l = [c; b; a].
Proof.
  intros Hnd H. pose proof (Permutation_length H) as Hlen.
  destruct l as [| x [| y [| z [|]]]]; try discriminate Hlen.
  assert (Hnd' : NoDup [x; y; z])
    by (eapply Permutation_NoDup; [symmetry; eassumption | assumption]).
  assert (Hx : In x [a; b; c]) by (eapply Permutation_in; [exact H | simpl; auto]).
  assert (Hy : In y [a; b; c]) by (eapply Permutation_in; [exact H | simpl; auto]).
  assert (Hz : In z [a; b; c]) by (eapply Permutation_in; [exact H | simpl; auto]).
  inversion Hnd' as [| ? ? Nx Hnd2]; subst.
  inversion Hnd2 as [| ? ? Ny _]; subst.
  simpl in Hx, Hy, Hz, Nx, Ny.
  destruct Hx as [<- | [<- | [<- | []]]];
    destruct Hy as [<- | [<- | [<- | []]]];
    destruct Hz as [<- | [<- | [<- | []]]];
    try (exfalso; tauto); auto 10.
Qed.

Lemma perm2 {A} (a b : A) (l : list A) :
  Permutation l [a; b] -> l = [a; b] \/ l = [b; a].
Proof.
  intros H. apply Permutation_sym, Permutation_length_2_inv in H. exact H.
Qed.

Lemma to_toolchain_dict_keys_ok (d : list (pyval * pyval)) :
  toolchain_keys d -> to_toolchain_dict (VDict d) = Ok (VDict d).
Proof.
  unfold to_toolchain_dict.
  intros [H | H].
  - apply perm2 in H as [H | H]; rewrite H; reflexivity.
  - apply perm3 in H;
      [| repeat constructor; simpl; intuition discriminate].
    destruct H as [H | [H | [H | [H | [H | H]]]]]; rewrite H; reflexivity.
Qed.

Lemma to_toolchain_dict_ok_keys (d : list (pyval * pyval)) (r : pyval) :
  to_toolchain_dict (VDict d) = Ok r -> r = VDict d /\ toolchain_keys d.
Proof.
  unfold to_toolchain_dict, toolchain_keys.
  destruct (sorted (keys d)) as [l | e] eqn:Hs; simpl; [| discriminate].
  apply sorted_perm in Hs.
  destruct (eq_strings l ["name"; "version"]) eqn:E2; simpl.
  - intros H. injection H as <-. apply eq_strings_eq in E2. subst l.
    split; [reflexivity | left; exact Hs].
  - destruct (eq_strings l ["hidden"; "name"; "version"]) eqn:E3; [| discriminate].
    intros H. injection H as <-. apply eq_strings_eq in E3. subst l.
    split; [reflexivity | right; exact Hs].
Qed.

Lemma in_all_ascii (c : ascii) : In c all_ascii.
Proof.
  unfold all_ascii. rewrite <- (ascii_nat_embedding c).
  apply in_map, in_seq. pose proof (nat_ascii_bounded c). lia.
Qed.

Lemma lower_char_ci_all :
  forallb (fun c =>
    forallb (fun d =>
      implb (plain_char d)
            (Bool.eqb (Ascii.eqb (lower_char c) d) (same_char_ci c d)))
      all_ascii) all_ascii = true.
Proof. vm_compute. reflexivity. Qed.

Lemma lower_char_ci (c d : ascii) :
  plain_char d = true -> Ascii.eqb (lower_char c) d = same_char_ci c d.
Proof.
  intros Hd. pose proof lower_char_ci_all as H.
  rewrite forallb_forall in H. specialize (H c (in_all_ascii c)).
  rewrite forallb_forall in H. specialize (H d (in_all_ascii d)).
  rewrite Hd in H. simpl in H. now apply Bool.eqb_prop in H.
Qed.

(** Comparing the lower-case form with a plain string is comparing up to
    the case of ASCII letters. *)
Lemma lower_eqb_ci (h : string) :
  forall t, plain t = true -> String.eqb (lower h) t = same_ci h t.
Proof.
  induction h as [| c h IH]; intros [| d t] Ht; try reflexivity.
  simpl in Ht. apply andb_true_iff in Ht as [Hd Ht].
  simpl. rewrite (lower_char_ci c d Hd), (IH t Ht).
  destruct (same_char_ci c d); reflexivity.
Qed.

Lemma token_test (h : string) (tokens : list string) :
  forallb plain tokens = true ->
  existsb (String.eqb (lower h)) tokens = existsb (same_ci h) tokens.
Proof.
  induction tokens as [| t tokens IH]; [reflexivity |]. simpl.
  intros H. apply andb_true_iff in H as [Ht H].
  now rewrite (lower_eqb_ci h t Ht), (IH H).
Qed.

Lemma same_ci_lower (h t : string) :
  plain t = true -> same_ci h t = true -> lower h = t.
Proof.
  intros Ht H. rewrite <- (lower_eqb_ci h t Ht) in H. now apply String.eqb_eq.
Qed.

Lemma hidden_flag (n v h : string) :
  to_toolchain_dict (VList [VStr n; VStr v; VStr h])
  = (let dict b := Ok (VDict [(VStr "name", VStr (strip n));
                              (VStr "version", VStr (strip v));
                              (VStr "hidden", VBool b)]) in
     if existsb (same_ci (strip h)) ["yes"; "true"; "t"; "y"; "1"; "on"]
     then dict true
     else if existsb (same_ci (strip h)) ["no"; "false"; "f"; "n"; "0"; "off"]
     then dict false
     else Err invalid_truth_value).
Proof.
  unfold to_toolchain_dict. cbn -[existsb strip lower String.eqb same_ci].
  unfold truthy_tokens, falsy_tokens.
  rewrite !token_test by reflexivity.
  destruct (existsb (same_ci (strip h)) ["yes"; "true"; "t"; "y"; "1"; "on"]);
    [reflexivity |].
  destruct (existsb (same_ci (strip h)) ["no"; "false"; "f"; "n"; "0"; "off"]);
    reflexivity.
Qed.

(** C8, as stated, fails: a dict with the keys 1 and name is refused,
    but by the [TypeError] of sorting its keys, not by the error about
    the set of keys. *)
Lemma to_toolchain_dict_unsortable_keys :
  to_toolchain_dict (VDict [(VInt 1, VStr "a"); (VStr "name", VStr "b")])
  = Err TypeError /\
  forall msg,
    to_toolchain_dict (VDict [(VInt 1, VStr "a"); (VStr "name", VStr "b")])
    <> Err (EasyBuildError msg).
Proof. split; [reflexivity | discriminate]. Qed.

(** C8 (amended): the toolchain conversion on a string [n,v], on a
    sequence of two strings, on a sequence of three strings, and on a
    dict.  The third string is read as the hidden flag: stripped, it has
    to be one of yes, true, t, y, 1, on (hidden is true) or one of no,
    false, f, n, 0, off (hidden is false), in any case of the letters,
    and anything else is an error.  A dict is handed back iff its keys
    are exactly name and version, or hidden, name and version; every
    other dict is refused, with the error about its keys when the keys
    are strings. *)
Theorem to_toolchain_dict_forms :
  (forall n v,
     no_sep "," n = true -> no_sep "," v = true ->
     to_toolchain_dict (VStr (n ++ "," ++ v))
     = Ok (VDict [(VStr "name", VStr (strip n)); (VStr "version", VStr (strip v))])) /\
  (forall n v,
     let res := Ok (VDict [(VStr "name", VStr (strip n));
                           (VStr "version", VStr (strip v))]) in
     to_toolchain_dict (VList [VStr n; VStr v]) = res /\
     to_toolchain_dict (VTuple [VStr n; VStr v]) = res) /\
  (forall n v h (seq : list pyval -> pyval),
     seq = VList \/ seq = VTuple ->
     let dict b := Ok (VDict [(VStr "name", VStr (strip n));
                              (VStr "version", VStr (strip v));
                              (VStr "hidden", VBool b)]) in
     let yes := ["yes"; "true"; "t"; "y"; "1"; "on"] in
     let no := ["no"; "false"; "f"; "n"; "0"; "off"] in
     ((exists t, In t yes /\ same_ci (strip h) t = true) ->
      to_toolchain_dict (seq [VStr n; VStr v; VStr h]) = dict true) /\
     ((exists t, In t no /\ same_ci (strip h) t = true) ->
      to_toolchain_dict (seq [VStr n; VStr v; VStr h]) = dict false) /\
     ((forall t, In t (yes ++ no) -> same_ci (strip h) t = false) ->
      to_toolchain_dict (seq [VStr n; VStr v; VStr h]) = Err invalid_truth_value)) /\
  (forall d, toolchain_keys d <-> to_toolchain_dict (VDict d) = Ok (VDict d)) /\
  (forall d, ~ toolchain_keys d -> exists e, to_toolchain_dict (VDict d) = Err e) /\
  (forall d, ~ toolchain_keys d -> Forall (fun k => is_str k = true) (keys d) ->
             to_toolchain_dict (VDict d) = Err incorrect_keys).
Proof.
  split.
  { intros n v Hn Hv. unfold to_toolchain_dict.
    change (n ++ "," ++ v)%string with (n ++ String "," v)%string.
    rewrite (split_app _ _ _ Hn), (split_no_sep _ _ Hv). reflexivity. }
  split; [intros; split; reflexivity |].
  split.
  { intros n v h seq Hseq dict yes no.
    assert (Hflag : to_toolchain_dict (seq [VStr n; VStr v; VStr h])
                    = if existsb (same_ci (strip h)) yes then dict true
                      else if existsb (same_ci (strip h)) no then dict false
                      else Err invalid_truth_value)
      by (destruct Hseq as [-> | ->]; apply hidden_flag).
    rewrite Hflag. split; [| split].
    - intros (t & Ht & Hc).
      assert (E : existsb (same_ci (strip h)) yes = true)
        by (apply existsb_exists; eauto).
      now rewrite E.
    - intros (t & Ht & Hc).
      assert (E : existsb (same_ci (strip h)) no = true)
        by (apply existsb_exists; eauto).
      rewrite E.
      destruct (existsb (same_ci (strip h)) yes) eqn:Ey; [| reflexivity].
      apply existsb_exists in Ey as (t' & Ht' & Hc').
      assert (Hp : plain t = true)
        by (simpl in Ht; intuition (subst; reflexivity)).
      assert (Hp' : plain t' = true)
        by (simpl in Ht'; intuition (subst; reflexivity)).
      apply (same_ci_lower _ _ Hp) in Hc. apply (same_ci_lower _ _ Hp') in Hc'.
      rewrite Hc in Hc'. subst t'.
      simpl in Ht, Ht'. intuition congruence.
    - intros Hnone.
      assert (Ey : existsb (same_ci (strip h)) yes = false).
      { apply not_true_is_false. intros E.
        apply existsb_exists in E as (t & Ht & Hc).
        rewrite (Hnone t) in Hc; [discriminate | apply in_or_app; now left]. }
      assert (En : existsb (same_ci (strip h)) no = false).
      { apply not_true_is_false. intros E.
        apply existsb_exists in E as (t & Ht & Hc).
        rewrite (Hnone t) in Hc; [discriminate | apply in_or_app; now right]. }
      now rewrite Ey, En. }
  split.
  { intros d. split; [apply to_toolchain_dict_keys_ok |].
    intros H. now apply to_toolchain_dict_ok_keys in H. }
  split.
  { intros d Hd. destruct (to_toolchain_dict (VDict d)) as [r | e] eqn:E.
    - apply to_toolchain_dict_ok_keys in E. tauto.
    - now exists e. }
  intros d Hd Hstr.
  destruct (to_toolchain_dict (VDict d)) as [r | e] eqn:E.
  - apply to_toolchain_dict_ok_keys in E. tauto.
  - unfold to_toolchain_dict in E.
    destruct (sorted_strings _ Hstr) as [l [Hl _]]. rewrite Hl in E. simpl in E.
    destruct (eq_strings l ["name"; "version"] || eq_strings l ["hidden"; "name"; "version"]);
      [discriminate | now injection E as <-].
Qed.

Lemma to_toolchain_dict_forms_witness :
  to_toolchain_dict (VStr "GCC, 9.3.0")
  = Ok (VDict [(VStr "name", VStr "GCC"); (VStr "version", VStr "9.3.0")]) /\
  to_toolchain_dict (VList [VStr "GCC"; VStr "9.3.0"; VStr " True"])
  = Ok (VDict [(VStr "name", VStr "GCC"); (VStr "version", VStr "9.3.0");
               (VStr "hidden", VBool true)]) /\
  to_toolchain_dict (VTuple [VStr "GCC"; VStr "9.3.0"; VStr "maybe"])
  = Err invalid_truth_value /\
  to_toolchain_dict
    (VDict [(VStr "name", VStr "GCC"); (VStr "version", VStr "9.3.0");
            (VStr "bogus", VInt 1)])
  = Err incorrect_keys.
Proof.
  split; [| split; [| split]].
  - exact (proj1 to_toolchain_dict_forms "GCC" " 9.3.0" eq_refl eq_refl).
  - apply (proj1 (proj1 (proj2 (proj2 to_toolchain_dict_forms))
                    "GCC" "9.3.0" " True" VList (or_introl eq_refl))).
    exists "true". split; [right; left; reflexivity | reflexivity].
  - apply (proj2 (proj2 (proj1 (proj2 (proj2 to_toolchain_dict_forms))
                           "GCC" "9.3.0" "maybe" VTuple (or_intror eq_refl)))).
    intros t Ht. simpl in Ht.
    repeat (destruct Ht as [<- | Ht]; [reflexivity |]). contradiction.
  - apply (proj2 (proj2 (proj2 (proj2 (proj2 to_toolchain_dict_forms))))).
    + intros [H | H].
      * apply Permutation_length in H. discriminate H.
      * apply (Permutation_in (VStr "bogus")) in H; [| simpl; auto].
        simpl in H. intuition discriminate.
    + repeat constructor.
Defined.

(** ** Dependencies *)

(** C9: a dependency dict whose external_module entry is true in the
    sense of Python is converted iff its keys are exactly
    external_module and name; the result has the given name under
    full_mod_name and short_mod_name and [None] under name and version.
    Every other such dict is refused, with the error about its format
    when its keys are strings. *)
Theorem to_dependency_external_module
  (py_str : pyval -> string) (d : list (pyval * pyval)) (m : pyval) :
  dict_get (VStr "external_module") d = Some m ->
  truthy m = true ->
  (Permutation (keys d) external_module_name ->
   exists name,
     dict_get (VStr "name") d = Some name /\
     to_dependency py_str (VDict d)
     = Ok (VDict [(VStr "external_module", VBool true);
                  (VStr "full_mod_name", name);
                  (VStr "name", VNone);
                  (VStr "short_mod_name", name);
                  (VStr "version", VNone)])) /\
  (~ Permutation (keys d) external_module_name ->
   (exists e, to_dependency py_str (VDict d) = Err e) /\
   (Forall (fun k => is_str k = true) (keys d) ->
    to_dependency py_str (VDict d) = Err unexpected_external)).
Proof.
  intros Hget Hm. split.
  - intros H. apply perm2 in H.
    destruct d as [| [k1 v1] [| [k2 v2] [|]]];
      try (destruct H as [H | H]; discriminate H).
    destruct H as [H | H]; injection H as -> ->;
      simpl in Hget; injection Hget as ->.
    + exists v2. split; [reflexivity |].
      unfold to_dependency. cbn. rewrite Hm. reflexivity.
    + exists v1. split; [reflexivity |].
      unfold to_dependency. cbn. rewrite Hm. reflexivity.
  - intros Hperm.
    assert (Hcases :
      forall r, to_dependency py_str (VDict d) = r ->
        match sorted (keys d) with
        | Ok _ => r = Err unexpected_external
        | Err e => r = Err e
        end).
    { intros r <-. unfold to_dependency. rewrite Hget, Hm.
      destruct (sorted (keys d)) as [l | e] eqn:Hs; [| reflexivity].
      cbn [bind].
      destruct (eq_strings l ["external_module"; "name"]) eqn:E; [| reflexivity].
      apply eq_strings_eq in E. subst l. apply sorted_perm in Hs.
      contradiction. }
    specialize (Hcases _ eq_refl). split.
    + destruct (sorted (keys d)); eauto.
    + intros Hstr. destruct (sorted_strings _ Hstr) as [l [Hl _]].
      rewrite Hl in Hcases. exact Hcases.
Qed.

Lemma to_dependency_external_module_witness :
  let d := [(VStr "external_module", VBool true); (VStr "name", VStr "fftw/3.3.4")] in
  dict_get (VStr "external_module") d = Some (VBool true) /\
  truthy (VBool true) = true /\
  Permutation (keys d) external_module_name /\
  exists name,
    dict_get (VStr "name") d = Some name /\
    to_dependency (fun _ => "") (VDict d)
    = Ok (VDict [(VStr "external_module", VBool true);
                 (VStr "full_mod_name", name);
                 (VStr "name", VNone);
                 (VStr "short_mod_name", name);
                 (VStr "version", VNone)]).
Proof.
  intros d.
  split; [reflexivity |]. split; [reflexivity |].
  split; [apply Permutation_refl |].
  exact (proj1 (to_dependency_external_module (fun _ => "") d (VBool true)
                  eq_refl eq_refl) (Permutation_refl _)).
Defined.

(** ** What the sanity-check-paths conversions do to the store *)

Module StoreFacts.
Import Store.
Local Open Scope list_scope.
Local Open Scope nat_scope.

Lemma lookup_update_same (st : store) (p : loc) (c : cell) :
  p < List.length st -> lookup (update p c st) p = Some c.
Proof.
  revert p. induction st as [| x st IH]; intros [| p] H; simpl in *; try lia.
  - reflexivity.
  - apply IH. lia.
Qed.

Lemma lookup_update_other (st : store) (p q : loc) (c : cell) :
  p <> q -> lookup (update q c st) p = lookup st p.
Proof.
  revert p q. induction st as [| x st IH]; intros [| p] [| q] H; simpl;
    try reflexivity; try congruence.
  apply IH. congruence.
Qed.

Lemma length_update (st : store) (p : loc) (c : cell) :
  List.length (update p c st) = List.length st.
Proof.
  revert p. induction st as [| x st IH]; intros [| p]; simpl; auto.
Qed.

Lemma lookup_lt (st : store) (p : loc) (c : cell) :
  lookup st p = Some c -> p < List.length st.
Proof. intros H. apply nth_error_Some. unfold lookup in H. congruence. Qed.

Lemma lookup_alloc (st : store) (c : cell) :
  lookup (st ++ [c]) (List.length st) = Some c.
Proof.
  unfold lookup. rewrite nth_error_app2 by lia. now rewrite Nat.sub_diag.
Qed.

Lemma lookup_alloc_old (st : store) (c c0 : cell) (p : loc) :
  lookup st p = Some c0 -> lookup (st ++ [c]) p = Some c0.
Proof.
  intros H. unfold lookup.
  rewrite nth_error_app1; [exact H | eapply lookup_lt; eassumption].
Qed.

(** C3, as stated, fails: after the call on the docstring example the
    argument holds a tuple where it held the list [['a', 'b']], and the
    dict in the result is the dict of the argument. *)
Lemma caller_value_mutated :
  let call := to_sanity_check_paths_entry example_spec example_store in
  snapshot 4 example_store example_spec
  = Some (VList [VStr "foo"; VList [VStr "bar"; VStr "baz"];
                 VDict [(VStr "f42", VList [VStr "a"; VStr "b"])]]) /\
  snapshot 4 (snd call) example_spec
  = Some (VList [VStr "foo"; VList [VStr "bar"; VStr "baz"];
                 VDict [(VStr "f42", VTuple [VStr "a"; VStr "b"])]]) /\
  snapshot 4 (snd call) example_spec <> snapshot 4 example_store example_spec /\
  lookup (snd call) 4%nat = Some (CList [SStr "foo"; STuple [SStr "bar"; SStr "baz"];
                                     SRef 1%nat]).
Proof. repeat split. discriminate. Qed.

(** Assigning under a key of the dict replaces the value in place. *)
Lemma set_item_app (k : string) (v v0 : sval) (done rest : list (sval * sval)) :
  ~ In (SStr k) (map fst done) ->
  set_item k v (done ++ (SStr k, v0) :: rest) = done ++ (SStr k, v) :: rest.
Proof.
  induction done as [| [key x] done IH]; simpl; intros H.
  - now rewrite String.eqb_refl.
  - assert (Hd : ~ In (SStr k) (map fst done)) by tauto.
    destruct key; try (now rewrite (IH Hd)).
    destruct (String.eqb k s) eqn:E.
    + apply String.eqb_eq in E. subst. tauto.
    + now rewrite (IH Hd).
Qed.

(** Conversion of a value depends on the lists of the store only. *)
Lemma conv_value_same (st st' : store) (v : sval) :
  same_lists st st' -> conv_value st' v = conv_value st v.
Proof.
  intros H. destruct v; try reflexivity. simpl.
  destruct (lookup st p) as [[x | d] |] eqn:E.
  - apply H in E. now rewrite E.
  - destruct (lookup st' p) as [[x' | d'] |] eqn:E'; try reflexivity.
    apply H in E'. congruence.
  - destruct (lookup st' p) as [[x' | d'] |] eqn:E'; try reflexivity.
    apply H in E'. congruence.
Qed.

Lemma conv_item_same (st st' : store) (kv : sval * sval) :
  same_lists st st' -> conv_item st' kv = conv_item st kv.
Proof. intros H. unfold conv_item. now rewrite (conv_value_same st st'). Qed.

Lemma conv_value_twice (st : store) (v : sval) :
  conv_value st (conv_value st v) = conv_value st v.
Proof.
  destruct v; try reflexivity. simpl.
  destruct (lookup st p) as [[x | d] |] eqn:E; simpl; try rewrite E; reflexivity.
Qed.

Lemma conv_item_twice (st : store) (kv : sval * sval) :
  conv_item st (conv_item st kv) = conv_item st kv.
Proof. unfold conv_item. simpl. now rewrite conv_value_twice. Qed.

Lemma item_step_refl (st : store) (d : list (sval * sval)) :
  Forall2 (item_step st) d d.
Proof. induction d; constructor; auto. now left. Qed.

Lemma item_step_conv (st : store) (d : list (sval * sval)) :
  Forall2 (item_step st) d (map (conv_item st) d).
Proof. induction d; constructor; auto. now right. Qed.

Lemma item_step_keys (st : store) (d d' : list (sval * sval)) :
  Forall2 (item_step st) d d' -> map fst d' = map fst d.
Proof.
  induction 1 as [| kv kv' d d' [-> | ->] _ IH]; simpl; congruence.
Qed.

(** The loop over the items of a dict element. *)
Lemma items_post_stop (q : loc) (done rest : list (sval * sval))
  (st : store) (e : exn) :
  lookup st q = Some (CDict (done ++ rest)) ->
  items_post q done rest st (Err e, st).
Proof.
  intros Hq. split; [reflexivity |]. split; [reflexivity |].
  exists rest. split; [exact Hq |]. split; [apply item_step_refl |].
  intros u Hu. discriminate Hu.
Qed.

Lemma items_post_skip (q : loc) (done rest : list (sval * sval))
  (st : store) (kv : sval * sval) (out : result unit * store) :
  conv_value st (snd kv) = snd kv ->
  items_post q (done ++ [kv]) rest st out ->
  items_post q done (kv :: rest) st out.
Proof.
  intros Hc (Hl & Ho & rest' & Hq' & Hs & Hok).
  split; [exact Hl |]. split; [exact Ho |].
  exists (kv :: rest'). rewrite <- app_assoc in Hq'.
  split; [exact Hq' |]. split.
  - constructor; [now left | exact Hs].
  - intros u Hu. simpl. rewrite (Hok u Hu). f_equal.
    unfold conv_item. rewrite Hc. now destruct kv.
Qed.

Lemma convert_items_spec (q : loc) (rest : list (sval * sval)) :
  forall (done : list (sval * sval)) (st : store),
    lookup st q = Some (CDict (done ++ rest)) ->
    NoDup (map fst (done ++ rest)) ->
    items_post q done rest st (convert_items q rest st).
Proof.
  induction rest as [| [key value] rest IH]; intros done st Hq Hnd.
  - simpl. split; [reflexivity |]. split; [reflexivity |].
    exists []. split; [exact Hq |]. split; [constructor |]. reflexivity.
  - assert (Hskip : conv_value st value = value ->
              items_post q done ((key, value) :: rest) st
                (convert_items q rest st)).
    { intros Hc. apply items_post_skip; [exact Hc |].
      apply IH; now rewrite <- app_assoc. }
    destruct key as [| b | z | m e | s | l | p];
      try (apply items_post_stop; exact Hq).
    destruct value as [| b | z | m e | s' | l | p];
      try (apply items_post_stop; exact Hq);
      try (apply Hskip; reflexivity).
    simpl convert_items.
    destruct (lookup st p) as [[x | d0] |] eqn:Hp;
      try (apply items_post_stop; exact Hq).
    clear Hskip.
    set (st1 := assign q s (STuple x) st).
    assert (Hnk : ~ In (SStr s) (map fst done)).
    { rewrite map_app in Hnd. simpl in Hnd.
      apply NoDup_remove_2 in Hnd. intros Hin. apply Hnd.
      apply in_or_app. now left. }
    assert (Hq1 : lookup st1 q
                  = Some (CDict ((done ++ [(SStr s, STuple x)]) ++ rest))).
    { unfold st1, assign. rewrite Hq.
      rewrite lookup_update_same by (eapply lookup_lt; eassumption).
      rewrite (set_item_app s (STuple x) (SRef p) done rest Hnk).
      now rewrite <- app_assoc. }
    assert (Ho1 : forall p0, p0 <> q -> lookup st1 p0 = lookup st p0).
    { intros p0 Hp0. unfold st1, assign. rewrite Hq.
      now apply lookup_update_other. }
    assert (Hl1 : List.length st1 = List.length st).
    { unfold st1, assign. rewrite Hq. apply length_update. }
    assert (Hsame : same_lists st st1).
    { intros p0 l0. destruct (Nat.eq_dec p0 q) as [-> | Hne].
      - rewrite Hq, Hq1. split; discriminate.
      - now rewrite Ho1. }
    destruct (IH (done ++ [(SStr s, STuple x)]) st1 Hq1) as
      (Hl & Ho & rest' & Hq' & Hs & Hok).
    { rewrite <- app_assoc. simpl. rewrite map_app in *. simpl in *. exact Hnd. }
    split; [congruence |].
    split; [intros p0 Hp0; rewrite Ho by exact Hp0; now apply Ho1 |].
    exists ((SStr s, STuple x) :: rest').
    rewrite <- app_assoc in Hq'. split; [exact Hq' |].
    assert (Hconv : conv_item st (SStr s, SRef p) = (SStr s, STuple x))
      by (unfold conv_item; simpl; now rewrite Hp).
    split.
    + constructor; [right; now rewrite Hconv |].
      eapply Forall2_impl; [| exact Hs].
      intros a b [-> | ->]; [now left | right; now apply conv_item_same].
    + intros u Hu. simpl map. rewrite Hconv. f_equal.
      rewrite (Hok u Hu). apply map_ext. intros a. now apply conv_item_same.
Qed.

(** Steps of the entries of a dict compose; a converted entry stays. *)
Lemma item_step_trans (st : store) (d d1 : list (sval * sval)) :
  Forall2 (item_step st) d d1 ->
  forall d2, Forall2 (item_step st) d1 d2 -> Forall2 (item_step st) d d2.
Proof.
  induction 1 as [| a b d d1 Hab _ IH]; intros d2 H2; inversion H2; subst.
  - constructor.
  - constructor; [| now apply IH].
    match goal with H : item_step st b _ |- _ => destruct H as [-> | ->] end.
    + exact Hab.
    + destruct Hab as [-> | ->]; [now right |].
      right. apply conv_item_twice.
Qed.

Lemma item_step_done (st : store) (d d' : list (sval * sval)) :
  Forall2 (item_step st) (map (conv_item st) d) d' ->
  d' = map (conv_item st) d.
Proof.
  revert d'. induction d as [| a d IH]; intros d' H; inversion H; subst.
  - reflexivity.
  - simpl. f_equal; [| now apply IH].
    match goal with H : item_step st _ _ |- _ => destruct H as [-> | ->] end.
    + reflexivity.
    + apply conv_item_twice.
Qed.

Lemma item_step_full (st : store) (d d1 : list (sval * sval)) :
  Forall2 (item_step st) d d1 ->
  map (conv_item st) d1 = map (conv_item st) d.
Proof.
  induction 1 as [| a b d d1 [-> | ->] _ IH]; simpl; try congruence.
  rewrite conv_item_twice. congruence.
Qed.

Lemma item_step_same (st st' : store) (d d' : list (sval * sval)) :
  same_lists st st' ->
  Forall2 (item_step st') d d' -> Forall2 (item_step st) d d'.
Proof.
  intros Hs H. eapply Forall2_impl; [| exact H].
  intros a b [-> | ->]; [now left | right; now apply conv_item_same].
Qed.

Lemma conv_item_keys (st : store) (d : list (sval * sval)) :
  map fst (map (conv_item st) d) = map fst d.
Proof. rewrite map_map. reflexivity. Qed.

Lemma items_post_same_lists (q : loc) (d : list (sval * sval)) (st : store)
  (out : result unit * store) :
  lookup st q = Some (CDict d) ->
  items_post q [] d st out -> same_lists st (snd out).
Proof.
  intros Hq (Hl & Ho & rest' & Hq' & _) p l.
  destruct (Nat.eq_dec p q) as [-> | Hne].
  - rewrite Hq, Hq'. split; discriminate.
  - now rewrite Ho.
Qed.

(** The loop over the elements of the argument. *)
Lemma elems_post_stop (elems : list sval) (st : store) (e : exn) :
  elems_post elems st (Err e, st).
Proof.
  split; [reflexivity |]. split; [auto |]. split.
  - intros p d Hp. exists d. split; [exact Hp |].
    split; [apply item_step_refl |]. split; [reflexivity |].
    intros r Hr. discriminate Hr.
  - intros r Hr. discriminate Hr.
Qed.

Lemma fst_push (x : sval) (out : result (list sval) * store) (r : list sval) :
  fst (push x out) = Ok r -> exists r', fst out = Ok r' /\ r = x :: r'.
Proof.
  destruct out as [[r' | e] st']; simpl; intros H; [| discriminate].
  exists r'. split; congruence.
Qed.

Lemma snd_push (x : sval) (out : result (list sval) * store) :
  snd (push x out) = snd out.
Proof. now destruct out as [[r' | e] st']. Qed.

Lemma elems_post_push (x : sval) (rest : list sval) (st : store)
  (out : result (list sval) * store) :
  (forall p d, x = SRef p -> lookup st p = Some (CDict d) -> False) ->
  elems_post rest st out ->
  elems_post (x :: rest) st (push (conv_value st x) out).
Proof.
  intros Hx (Hl & Hlists & Hdicts & Hres).
  unfold elems_post. rewrite snd_push.
  split; [exact Hl |]. split; [exact Hlists |]. split.
  - intros p d Hp. destruct (Hdicts p d Hp) as (d' & Hp' & Hs & Hno & Hyes).
    exists d'. split; [exact Hp' |]. split; [exact Hs |]. split.
    + intros Hin. apply Hno. intros Hr. apply Hin. now right.
    + intros r Hr [Hin | Hin].
      * exfalso. exact (Hx p d Hin Hp).
      * destruct (fst_push _ _ _ Hr) as (r' & Hr' & _). exact (Hyes r' Hr' Hin).
  - intros r Hr. destruct (fst_push _ _ _ Hr) as (r' & Hr' & ->).
    simpl. now rewrite (Hres r' Hr').
Qed.

Lemma convert_elems_list (q : loc) (x rest : list sval) (st : store) :
  lookup st q = Some (CList x) ->
  convert_elems (SRef q :: rest) st = push (STuple x) (convert_elems rest st).
Proof. intros H. simpl. rewrite H. reflexivity. Qed.

Lemma convert_elems_dict (q : loc) (d : list (sval * sval)) (rest : list sval)
  (st : store) :
  lookup st q = Some (CDict d) ->
  convert_elems (SRef q :: rest) st
  = match convert_items q d st with
    | (Ok _, st') => push (SRef q) (convert_elems rest st')
    | (Err e, st') => (Err e, st')
    end.
Proof. intros H. simpl. rewrite H. reflexivity. Qed.

Lemma convert_elems_spec (elems : list sval) :
  forall st, unique_keys st -> elems_post elems st (convert_elems elems st).
Proof.
  induction elems as [| elem rest IH]; intros st Hu.
  - split; [reflexivity |]. split; [auto |]. split.
    + intros p d Hp. exists d. split; [exact Hp |].
      split; [apply item_step_refl |]. split; [reflexivity |].
      intros r _ [].
    + simpl. intros r Hr. congruence.
  - destruct elem as [| b | z | m e | s | l | q];
      try apply elems_post_stop.
    + change (convert_elems (SStr s :: rest) st)
        with (push (conv_value st (SStr s)) (convert_elems rest st)).
      apply elems_post_push; [discriminate | now apply IH].
    + change (convert_elems (STuple l :: rest) st)
        with (push (conv_value st (STuple l)) (convert_elems rest st)).
      apply elems_post_push; [discriminate | now apply IH].
    + destruct (lookup st q) as [[x | d] |] eqn:Hq.
      * rewrite (convert_elems_list q x rest st Hq).
        replace (STuple x) with (conv_value st (SRef q))
          by (simpl; now rewrite Hq).
        apply elems_post_push; [| now apply IH].
        intros p d Hp Hd. congruence.
      * rewrite (convert_elems_dict q d rest st Hq).
        assert (Hi := convert_items_spec q d [] st Hq (Hu q d Hq)).
        assert (Hsame := items_post_same_lists q d st _ Hq Hi).
        destruct (convert_items q d st) as [[u | e] st1].
        -- destruct Hi as (Hl1 & Ho1 & d1 & Hq1 & Hs1 & Hok1).
           simpl in Hl1, Ho1, Hq1, Hok1, Hsame.
           specialize (Hok1 u eq_refl). subst d1.
           assert (Hu1 : unique_keys st1).
           { intros p dp Hp. destruct (Nat.eq_dec p q) as [-> | Hne].
             - rewrite Hq1 in Hp. injection Hp as <-.
               rewrite conv_item_keys. exact (Hu q d Hq).
             - rewrite (Ho1 p Hne) in Hp. exact (Hu p dp Hp). }
           destruct (IH st1 Hu1) as (Hl2 & Hlists2 & Hdicts2 & Hres2).
           unfold elems_post. rewrite snd_push.
           split; [congruence |]. split.
           { intros p l Hp. apply Hlists2. now apply Hsame. }
           split.
           ++ intros p dp Hp. destruct (Nat.eq_dec p q) as [-> | Hne].
              ** assert (dp = d) by congruence. subst dp.
                 destruct (Hdicts2 q _ Hq1) as (d2 & Hq2 & Hs2 & _ & _).
                 apply (item_step_same st st1) in Hs2; [| exact Hsame].
                 apply item_step_done in Hs2. subst d2.
                 exists (map (conv_item st) d). split; [exact Hq2 |].
                 split; [apply item_step_conv |]. split.
                 --- intros Hin. exfalso. apply Hin. now left.
                 --- reflexivity.
              ** rewrite <- (Ho1 p Hne) in Hp.
                 destruct (Hdicts2 p dp Hp) as (d2 & Hp2 & Hs2 & Hno2 & Hyes2).
                 exists d2. split; [exact Hp2 |].
                 split; [now apply (item_step_same st st1) |]. split.
                 --- intros Hin. apply Hno2. intros Hr. apply Hin. now right.
                 --- intros r Hr [Hin | Hin]; [congruence |].
                     destruct (fst_push _ _ _ Hr) as (r' & Hr' & _).
                     rewrite (Hyes2 r' Hr' Hin).
                     apply map_ext. intros a. symmetry.
                     now apply conv_item_same.
           ++ intros r Hr. destruct (fst_push _ _ _ Hr) as (r' & Hr' & ->).
              simpl. rewrite Hq. f_equal. rewrite (Hres2 r' Hr').
              apply map_ext. intros a. now apply conv_value_same.
        -- destruct Hi as (Hl1 & Ho1 & d1 & Hq1 & Hs1 & _).
           simpl in Hl1, Ho1, Hq1, Hsame.
           split; [exact Hl1 |]. split.
           { intros p l Hp. now apply Hsame. }
           split.
           ++ intros p dp Hp. destruct (Nat.eq_dec p q) as [-> | Hne].
              ** assert (dp = d) by congruence. subst dp.
                 exists d1. split; [exact Hq1 |]. split; [exact Hs1 |]. split.
                 --- intros Hin. exfalso. apply Hin. now left.
                 --- intros r Hr. discriminate Hr.
              ** exists dp. simpl. rewrite (Ho1 p Hne).
                 split; [exact Hp |]. split; [apply item_step_refl |].
                 split; [reflexivity |]. intros r Hr. discriminate Hr.
           ++ intros r Hr. discriminate Hr.
      * simpl. rewrite Hq. apply elems_post_stop.
Qed.

(** [to_sanity_check_paths_entry] on the store. *)
Lemma kept_refl (st : store) (touched : loc -> Prop) : kept st st touched.
Proof.
  split; [auto |]. intros p d Hp. exists d.
  split; [exact Hp |]. split; [apply item_step_refl | reflexivity].
Qed.

Lemma entry_spec (spec : sval) (st : store) :
  unique_keys st ->
  kept st (snd (to_sanity_check_paths_entry spec st)) (element_of st spec) /\
  (forall v, fst (to_sanity_check_paths_entry spec st) = Ok v ->
             entry_result st spec (snd (to_sanity_check_paths_entry spec st)) v).
Proof.
  intros Hu. unfold to_sanity_check_paths_entry.
  destruct (sequence spec st) as [elems |] eqn:Hseq.
  2:{ split; [apply kept_refl | intros v Hv; discriminate Hv]. }
  destruct (convert_elems_spec elems st Hu) as (Hl & Hlists & Hdicts & Hres).
  destruct (convert_elems elems st) as [[r | e] st1]; simpl in *.
  - split; [split |].
    + intros p l Hp. eapply lookup_alloc_old. now apply Hlists.
    + intros p d Hp. destruct (Hdicts p d Hp) as (d' & Hp' & Hs & Hno & _).
      exists d'. split; [now apply lookup_alloc_old |]. split; [exact Hs |].
      intros Ht. apply Hno. intros Hin. apply Ht. now exists elems.
    + intros v Hv. injection Hv as <-. split; [now rewrite Hl |]. split.
      * rewrite length_app. simpl. lia.
      * exists elems. split; [exact Hseq |]. split.
        -- rewrite <- Hl, (Hres r eq_refl). apply lookup_alloc.
        -- intros p d Hin Hp.
           destruct (Hdicts p d Hp) as (d' & Hp' & _ & _ & Hyes).
           rewrite (Hyes r eq_refl Hin) in Hp'. now apply lookup_alloc_old.
  - split; [split |].
    + exact Hlists.
    + intros p d Hp. destruct (Hdicts p d Hp) as (d' & Hp' & Hs & Hno & _).
      exists d'. split; [exact Hp' |]. split; [exact Hs |].
      intros Ht. apply Hno. intros Hin. apply Ht. now exists elems.
    + intros v Hv. discriminate Hv.
Qed.

(** In a store without dangling references, the objects added by the
    calls on the values of a dict do not change what the values of the
    caller stand for. *)
Lemma bounded_tuple (n : nat) (l : list sval) :
  bounded n (STuple l) <-> Forall (bounded n) l.
Proof.
  simpl. induction l as [| x l IH].
  - split; constructor.
  - split.
    + intros [Hx Hl]. constructor; [exact Hx | now apply IH].
    + intros H. inversion H; subst. split; [assumption | now apply IH].
Qed.

Lemma lookup_some (st : store) (p : loc) :
  p < List.length st -> exists c, lookup st p = Some c.
Proof.
  intros H. unfold lookup. destruct (nth_error st p) eqn:E; [eauto |].
  apply nth_error_None in E. lia.
Qed.

Lemma conv_value_agree (st0 st : store) (touched : loc -> Prop) (v : sval) :
  evolved st0 st touched -> bounded (List.length st0) v ->
  conv_value st v = conv_value st0 v.
Proof.
  intros [[Hlists Hdicts] _] Hb. destruct v; try reflexivity. simpl in *.
  destruct (lookup_some st0 p Hb) as [[l | d] Hp].
  - now rewrite Hp, (Hlists p l Hp).
  - destruct (Hdicts p d Hp) as (d' & Hp' & _). now rewrite Hp, Hp'.
Qed.

Lemma sequence_agree (st0 st : store) (touched : loc -> Prop) (v : sval) :
  evolved st0 st touched -> bounded (List.length st0) v ->
  sequence v st = sequence v st0.
Proof.
  intros [[Hlists Hdicts] _] Hb. destruct v; try reflexivity. simpl in *.
  destruct (lookup_some st0 p Hb) as [[l | d] Hp].
  - now rewrite Hp, (Hlists p l Hp).
  - destruct (Hdicts p d Hp) as (d' & Hp' & _). now rewrite Hp, Hp'.
Qed.

Lemma sequence_conv (st : store) (v : sval) :
  sequence (conv_value st v) st = sequence v st.
Proof.
  destruct v; try reflexivity. simpl.
  destruct (lookup st p) as [[x | d] |] eqn:E; simpl; try rewrite E; reflexivity.
Qed.

Lemma closed_dict (st : store) (q : loc) (d : list (sval * sval)) :
  closed st -> lookup st q = Some (CDict d) ->
  bounded_items (List.length st) d.
Proof. intros Hc Hq. exact (Hc q _ Hq). Qed.

Lemma closed_sequence (st : store) (v : sval) (elems : list sval) :
  closed st -> bounded (List.length st) v -> sequence v st = Some elems ->
  Forall (bounded (List.length st)) elems.
Proof.
  intros Hc Hb Hs. destruct v; try discriminate.
  - injection Hs as <-. now apply bounded_tuple.
  - simpl in Hs. destruct (lookup st p) as [[x | d] |] eqn:E; try discriminate.
    injection Hs as <-. exact (Hc p _ E).
Qed.

Lemma closed_conv (st : store) (v : sval) :
  closed st -> bounded (List.length st) v ->
  bounded (List.length st) (conv_value st v).
Proof.
  intros Hc Hb. destruct v; try exact Hb. simpl.
  destruct (lookup st p) as [[x | d] |] eqn:E; try exact Hb.
  apply bounded_tuple. exact (Hc p _ E).
Qed.

Lemma bounded_items_step (st : store) (d d' : list (sval * sval)) :
  closed st -> Forall2 (item_step st) d d' ->
  bounded_items (List.length st) d -> bounded_items (List.length st) d'.
Proof.
  intros Hc. induction 1 as [| a b d d' Hab _ IH]; intros Hb.
  - constructor.
  - inversion Hb; subst. constructor; [| now apply IH].
    destruct Hab as [-> | ->]; [assumption |]. simpl. now apply closed_conv.
Qed.

Lemma conv_items_agree (st0 st : store) (touched : loc -> Prop)
  (d : list (sval * sval)) :
  evolved st0 st touched -> bounded_items (List.length st0) d ->
  map (conv_item st) d = map (conv_item st0) d.
Proof.
  intros He Hb. induction Hb as [| a d Ha _ IH]; [reflexivity |].
  simpl. f_equal; [| exact IH]. unfold conv_item.
  now rewrite (conv_value_agree st0 st touched).
Qed.

Lemma item_step_agree (st0 st : store) (touched : loc -> Prop)
  (d d' : list (sval * sval)) :
  evolved st0 st touched -> bounded_items (List.length st0) d ->
  Forall2 (item_step st) d d' -> Forall2 (item_step st0) d d'.
Proof.
  intros He Hb H. induction H as [| a b d d' Hab _ IH].
  - constructor.
  - inversion Hb; subst. constructor; [| now apply IH].
    destruct Hab as [-> | ->]; [now left | right].
    unfold conv_item. now rewrite (conv_value_agree st0 st touched).
Qed.

Lemma evolved_unique (st0 st : store) (touched : loc -> Prop) :
  unique_keys st0 -> evolved st0 st touched -> unique_keys st.
Proof.
  intros Hu [[Hlists Hdicts] Hfresh] p d' Hp.
  destruct (Nat.lt_ge_cases p (List.length st0)) as [Hlt | Hge].
  - destruct (lookup_some st0 p Hlt) as [[l | d] Hp0].
    + rewrite (Hlists p l Hp0) in Hp. discriminate.
    + destruct (Hdicts p d Hp0) as (d'' & Hp'' & Hs & _).
      assert (d'' = d') by congruence. subst d''.
      rewrite (item_step_keys st0 d d' Hs). exact (Hu p d Hp0).
  - destruct (Hfresh p Hge (lookup_lt st p _ Hp)) as [l Hl]. congruence.
Qed.

Lemma evolved_step (st0 st st1 : store) (t t1 : loc -> Prop) :
  closed st0 -> evolved st0 st t -> kept st st1 t1 ->
  (forall p, t1 p -> t p) -> kept st0 st1 t.
Proof.
  intros Hc He [Hlists1 Hdicts1] Ht.
  assert (He' := He). destruct He' as [[Hlists Hdicts] _].
  split.
  - intros p l Hp. apply Hlists1. now apply Hlists.
  - intros p d Hp. destruct (Hdicts p d Hp) as (d' & Hp' & Hs & Hno).
    destruct (Hdicts1 p d' Hp') as (d'' & Hp'' & Hs' & Hno').
    exists d''. split; [exact Hp'' |].
    assert (Hb : bounded_items (List.length st0) d').
    { apply (bounded_items_step st0 d d' Hc Hs). exact (Hc p _ Hp). }
    split.
    + apply (item_step_trans st0 d d' Hs).
      exact (item_step_agree st0 st t d' d'' He Hb Hs').
    + intros Hnt. rewrite Hno' by (intros H1; apply Hnt; now apply Ht).
      now apply Hno.
Qed.

Lemma entry_built_kept (st0 st st1 : store) (t t1 : loc -> Prop)
  (val : sval) (at_loc : loc) :
  closed st0 -> evolved st0 st t -> kept st st1 t1 ->
  entry_built st0 val st at_loc -> entry_built st0 val st1 at_loc.
Proof.
  intros Hc He [Hlists1 Hdicts1] (elems & Hseq & Hat & Hd).
  exists elems. split; [exact Hseq |]. split; [now apply Hlists1 |].
  intros p d Hin Hp. specialize (Hd p d Hin Hp).
  destruct (Hdicts1 p _ Hd) as (d'' & Hp'' & Hs' & _).
  assert (Hb : bounded_items (List.length st0) (map (conv_item st0) d)).
  { apply (bounded_items_step st0 d); [exact Hc | apply item_step_conv |].
    exact (Hc p _ Hp). }
  apply (item_step_agree st0 st t) in Hs'; [| exact He | exact Hb].
  apply item_step_done in Hs'. congruence.
Qed.

Lemma entry_built_new (st0 st st1 : store) (t : loc -> Prop)
  (val0 val : sval) (k0 k : sval) :
  closed st0 -> evolved st0 st t ->
  bounded (List.length st0) val0 ->
  item_step st0 (k0, val0) (k, val) ->
  entry_built st val st1 (List.length st) ->
  entry_built st0 val0 st1 (List.length st).
Proof.
  intros Hc He Hb0 Hstep (elems & Hseq & Hat & Hd).
  assert (Hb : bounded (List.length st0) val).
  { destruct Hstep as [H | H]; injection H as _ ->;
      [exact Hb0 | now apply closed_conv]. }
  assert (Hseq0 : sequence val0 st0 = Some elems).
  { rewrite (sequence_agree st0 st t val He Hb) in Hseq.
    destruct Hstep as [H | H]; injection H as _ ->; [exact Hseq |].
    simpl in Hseq. now rewrite sequence_conv in Hseq. }
  assert (Hbe := closed_sequence st0 val0 elems Hc Hb0 Hseq0).
  exists elems. split; [exact Hseq0 |]. split.
  - rewrite Hat. do 2 f_equal. apply map_ext_in. intros a Ha.
    apply (conv_value_agree st0 st t); [exact He |].
    rewrite Forall_forall in Hbe. now apply Hbe.
  - intros p d Hin Hp.
    assert (He' := He). destruct He' as [[_ Hdicts] _].
    destruct (Hdicts p d Hp) as (d' & Hp' & Hs & _).
    rewrite (Hd p d' Hin Hp'). do 2 f_equal.
    rewrite (conv_items_agree st0 st t d' He).
    + now apply item_step_full.
    + apply (bounded_items_step st0 d d' Hc Hs). exact (Hc p _ Hp).
Qed.

Lemma element_of_step (st0 st : store) (t : loc -> Prop)
  (val0 val : sval) (k0 k : sval) (p : loc) :
  closed st0 -> evolved st0 st t ->
  bounded (List.length st0) val0 ->
  item_step st0 (k0, val0) (k, val) ->
  element_of st val p -> element_of st0 val0 p.
Proof.
  intros Hc He Hb0 Hstep (elems & Hseq & Hin).
  exists elems. split; [| exact Hin].
  assert (Hb : bounded (List.length st0) val).
  { destruct Hstep as [H | H]; injection H as _ ->;
      [exact Hb0 | now apply closed_conv]. }
  rewrite (sequence_agree st0 st t val He Hb) in Hseq.
  destruct Hstep as [H | H]; injection H as _ ->; [exact Hseq |].
  simpl in Hseq. now rewrite sequence_conv in Hseq.
Qed.

(** The loop over the keys of the argument of
    [to_sanity_check_paths_dict]. *)
Lemma Forall2_nth (A B : Type) (R : A -> B -> Prop) (l : list A) (l' : list B) :
  Forall2 R l l' ->
  forall i a, nth_error l i = Some a ->
              exists b, nth_error l' i = Some b /\ R a b.
Proof.
  induction 1 as [| x y l l' Hxy _ IH]; intros [| i] a Ha; simpl in *;
    try discriminate.
  - injection Ha as <-. eauto.
  - now apply IH.
Qed.

Lemma skipn_nth (A : Type) (l : list A) :
  forall i a, nth_error l i = Some a -> skipn i l = a :: skipn (S i) l.
Proof.
  induction l as [| x l IH]; intros [| i] a Ha; simpl in *; try discriminate.
  - injection Ha as <-. reflexivity.
  - now apply IH.
Qed.

Lemma nth_some (A : Type) (l : list A) (i : nat) :
  i < List.length l -> exists a, nth_error l i = Some a.
Proof.
  intros H. destruct (nth_error l i) eqn:E; [eauto |].
  apply nth_error_None in E. lia.
Qed.

Lemma convert_keys_spec (st0 : store) (q : loc) (d0 : list (sval * sval)) :
  unique_keys st0 -> closed st0 -> lookup st0 q = Some (CDict d0) ->
  forall n i st,
    i + n = List.length d0 ->
    List.length st = List.length st0 + i ->
    evolved st0 st (element_of_value st0 (SRef q)) ->
    built st0 d0 st i ->
    kept st0 (snd (convert_keys q i n st)) (element_of_value st0 (SRef q)) /\
    forall r, fst (convert_keys q i n st) = Ok r ->
      List.length (snd (convert_keys q i n st))
      = List.length st0 + List.length d0 /\
      r = combine (map fst (skipn i d0))
            (map SRef (seq (List.length st0 + i) n)) /\
      built st0 d0 (snd (convert_keys q i n st)) (List.length d0).
Proof.
  intros Hu Hc Hq. induction n as [| n IH]; intros i st Hin Hlen He Hbuilt.
  - simpl. split; [exact (proj1 He) |]. intros r Hr. injection Hr as <-.
    split; [lia |]. split.
    + now destruct (map fst (skipn i d0)).
    + replace (List.length d0) with i by lia. exact Hbuilt.
  - destruct (nth_some _ d0 i ltac:(lia)) as [[k0 val0] Hnth].
    assert (He' := He). destruct He' as [[Hlists Hdicts] Hfresh].
    destruct (Hdicts q d0 Hq) as (dq & Hq' & Hsq & _).
    destruct (Forall2_nth _ _ _ _ _ Hsq i _ Hnth) as ([k val] & Hnth' & Hstep).
    assert (Hk : k = k0) by (destruct Hstep as [H | H]; now injection H).
    subst k.
    assert (Hb0 : bounded (List.length st0) val0).
    { assert (Hb := closed_dict st0 q d0 Hc Hq).
      unfold bounded_items in Hb. rewrite Forall_forall in Hb.
      exact (Hb _ (nth_error_In _ _ Hnth)). }
    assert (Hu' := evolved_unique st0 st _ Hu He).
    destruct (entry_spec val st Hu') as [Hkept Hres].
    assert (Hkept0 : kept st0 (snd (to_sanity_check_paths_entry val st))
                       (element_of_value st0 (SRef q))).
    { apply (evolved_step st0 st _ _ (element_of st val) Hc He Hkept).
      intros p Hp. exists q, d0, k0, val0.
      split; [reflexivity |]. split; [exact Hq |].
      split; [exact (nth_error_In _ _ Hnth) |].
      exact (element_of_step st0 st _ val0 val k0 k0 p Hc He Hb0 Hstep Hp). }
    simpl convert_keys. rewrite Hq', Hnth'.
    destruct (to_sanity_check_paths_entry val st) as [[entry | e] st1].
    2:{ simpl. split; [exact Hkept0 | intros r Hr; discriminate Hr]. }
    simpl in Hkept, Hres, Hkept0.
    destruct (Hres entry eq_refl) as (-> & Hlen1 & Hnew).
    assert (He1 : evolved st0 st1 (element_of_value st0 (SRef q))).
    { split; [exact Hkept0 |]. intros p Hge Hlt.
      destruct (Nat.eq_dec p (List.length st)) as [-> | Hne].
      - destruct Hnew as (elems & _ & Hat & _). eauto.
      - destruct (Hfresh p Hge ltac:(lia)) as [l Hl].
        exists l. exact (proj1 Hkept p l Hl). }
    assert (Hbuilt1 : built st0 d0 st1 (S i)).
    { intros j k v Hj Hjn. destruct (Nat.eq_dec j i) as [-> | Hne].
      - assert (k = k0 /\ v = val0) as [-> ->]
            by (split; congruence).
        rewrite <- Hlen.
        exact (entry_built_new st0 st st1 _ val0 val k0 k0 Hc He Hb0 Hstep Hnew).
      - apply (entry_built_kept st0 st st1 _ (element_of st val) v _ Hc He Hkept).
        apply (Hbuilt j k v); [lia | exact Hjn]. }
    destruct (IH (S i) st1 ltac:(lia) ltac:(lia) He1 Hbuilt1) as [Hk2 Hr2].
    destruct (convert_keys q (S i) n st1) as [[r | e] st2]; simpl in *.
    + split; [exact Hk2 |]. intros r' Hr'. injection Hr' as <-.
      destruct (Hr2 r eq_refl) as (Hl2 & -> & Hb2).
      split; [exact Hl2 |]. split; [| exact Hb2].
      rewrite (skipn_nth _ d0 i _ Hnth). simpl.
      rewrite Hlen. now rewrite Nat.add_succ_r.
    + split; [exact Hk2 |]. intros r' Hr'. discriminate Hr'.
Qed.

Lemma kept_alloc (st st' : store) (t : loc -> Prop) (c : cell) :
  kept st st' t -> kept st (st' ++ [c]) t.
Proof.
  intros [Hlists Hdicts]. split.
  - intros p l Hp. eapply lookup_alloc_old. now apply Hlists.
  - intros p d Hp. destruct (Hdicts p d Hp) as (d' & Hp' & Hs & Hno).
    exists d'. split; [now apply lookup_alloc_old | now split].
Qed.

Lemma entry_built_alloc (st val st' : _) (at_loc : loc) (c : cell) :
  entry_built st val st' at_loc -> entry_built st val (st' ++ [c]) at_loc.
Proof.
  intros (elems & Hseq & Hat & Hd). exists elems.
  split; [exact Hseq |]. split; [now apply lookup_alloc_old |].
  intros p d Hin Hp. apply lookup_alloc_old. now apply Hd.
Qed.

Lemma dict_spec (spec : sval) (st : store) :
  unique_keys st -> closed st ->
  kept st (snd (to_sanity_check_paths_dict spec st))
    (element_of_value st spec) /\
  (forall v, fst (to_sanity_check_paths_dict spec st) = Ok v ->
             dict_result st spec (snd (to_sanity_check_paths_dict spec st)) v).
Proof.
  intros Hu Hc. unfold to_sanity_check_paths_dict.
  destruct spec as [| b | z | m e | s | l | q];
    try (split; [apply kept_refl | intros v Hv; discriminate Hv]).
  destruct (lookup st q) as [[x | d] |] eqn:Hq;
    try (split; [apply kept_refl | intros v Hv; discriminate Hv]).
  destruct (convert_keys_spec st q d Hu Hc Hq (List.length d) 0 st) as [Hk Hr].
  - reflexivity.
  - lia.
  - split; [apply kept_refl |]. intros p Hge Hlt. lia.
  - intros j k val Hj. lia.
  - destruct (convert_keys q 0 (List.length d) st) as [[r | e] st1];
      simpl in *.
    + split; [now apply kept_alloc |]. intros v Hv. injection Hv as <-.
      destruct (Hr r eq_refl) as (Hl & -> & Hb).
      exists q, d. split; [reflexivity |]. split; [exact Hq |].
      split; [now rewrite Hl |]. split; [rewrite length_app; simpl; lia |].
      split.
      * rewrite <- Hl, Nat.add_0_r. apply lookup_alloc.
      * intros i k val Hnth. apply entry_built_alloc.
        apply (Hb i k val); [| exact Hnth].
        apply nth_error_Some. congruence.
    + split; [exact Hk | intros v Hv; discriminate Hv].
Qed.

(** The store of the docstring example is well formed. *)
Lemma example_store_unique : unique_keys example_store.
Proof.
  intros p d H. destruct p as [| [| [| [| p]]]]; simpl in H;
    try discriminate H.
  - injection H as <-. repeat constructor. intros [].
  - destruct p; discriminate H.
Qed.

Lemma example_store_closed : closed example_store.
Proof.
  intros p c H. destruct p as [| [| [| [| p]]]]; simpl in H;
    try (injection H as <-; repeat constructor; simpl; lia).
  destruct p; discriminate H.
Qed.

(** C3 (amended): on a store whose dicts have distinct keys,
    [to_sanity_check_paths_entry] leaves every list of the caller with
    the items it had and every dict that is no element of its argument
    as it was; in a dict that is an element of the argument every entry
    stays in place with its key, its value as it was or replaced by the
    tuple of the items of the list it referred to; and when the call
    succeeds it has added one object only, the list it returns, whose
    items are the elements of the argument in order, a list element
    replaced by the tuple of its items and a dict element being the
    caller's own dict, all of whose list values have by then been
    replaced.  On a store that also has no dangling reference,
    [to_sanity_check_paths_dict] does the same to the dicts that are
    elements of the values of its argument, and when it succeeds it
    returns a new dict with the keys of the argument in their order,
    the value under the key at position [i] being the new list built
    for the value at that position. *)
Theorem sanity_check_paths_effect (spec : sval) (st : store) :
  unique_keys st ->
  (kept st (snd (to_sanity_check_paths_entry spec st)) (element_of st spec) /\
   forall v, fst (to_sanity_check_paths_entry spec st) = Ok v ->
     entry_result st spec (snd (to_sanity_check_paths_entry spec st)) v) /\
  (closed st ->
   kept st (snd (to_sanity_check_paths_dict spec st))
     (element_of_value st spec) /\
   forall v, fst (to_sanity_check_paths_dict spec st) = Ok v ->
     dict_result st spec (snd (to_sanity_check_paths_dict spec st)) v).
Proof.
  intros Hu. split.
  - now apply entry_spec.
  - intros Hc. now apply dict_spec.
Qed.

Lemma sanity_check_paths_effect_witness :
  unique_keys example_store /\ closed example_store /\
  entry_result example_store example_spec
    (snd (to_sanity_check_paths_entry example_spec example_store)) (SRef 4) /\
  dict_result example_store (SRef 1)
    (snd (to_sanity_check_paths_dict (SRef 1) example_store)) (SRef 5).
Proof.
  split; [exact example_store_unique |].
  split; [exact example_store_closed |]. split.
  - exact (proj2 (proj1 (sanity_check_paths_effect example_spec example_store
                           example_store_unique)) (SRef 4) eq_refl).
  - exact (proj2 (proj2 (sanity_check_paths_effect (SRef 1) example_store
                           example_store_unique) example_store_closed)
             (SRef 5) eq_refl).
Defined.

End StoreFacts.

(** On the docstring example the store version returns the value the
    function on values computes. *)
Lemma store_example_agrees :
  (let* spec := match Store.snapshot 4 Store.example_store Store.example_spec with
                | Some v => Ok v
                | None => Err KeyError
                end in
   to_sanity_check_paths_entry spec)
  = match Store.to_sanity_check_paths_entry Store.example_spec Store.example_store with
    | (Ok v, st') => match Store.snapshot 4 st' v with
                     | Some r => Ok r
                     | None => Err KeyError
                     end
    | (Err e, _) => Err e
    end.
Proof. reflexivity. Qed.

(** * Further properties *)

(** ** The matcher on the descriptors of the module *)

Lemma any_res_ok {A} (f : A -> result bool) (l : list A) :
  Forall (fun t => exists b, f t = Ok b) l -> exists b, any_res f l = Ok b.
Proof.
  induction 1 as [| t l [b Ht] _ [r IH]].
  - now exists false.
  - rewrite any_res_cons, Ht. simpl. destruct b; [now exists true | now exists r].
Qed.

Lemma all_res_ok {A} (f : A -> result bool) (l : list A) :
  Forall (fun x => exists b, f x = Ok b) l -> exists b, all_res f l = Ok b.
Proof.
  induction 1 as [| x l [b Hx] _ [r IH]].
  - now exists true.
  - rewrite all_res_cons, Hx, IH. simpl. now eexists.
Qed.

Lemma all_sc_res_ok {A} (f : A -> result bool) (l : list A) :
  Forall (fun x => exists b, f x = Ok b) l -> exists b, all_sc_res f l = Ok b.
Proof.
  induction 1 as [| x l [b Hx] _ [r IH]].
  - now exists true.
  - change (all_sc_res f (x :: l))
      with (let* b := f x in if b then all_sc_res f l else Ok false).
    rewrite Hx. simpl. destruct b; [now exists r | now exists false].
Qed.

Lemma any_registered_ok (v : pyval) (ts : list tobj) :
  checks v -> Forall registered ts -> exists b, any_res (is_value_of_type v) ts = Ok b.
Proof.
  intros Hv Hts. apply any_res_ok. eapply Forall_impl; [| exact Hts].
  intros T HT. now apply Hv.
Qed.

Lemma elems_seq_ok (l : list pyval) (ts : list tobj) :
  Forall checks l -> Forall registered ts ->
  exists b, all_res (fun elem => any_res (is_value_of_type elem) ts) l = Ok b.
Proof.
  intros Hl Hts. apply all_res_ok. eapply Forall_impl; [| exact Hl].
  intros e He. now apply any_registered_ok.
Qed.

Lemma elems_dict_flat_ok (d : list (pyval * pyval)) (ts : list tobj) :
  Forall (fun kv => checks (fst kv) /\ checks (snd kv)) d -> Forall registered ts ->
  exists b, all_res (fun kv : pyval * pyval =>
                       any_res (is_value_of_type (snd kv)) ts) d = Ok b.
Proof.
  intros Hd Hts. apply all_res_ok. eapply Forall_impl; [| exact Hd].
  intros kv [_ Hv]. now apply any_registered_ok.
Qed.

Lemma keys_dict_ok (d : list (pyval * pyval)) (t : tobj) (ts : list tobj) :
  Forall (fun kv => checks (fst kv) /\ checks (snd kv)) d ->
  py_iter t = Ok ts -> Forall registered ts ->
  exists b, all_res (fun kv : pyval * pyval =>
                       let* ts := py_iter t in
                       any_res (is_value_of_type (fst kv)) ts) d = Ok b.
Proof.
  intros Hd Ht Hts. apply all_res_ok. eapply Forall_impl; [| exact Hd].
  intros kv [Hk _]. rewrite Ht. simpl. now apply any_registered_ok.
Qed.

Lemma odict_find_in (k : pyval) (m : list (tobj * tobj)) (t : tobj) :
  odict_find k m = Some t -> In t (map snd m).
Proof.
  induction m as [| [k' v] m IH]; simpl; [discriminate |].
  destruct (key_eq k k'); [intros H; injection H as ->; now left | auto].
Qed.

Lemma elems_dict_by_key_ok (d : list (pyval * pyval)) (m : list (tobj * tobj)) :
  Forall (fun kv => checks (fst kv) /\ checks (snd kv)) d ->
  Forall (fun t => exists ts, py_iter t = Ok ts /\ Forall registered ts) (map snd m) ->
  exists b,
    all_res
      (fun kv : pyval * pyval =>
         match odict_find (fst kv) m with
         | Some ts_obj =>
             let* ts := py_iter ts_obj in
             any_res (is_value_of_type (snd kv)) ts
         | None => any_res (is_value_of_type (snd kv)) []
         end) d = Ok b.
Proof.
  intros Hd Hm. apply all_res_ok. eapply Forall_impl; [| exact Hd].
  intros kv [_ Hv]. destruct (odict_find (fst kv) m) as [t |] eqn:E.
  - apply odict_find_in in E. rewrite Forall_forall in Hm.
    destruct (Hm _ E) as (ts & -> & Hts). simpl. now apply any_registered_ok.
  - now exists false.
Qed.

Lemma known_keys_ok (d : list (pyval * pyval)) (ks : list tobj) :
  exists b, check_known_keys (VDict d) (OTuple ks) = Ok b.
Proof.
  apply all_sc_res_ok. apply Forall_forall. intros kv _. simpl. now eexists.
Qed.

Lemma keys_flat_ok (d : list (pyval * pyval)) (ts : list tobj) :
  Forall (fun kv => checks (fst kv) /\ checks (snd kv)) d -> Forall registered ts ->
  exists b, all_res (fun kv : pyval * pyval =>
                       any_res (is_value_of_type (fst kv)) ts) d = Ok b.
Proof.
  intros Hd Hts. apply all_res_ok. eapply Forall_impl; [| exact Hd].
  intros kv [Hk _]. now apply any_registered_ok.
Qed.

Lemma bind_ok {A B} (r : result A) (f : A -> result B) :
  (exists a, r = Ok a) -> (forall a, exists b, f a = Ok b) ->
  exists b, bind r f = Ok b.
Proof. intros [a ->] Hf. apply Hf. Qed.

Ltac in_registry :=
  unfold registered; simpl app; repeat first [left; reflexivity | right].

Ltac forall_registered :=
  repeat (apply Forall_cons; [in_registry |]); apply Forall_nil.

Ltac by_key_registered :=
  simpl map;
  repeat (apply Forall_cons;
          [eexists; split; [reflexivity | forall_registered] |]);
  apply Forall_nil.

Ltac matcher_returns :=
  repeat lazymatch goal with
    | |- exists b, Ok _ = Ok b => eexists; reflexivity
    | |- exists b, bind _ _ = Ok b => apply bind_ok; [| intros ?]
    | |- exists b, check_known_keys _ _ = Ok b => apply known_keys_ok
    | |- exists b, all_res _ [] = Ok b => exists true; reflexivity
    | |- exists b, all_res _ (_ :: _) = Ok b =>
        rewrite all_res_cons;
        cbn -[all_res any_res all_sc_res is_value_of_type check_known_keys odict_find]
    | |- exists b, all_res _ _ = Ok b =>
        first [ apply elems_seq_ok; [assumption | forall_registered]
              | apply elems_dict_flat_ok; [assumption | forall_registered]
              | apply keys_flat_ok; [assumption | forall_registered]
              | apply elems_dict_by_key_ok; [assumption | by_key_registered] ]
    end.

Lemma matcher_returns_on_registered (v : pyval) : checks v.
Proof.
  induction v using pyval_nested_ind; intros T HT;
    unfold registered in HT; simpl in HT;
    repeat (destruct HT as [<- | HT]; [| ]); try contradiction;
    rewrite is_value_of_type_unfold;
    cbn -[all_res any_res all_sc_res is_value_of_type check_known_keys odict_find];
    matcher_returns.
Qed.

(** X1: the matcher returns an answer for every value and every
    descriptor of [EASY_TYPES] and [CHECKABLE_TYPES], and raises for a
    descriptor that is in neither list. *)
Theorem is_value_of_type_returns (v : pyval) (T : tobj) :
  (registered T -> exists b, is_value_of_type v T = Ok b) /\
  (tobj_in T EASY_TYPES = false -> tobj_in T CHECKABLE_TYPES = false ->
   is_value_of_type v T = Err unknown_descriptor).
Proof.
  split.
  - apply matcher_returns_on_registered.
  - intros HE HC. rewrite is_value_of_type_unfold, HE, HC. reflexivity.
Qed.

Lemma is_value_of_type_returns_witness :
  registered CHECKSUMS /\
  (exists b, is_value_of_type (VList [VNone; VInt 3]) CHECKSUMS = Ok b) /\
  is_value_of_type (VFloat 3 (-1)) float_ = Err unknown_descriptor.
Proof.
  assert (H : registered CHECKSUMS) by in_registry.
  split; [exact H |]. split.
  - exact (proj1 (is_value_of_type_returns (VList [VNone; VInt 3]) CHECKSUMS) H).
  - exact (proj2 (is_value_of_type_returns (VFloat 3 (-1)) float_) eq_refl eq_refl).
Defined.

(** X2: for a checkable descriptor, a value that is not an instance of
    the parent type is refused without looking at the requirements. *)
Theorem parent_type_mismatch (v : pyval) (T : tobj) (P : pytype) :
  In T CHECKABLE_TYPES -> parent_of T = Some P -> instance_of v P = false ->
  is_value_of_type v T = Ok false.
Proof.
  intros HT HP Hv. simpl in HT.
  repeat (destruct HT as [<- | HT]; [| ]); try contradiction;
    injection HP as <-; destruct v; try discriminate Hv; reflexivity.
Qed.

Lemma parent_type_mismatch_witness :
  In DEPENDENCIES CHECKABLE_TYPES /\
  parent_of DEPENDENCIES = Some Tlist /\
  instance_of (VTuple [VStr "GCC"]) Tlist = false /\
  is_value_of_type (VTuple [VStr "GCC"]) DEPENDENCIES = Ok false.
Proof.
  assert (H : In DEPENDENCIES CHECKABLE_TYPES) by (do 7 right; left; reflexivity).
  split; [exact H |]. split; [reflexivity |]. split; [reflexivity |].
  exact (parent_type_mismatch (VTuple [VStr "GCC"]) DEPENDENCIES Tlist
           H eq_refl eq_refl).
Defined.

(** ** What some descriptors accept *)

Lemma all_res_ext {A} (f g : A -> result bool) (l : list A) :
  (forall x, f x = g x) -> all_res f l = all_res g l.
Proof.
  intros H. induction l as [| x l IH]; [reflexivity |].
  now rewrite !all_res_cons, H, IH.
Qed.

Lemma all_res_pure {A} (g : A -> bool) (l : list A) :
  all_res (fun x => Ok (g x)) l = Ok (forallb g l).
Proof.
  induction l as [| x l IH]; [reflexivity |].
  rewrite all_res_cons, IH. reflexivity.
Qed.

Lemma all_sc_res_pure {A} (g : A -> bool) (l : list A) :
  all_sc_res (fun x => Ok (g x)) l = Ok (forallb g l).
Proof.
  induction l as [| x l IH]; [reflexivity |].
  change (all_sc_res (fun x => Ok (g x)) (x :: l))
    with (let* b := Ok (g x) in
          if b then all_sc_res (fun x => Ok (g x)) l else Ok false).
  rewrite IH. simpl. destruct (g x); reflexivity.
Qed.

Lemma matches_str (v : pyval) : is_value_of_type v str_ = Ok (is_str v).
Proof. destruct v; reflexivity. Qed.

Lemma matches_bool (v : pyval) : is_value_of_type v bool_ = Ok (is_bool v).
Proof. destruct v; reflexivity. Qed.

Lemma any_str (v : pyval) : any_res (is_value_of_type v) [str_] = Ok (is_str v).
Proof. rewrite any_res_cons, matches_str. destruct (is_str v); reflexivity. Qed.

Lemma any_bool (v : pyval) : any_res (is_value_of_type v) [bool_] = Ok (is_bool v).
Proof. rewrite any_res_cons, matches_bool. destruct (is_bool v); reflexivity. Qed.

Lemma list_of_strings_matches (v : pyval) :
  is_value_of_type v LIST_OF_STRINGS
  = Ok match v with VList l => forallb is_str l | _ => false end.
Proof.
  destruct v; try reflexivity.
  rewrite is_value_of_type_unfold.
  cbn -[all_res any_res is_value_of_type].
  rewrite all_res_cons. cbn -[all_res any_res is_value_of_type].
  rewrite (all_res_ext _ (fun e => Ok (is_str e))) by apply any_str.
  rewrite all_res_pure. simpl. now rewrite andb_true_r.
Qed.

Lemma tuple_of_strings_matches (v : pyval) :
  is_value_of_type v TUPLE_OF_STRINGS
  = Ok match v with VTuple l => forallb is_str l | _ => false end.
Proof.
  destruct v; try reflexivity.
  rewrite is_value_of_type_unfold.
  cbn -[all_res any_res is_value_of_type].
  rewrite all_res_cons. cbn -[all_res any_res is_value_of_type].
  rewrite (all_res_ext _ (fun e => Ok (is_str e))) by apply any_str.
  rewrite all_res_pure. simpl. now rewrite andb_true_r.
Qed.

Lemma string_dict_matches (v : pyval) :
  is_value_of_type v STRING_DICT
  = Ok match v with
       | VDict d => forallb (fun kv => is_str (snd kv)) d
                    && forallb (fun kv => is_str (fst kv)) d
       | _ => false
       end.
Proof.
  destruct v; try reflexivity.
  rewrite is_value_of_type_unfold.
  cbn -[all_res any_res is_value_of_type].
  rewrite !all_res_cons. cbn -[all_res any_res is_value_of_type].
  rewrite (all_res_ext _ (fun kv => Ok (is_str (snd kv))))
    by (intros kv; apply any_str).
  rewrite (all_res_ext (fun kv : pyval * pyval => any_res _ _)
             (fun kv => Ok (is_str (fst kv))))
    by (intros kv; apply any_str).
  rewrite !all_res_pure. simpl. now rewrite andb_true_r.
Qed.

(** X3: the descriptors for a list of strings, a tuple of strings and a
    dict of strings accept exactly the lists (tuples) whose items are
    all strings and the dicts whose keys and values are all strings. *)
Theorem string_containers (v : pyval) :
  is_value_of_type v LIST_OF_STRINGS
  = Ok match v with VList l => forallb is_str l | _ => false end /\
  is_value_of_type v TUPLE_OF_STRINGS
  = Ok match v with VTuple l => forallb is_str l | _ => false end /\
  is_value_of_type v STRING_DICT
  = Ok match v with
       | VDict d => forallb (fun kv => is_str (snd kv)) d
                    && forallb (fun kv => is_str (fst kv)) d
       | _ => false
       end.
Proof.
  split; [apply list_of_strings_matches |].
  split; [apply tuple_of_strings_matches | apply string_dict_matches].
Qed.

Lemma toolchain_item_check (kv : pyval * pyval) :
  match odict_find (fst kv)
          [(OStr "hidden", OTuple [bool_]); (OStr "name", OTuple [str_]);
           (OStr "version", OTuple [str_])] with
  | Some ts_obj =>
      let* ts := py_iter ts_obj in any_res (is_value_of_type (snd kv)) ts
  | None => any_res (is_value_of_type (snd kv)) []
  end = Ok (toolchain_item_ok kv).
Proof.
  destruct kv as [k x]. unfold toolchain_item_ok. destruct k; try reflexivity.
  cbn -[any_res is_value_of_type String.eqb].
  destruct (String.eqb s "hidden"); [apply any_bool |].
  destruct (String.eqb s "name"); [apply any_str |].
  destruct (String.eqb s "version"); [apply any_str | reflexivity].
Qed.

Lemma toolchain_item_known (kv : pyval * pyval) :
  toolchain_item_ok kv = true ->
  existsb (key_eq (fst kv)) [OStr "hidden"; OStr "name"; OStr "version"] = true.
Proof.
  destruct kv as [k x]. unfold toolchain_item_ok. destruct k; try discriminate.
  cbn -[String.eqb].
  destruct (String.eqb s "hidden"); [reflexivity |].
  destruct (String.eqb s "name"); [reflexivity |].
  destruct (String.eqb s "version"); [reflexivity | discriminate].
Qed.

(** X4: [TOOLCHAIN_DICT] accepts exactly the dicts that have the keys
    name and version, a string under each, and at most one more key,
    hidden, with a boolean under it. *)
Theorem toolchain_dict_matches (v : pyval) :
  is_value_of_type v TOOLCHAIN_DICT
  = Ok match v with
       | VDict d =>
           forallb toolchain_item_ok d && has_key "name" d && has_key "version" d
       | _ => false
       end.
Proof.
  destruct v; try reflexivity.
  rewrite is_value_of_type_unfold.
  cbn -[all_res any_res all_sc_res is_value_of_type check_known_keys odict_find
        existsb].
  rewrite !all_res_cons.
  cbn -[all_res any_res all_sc_res is_value_of_type check_known_keys odict_find
        existsb].
  rewrite (all_res_ext _ (fun kv => Ok (toolchain_item_ok kv)))
    by apply toolchain_item_check.
  rewrite all_res_pure.
  unfold check_known_keys, py_contains.
  rewrite (all_sc_res_pure
             (fun kv : pyval * pyval =>
                existsb (key_eq (fst kv)) [OStr "hidden"; OStr "name"; OStr "version"])).
  cbn [bind]. unfold has_key.
  destruct (forallb toolchain_item_ok d) eqn:E; [| reflexivity].
  assert (K : forallb (fun kv : pyval * pyval =>
                         existsb (key_eq (fst kv))
                           [OStr "hidden"; OStr "name"; OStr "version"]) d = true).
  { rewrite forallb_forall in *. intros kv Hkv. apply toolchain_item_known; auto. }
  rewrite K. simpl. now rewrite !andb_true_r.
Qed.

(** ** Conversions and the matcher *)

(** X5: whatever [to_list_of_strings] returns is accepted by
    [LIST_OF_STRINGS], and the function hands its argument back exactly
    when the argument is accepted already. *)
Theorem to_list_of_strings_matches (v : pyval) :
  (forall r, to_list_of_strings v = Ok r ->
             is_value_of_type r LIST_OF_STRINGS = Ok true) /\
  (to_list_of_strings v = Ok v <-> is_value_of_type v LIST_OF_STRINGS = Ok true).
Proof.
  rewrite list_of_strings_matches. split.
  - intros r H. rewrite list_of_strings_matches.
    destruct v; simpl in H; try discriminate.
    + injection H as <-. reflexivity.
    + destruct (forallb is_str l) eqn:E; [| discriminate].
      injection H as <-. now rewrite E.
    + destruct (forallb is_str l) eqn:E; [| discriminate].
      injection H as <-. now rewrite E.
  - destruct v; simpl; try (split; discriminate).
    + destruct (forallb is_str l); split; congruence.
    + split; [| discriminate].
      destruct (forallb is_str l); intros H; [injection H as H |]; discriminate.
Qed.

Lemma to_list_of_strings_matches_witness :
  to_list_of_strings (VTuple [VStr "a"; VStr "b"]) = Ok (VList [VStr "a"; VStr "b"]) /\
  is_value_of_type (VList [VStr "a"; VStr "b"]) LIST_OF_STRINGS = Ok true.
Proof.
  split; [reflexivity |].
  exact (proj1 (to_list_of_strings_matches (VTuple [VStr "a"; VStr "b"]))
           (VList [VStr "a"; VStr "b"]) eq_refl).
Defined.

Lemma str_strip_ok (x : pyval) (s : string) :
  str_strip x = Ok s -> exists t, x = VStr t /\ s = strip t.
Proof. destruct x; simpl; try discriminate. intros H. injection H as <-. eauto. Qed.

Lemma to_toolchain_dict_seq_matches (l : list pyval) (r : pyval) :
  to_toolchain_dict (VList l) = Ok r \/ to_toolchain_dict (VTuple l) = Ok r ->
  is_value_of_type r TOOLCHAIN_DICT = Ok true.
Proof.
  assert (Heq : to_toolchain_dict (VTuple l) = to_toolchain_dict (VList l))
    by reflexivity.
  rewrite Heq. intros H. assert (H' : to_toolchain_dict (VList l) = Ok r) by tauto.
  clear H Heq. unfold to_toolchain_dict in H'.
  destruct l as [| a [| b [| c [|]]]]; try discriminate H'.
  - destruct (str_strip a) as [n |] eqn:Ea; [| discriminate].
    destruct (str_strip b) as [v |] eqn:Eb; [| discriminate].
    simpl in H'. injection H' as <-. reflexivity.
  - destruct (str_strip c) as [h |] eqn:Ec; [| discriminate].
    cbn [bind] in H'.
    destruct (existsb (String.eqb (lower h)) truthy_tokens);
      [| destruct (existsb (String.eqb (lower h)) falsy_tokens); [| discriminate]];
      cbn [bind] in H';
      destruct (str_strip a) as [n |] eqn:Ea; try discriminate;
      destruct (str_strip b) as [v |] eqn:Eb; try discriminate;
      simpl in H'; injection H' as <-; reflexivity.
Qed.

(** X6: when [to_toolchain_dict] converts a string, a list or a tuple,
    the dict it builds is accepted by [TOOLCHAIN_DICT]. *)
Theorem to_toolchain_dict_built_matches (spec r : pyval) :
  type_of spec <> Tdict ->
  to_toolchain_dict spec = Ok r ->
  is_value_of_type r TOOLCHAIN_DICT = Ok true.
Proof.
  intros Hspec H. destruct spec; try discriminate H.
  - apply (to_toolchain_dict_seq_matches (map VStr (split "," s))). left. exact H.
  - apply (to_toolchain_dict_seq_matches l). now left.
  - apply (to_toolchain_dict_seq_matches l). now right.
  - now elim Hspec.
Qed.

Lemma to_toolchain_dict_built_matches_witness :
  type_of (VStr "foss, 2016a, True") <> Tdict /\
  to_toolchain_dict (VStr "foss, 2016a, True")
  = Ok (VDict [(VStr "name", VStr "foss"); (VStr "version", VStr "2016a");
               (VStr "hidden", VBool true)]) /\
  is_value_of_type
    (VDict [(VStr "name", VStr "foss"); (VStr "version", VStr "2016a");
            (VStr "hidden", VBool true)]) TOOLCHAIN_DICT = Ok true.
Proof.
  split; [discriminate |]. split; [reflexivity |].
  apply (to_toolchain_dict_built_matches (VStr "foss, 2016a, True"));
    [discriminate | reflexivity].
Defined.

(** X7: [to_toolchain_dict] refuses a list or tuple that has not 2 or 3
    elements, and so a string without a comma or with more than two. *)
Theorem to_toolchain_dict_wrong_length (l : list pyval) (s : string) :
  (List.length l <> 2%nat -> List.length l <> 3%nat ->
   to_toolchain_dict (VList l) = Err wrong_length /\
   to_toolchain_dict (VTuple l) = Err wrong_length) /\
  (no_sep "," s = true -> to_toolchain_dict (VStr s) = Err wrong_length).
Proof.
  split.
  - intros H2 H3. destruct l as [| a [| b [| c [|]]]]; simpl in *;
      try lia; split; reflexivity.
  - intros H. unfold to_toolchain_dict. rewrite (split_no_sep _ _ H). reflexivity.
Qed.

Lemma to_toolchain_dict_wrong_length_witness :
  to_toolchain_dict (VList [VStr "GCC"]) = Err wrong_length /\
  to_toolchain_dict (VStr "GCC 9.3.0") = Err wrong_length.
Proof.
  split.
  - apply (proj1 (to_toolchain_dict_wrong_length [VStr "GCC"] "")); simpl; lia.
  - exact (proj2 (to_toolchain_dict_wrong_length [] "GCC 9.3.0") eq_refl).
Defined.

(** ** Converting twice *)

Lemma map_res_cons {A B} (f : A -> result B) (x : A) (l : list A) :
  map_res f (x :: l) = let* y := f x in let* r := map_res f l in Ok (y :: r).
Proof. reflexivity. Qed.

Lemma map_res_Forall2 {A B} (f : A -> result B) (l : list A) (r : list B) :
  map_res f l = Ok r -> Forall2 (fun x y => f x = Ok y) l r.
Proof.
  revert r. induction l as [| x l IH]; intros r H.
  - injection H as <-. constructor.
  - rewrite map_res_cons in H.
    destruct (f x) as [y |] eqn:Hx; [| discriminate].
    destruct (map_res f l) as [r' |]; [| discriminate].
    injection H as <-. constructor; auto.
Qed.

Lemma map_res_fixed {A} (f : A -> result A) (r : list A) :
  Forall (fun y => f y = Ok y) r -> map_res f r = Ok r.
Proof.
  induction 1 as [| y r Hy _ IH]; [reflexivity |].
  now rewrite map_res_cons, Hy, IH.
Qed.

(** Every output of [f] is a fixed point of [f] with the property [P]. *)
Lemma map_res_twice {A} (f : A -> result A) (P : A -> Prop) (l r : list A) :
  (forall x y, f x = Ok y -> f y = Ok y /\ P y) ->
  map_res f l = Ok r -> map_res f r = Ok r /\ Forall P r.
Proof.
  intros Hf H. apply map_res_Forall2 in H.
  assert (HF : Forall (fun y => f y = Ok y /\ P y) r).
  { induction H as [| x y l r Hxy _ IH]; constructor; eauto. }
  split.
  - apply map_res_fixed. eapply Forall_impl; [| exact HF]. now intros y [].
  - eapply Forall_impl; [| exact HF]. now intros y [].
Qed.

(** X8: the list that [to_list_of_strings_and_tuples] returns holds
    strings and tuples only, and converting it again changes nothing;
    likewise for [to_list_of_strings_and_tuples_and_dicts], whose result
    holds no list. *)
Theorem list_conversions_twice (v r : pyval) :
  (to_list_of_strings_and_tuples v = Ok r ->
   to_list_of_strings_and_tuples r = Ok r /\
   exists l, r = VList l /\ Forall (fun e => is_str_or_tuple e = true) l) /\
  (to_list_of_strings_and_tuples_and_dicts v = Ok r ->
   to_list_of_strings_and_tuples_and_dicts r = Ok r /\
   exists l, r = VList l /\ Forall (fun e => is_list e = false) l).
Proof.
  split; intros H.
  - assert (Hl : exists l, match v with VList l | VTuple l => Some l | _ => None end
                           = Some l)
      by (destruct v; try discriminate H; eauto).
    destruct Hl as [l Hl].
    assert (H' : (let* r' :=
                    map_res (fun elem =>
                      match elem with
                      | VStr _ | VTuple _ => Ok elem
                      | VList x => Ok (VTuple x)
                      | _ => Err (EasyBuildError "Expected elements to be of type string, tuple or list")
                      end) l in Ok (VList r')) = Ok r)
      by (destruct v; try discriminate Hl; injection Hl as ->; exact H).
    clear H Hl.
    destruct (map_res _ l) as [l' |] eqn:E; [| discriminate].
    injection H' as <-.
    apply (map_res_twice _ (fun e => is_str_or_tuple e = true)) in E.
    + destruct E as [E HP]. split; [| eauto].
      unfold to_list_of_strings_and_tuples. now rewrite E.
    + intros x y Hxy. destruct x; try discriminate Hxy;
        injection Hxy as <-; split; reflexivity.
  - assert (Hl : exists l, match v with VList l | VTuple l => Some l | _ => None end
                           = Some l)
      by (destruct v; try discriminate H; eauto).
    destruct Hl as [l Hl].
    assert (H' : (let* r' :=
                    map_res (fun elem =>
                      match elem with
                      | VStr _ | VTuple _ | VDict _ => Ok elem
                      | VList x => Ok (VTuple x)
                      | _ => Err (EasyBuildError "Expected elements to be of type string, tuple, dict or list")
                      end) l in Ok (VList r')) = Ok r)
      by (destruct v; try discriminate Hl; injection Hl as ->; exact H).
    clear H Hl.
    destruct (map_res _ l) as [l' |] eqn:E; [| discriminate].
    injection H' as <-.
    apply (map_res_twice _ (fun e => is_list e = false)) in E.
    + destruct E as [E HP]. split; [| eauto].
      unfold to_list_of_strings_and_tuples_and_dicts. now rewrite E.
    + intros x y Hxy. destruct x; try discriminate Hxy;
        injection Hxy as <-; split; reflexivity.
Qed.

Lemma list_conversions_twice_witness :
  let v := VTuple [VStr "foo"; VList [VStr "bar"; VStr "baz"]] in
  let r := VList [VStr "foo"; VTuple [VStr "bar"; VStr "baz"]] in
  to_list_of_strings_and_tuples v = Ok r /\
  to_list_of_strings_and_tuples r = Ok r.
Proof.
  intros v r. split; [reflexivity |].
  exact (proj1 (proj1 (list_conversions_twice v r) eq_refl)).
Defined.




(** ** Dependencies *)

Lemma to_dependency_keys (py_str : pyval -> string) (dep r : pyval) :
  to_dependency py_str dep = Ok r ->
  (type_of dep <> Tdict -> r = dep) /\
  (type_of dep = Tdict ->
   exists d', r = VDict d' /\
              dict_mem (VStr "name") d' = true /\
              dict_mem (VStr "version") d' = true).
Proof.
  intros H. split.
  - intros Hd. destruct dep; try (injection H as <-; reflexivity). now elim Hd.
  - intros Hd. destruct dep; try discriminate Hd. clear Hd.
    unfold to_dependency in H.
    match type of H with
    | context [if ?c then _ else _] => destruct c
    end.
    + destruct (sorted (keys d)) as [ks |]; [| discriminate]. cbn [bind] in H.
      destruct (eq_strings ks ["external_module"; "name"]); [| discriminate].
      destruct (dict_item (VStr "name") d) as [name |]; [| discriminate].
      cbn [bind] in H. injection H as <-. eexists. split; [reflexivity |].
      split; reflexivity.
    + match type of H with
      | context [fold_left ?f ?l ?a] =>
          destruct (fold_left f l a) as [[ds ks] |]; [| discriminate]
      end.
      cbn [bind] in H.
      match type of H with
      | context [fold_left ?f ?l ?a] =>
          destruct (fold_left f l a) as [ds' |]; [| discriminate]
      end.
      cbn [bind] in H.
      destruct (dict_mem (VStr "name") ds' && dict_mem (VStr "version") ds') eqn:E;
        [| discriminate].
      cbn [negb bind] in H. injection H as <-.
      apply andb_true_iff in E. eauto.
Qed.

(** X10: [to_dependency] hands back a value that is not a dict as it
    is; the dict it builds from a dict always has the keys name and
    version. *)
Theorem to_dependency_result (py_str : pyval -> string) (dep : pyval) :
  (type_of dep <> Tdict -> to_dependency py_str dep = Ok dep) /\
  (forall r,
     type_of dep = Tdict -> to_dependency py_str dep = Ok r ->
     exists d', r = VDict d' /\
                dict_mem (VStr "name") d' = true /\
                dict_mem (VStr "version") d' = true).
Proof.
  split.
  - intros Hd. destruct dep; try reflexivity. now elim Hd.
  - intros r Hd H. exact (proj2 (to_dependency_keys py_str dep r H) Hd).
Qed.

Lemma to_dependency_result_witness :
  let py_str := fun v => match v with VStr s => s | _ => "" end in
  let dep := VDict [(VStr "foo", VStr "1.2.3"); (VStr "toolchain", VStr "GCC, 4.8.2")] in
  let d' := [(VStr "name", VStr "foo"); (VStr "version", VStr "1.2.3");
             (VStr "toolchain",
              VDict [(VStr "name", VStr "GCC"); (VStr "version", VStr "4.8.2")])] in
  let pair := VTuple [VStr "bar"; VStr "2.0"] in
  type_of pair <> Tdict /\
  to_dependency py_str pair = Ok pair /\
  to_dependency py_str dep = Ok (VDict d') /\
  exists d'', VDict d' = VDict d'' /\
              dict_mem (VStr "name") d'' = true /\
              dict_mem (VStr "version") d'' = true.
Proof.
  intros py_str dep d' pair.
  assert (Hp : type_of pair <> Tdict) by discriminate.
  split; [exact Hp |].
  split; [exact (proj1 (to_dependency_result py_str pair) Hp) |].
  split; [reflexivity |].
  exact (proj2 (to_dependency_result py_str dep) (VDict d') eq_refl eq_refl).
Defined.

(** ** Checksums *)

Lemma to_checksum_seq (checksum : pyval) (l : list pyval) (level : Z) (allow : bool) :
  checksum = VList l \/ checksum = VTuple l ->
  _to_checksum checksum level allow =
  if pair_shaped l then
    if negb (is_str (nth 1 l VNone)) || (level >? 0)
    then Ok (VTuple l) else Ok checksum
  else if level <? 2 then
    if existsb is_none l then Err (ValueError "Unexpected None")
    else if is_tuple checksum || (level >? 0)
    then let* r := map_res (fun x => _to_checksum x 99 allow) l in Ok (VTuple r)
    else let* r := map_res (fun x => _to_checksum x (level + 1) allow) l in Ok (VList r)
  else Err unexpected_type.
Proof. intros [-> | ->]; reflexivity. Qed.

Lemma to_checksum_dict (d : list (pyval * pyval)) (level : Z) (allow : bool) :
  _to_checksum (VDict d) level allow =
  if allow
  then let* r := map_res (fun kv : pyval * pyval =>
                            let* v := _to_checksum (snd kv) 0 false in
                            Ok (fst kv, v)) d in
       Ok (VDict r)
  else Err unexpected_type.
Proof. reflexivity. Qed.

(** A sequence that holds [None] is never one of two items the pair
    rule applies to. *)
Lemma none_not_pair_shaped (l : list pyval) :
  In VNone l -> pair_shaped l = false.
Proof.
  destruct l as [| c0 [| c1 [|]]]; try reflexivity. simpl.
  intros [-> | [-> | []]]; [reflexivity | apply andb_false_r].
Qed.

(** X11: a list or tuple that holds [None] is refused by [_to_checksum]
    with a [ValueError] at every nesting level, and [to_checksums]
    reports a checksum list with such an entry as invalid. *)
Theorem checksum_none_rejected (l : list pyval) (level : Z) (allow : bool)
  (before after : list pyval) :
  In VNone l ->
  (exists msg, _to_checksum (VList l) level allow = Err (ValueError msg)) /\
  (exists msg, _to_checksum (VTuple l) level allow = Err (ValueError msg)) /\
  (Forall (fun c => exists r, _to_checksum c 0 true = Ok r) before ->
   to_checksums (VList (before ++ VList l :: after))
   = Err (EasyBuildError "Invalid checksums")).
Proof.
  intros Hin.
  assert (Hex : existsb is_none l = true)
    by (apply existsb_exists; exists VNone; auto).
  assert (Hseq : forall c lv, c = VList l \/ c = VTuple l ->
                   exists msg, _to_checksum c lv allow = Err (ValueError msg)).
  { intros c lv Hc. rewrite (to_checksum_seq c l lv allow Hc).
    rewrite (none_not_pair_shaped l Hin), Hex.
    destruct (lv <? 2); eexists; reflexivity. }
  split; [apply Hseq; now left |]. split; [apply Hseq; now right |].
  intros Hbefore. unfold to_checksums. cbn [iter_val bind].
  assert (Hmap : exists msg,
             map_res (fun checksum => _to_checksum checksum 0 true)
               (before ++ VList l :: after) = Err (ValueError msg)).
  { induction Hbefore as [| c before [r Hc] _ IH].
    - simpl app. rewrite map_res_cons.
      rewrite (to_checksum_seq (VList l) l 0 true (or_introl eq_refl)).
      rewrite (none_not_pair_shaped l Hin), Hex. eexists. reflexivity.
    - simpl app. rewrite map_res_cons, Hc. destruct IH as [msg ->].
      eexists. reflexivity. }
  destruct Hmap as [msg ->]. reflexivity.
Qed.

Lemma checksum_none_rejected_witness :
  In VNone [VStr "abc"; VNone] /\
  to_checksums (VList [VStr "0123"; VList [VStr "abc"; VNone]])
  = Err (EasyBuildError "Invalid checksums").
Proof.
  split; [right; left; reflexivity |].
  apply (proj2 (proj2 (checksum_none_rejected [VStr "abc"; VNone] 0 true
                         [VStr "0123"] [] (or_intror (or_introl eq_refl))))).
  repeat constructor. now exists (VStr "0123").
Defined.

Lemma to_checksum_kind (c r : pyval) (level : Z) (allow : bool) :
  _to_checksum c level allow = Ok r -> same_kind c r.
Proof.
  intros H. unfold same_kind.
  destruct c; try discriminate H; try (injection H as <-; auto).
  - rewrite (to_checksum_seq (VList l) l level allow (or_introl eq_refl)) in H.
    repeat match type of H with
           | context [if ?b then _ else _] => destruct b
           | context [map_res ?f ?l] => destruct (map_res f l)
           end; try discriminate H; injection H as <-; auto.
  - rewrite (to_checksum_seq (VTuple l) l level allow (or_intror eq_refl)) in H.
    repeat match type of H with
           | context [if ?b then _ else _] => destruct b
           | context [map_res ?f ?l] => destruct (map_res f l)
           end; try discriminate H; injection H as <-; auto.
  - rewrite to_checksum_dict in H. destruct allow; [| discriminate].
    destruct (map_res _ d); [| discriminate]. injection H as <-. auto.
Qed.

Lemma shapes_kept (l r : list pyval) :
  Forall2 same_kind l r ->
  pair_shaped r = pair_shaped l /\ existsb is_none r = existsb is_none l.
Proof.
  intros H. split.
  - destruct H as [| x0 y0 l r (Hs0 & _ & _) H]; [reflexivity |].
    destruct H as [| x1 y1 l r (_ & Hi1 & _) H]; [reflexivity |].
    destruct H; [| reflexivity]. simpl. now rewrite Hs0, Hi1.
  - induction H as [| x y l r (_ & _ & Hn) _ IH]; [reflexivity |].
    simpl. now rewrite Hn, IH.
Qed.

Lemma to_checksum_items (l r : list pyval) (level : Z) (allow : bool) :
  Forall (fun x => forall lv a y, _to_checksum x lv a = Ok y ->
                                  _to_checksum y lv a = Ok y) l ->
  map_res (fun x => _to_checksum x level allow) l = Ok r ->
  map_res (fun x => _to_checksum x level allow) r = Ok r /\
  pair_shaped r = pair_shaped l /\ existsb is_none r = existsb is_none l.
Proof.
  intros IH H. apply map_res_Forall2 in H. split.
  - apply map_res_fixed. induction H as [| x y l r Hxy _ IHl]; constructor.
    + inversion IH; subst; eauto.
    + inversion IH; subst; auto.
  - apply shapes_kept. eapply Forall2_impl; [| exact H].
    intros x y Hxy. exact (to_checksum_kind _ _ _ _ Hxy).
Qed.

Lemma to_checksum_twice (c : pyval) :
  forall level allow r,
    _to_checksum c level allow = Ok r -> _to_checksum r level allow = Ok r.
Proof.
  induction c as [| | | | | l IH | l IH | d IH] using pyval_nested_ind;
    intros level allow r H; try discriminate H;
    try (injection H as <-; reflexivity).
  - rewrite (to_checksum_seq (VList l) l level allow (or_introl eq_refl)) in H.
    destruct (pair_shaped l) eqn:Hp.
    + destruct (negb (is_str (nth 1 l VNone)) || (level >? 0)) eqn:Hc;
        injection H as <-.
      * rewrite (to_checksum_seq (VTuple l) l level allow (or_intror eq_refl)).
        rewrite Hp, Hc. reflexivity.
      * rewrite (to_checksum_seq (VList l) l level allow (or_introl eq_refl)).
        rewrite Hp, Hc. reflexivity.
    + destruct (level <? 2) eqn:Hl; [| discriminate].
      destruct (existsb is_none l) eqn:Hn; [discriminate |].
      simpl is_tuple in H. cbn [orb] in H.
      destruct (level >? 0) eqn:Hg.
      * destruct (map_res _ l) as [r' |] eqn:E; [| discriminate].
        injection H as <-.
        destruct (to_checksum_items l r' 99 allow IH E) as (E' & Hp' & Hn').
        rewrite (to_checksum_seq (VTuple r') r' level allow (or_intror eq_refl)).
        rewrite Hp', Hp, Hl, Hn', Hn. simpl. now rewrite E'.
      * destruct (map_res _ l) as [r' |] eqn:E; [| discriminate].
        injection H as <-.
        destruct (to_checksum_items l r' (level + 1) allow IH E) as (E' & Hp' & Hn').
        rewrite (to_checksum_seq (VList r') r' level allow (or_introl eq_refl)).
        rewrite Hp', Hp, Hl, Hn', Hn, Hg. simpl. now rewrite E'.
  - rewrite (to_checksum_seq (VTuple l) l level allow (or_intror eq_refl)) in H.
    destruct (pair_shaped l) eqn:Hp.
    + assert (r = VTuple l)
        by (destruct (negb (is_str (nth 1 l VNone)) || (level >? 0));
            now injection H as <-).
      subst r.
      rewrite (to_checksum_seq (VTuple l) l level allow (or_intror eq_refl)).
      rewrite Hp. destruct (negb (is_str (nth 1 l VNone)) || (level >? 0)); reflexivity.
    + destruct (level <? 2) eqn:Hl; [| discriminate].
      destruct (existsb is_none l) eqn:Hn; [discriminate |].
      simpl is_tuple in H. cbn [orb] in H.
      destruct (map_res _ l) as [r' |] eqn:E; [| discriminate].
      injection H as <-.
      destruct (to_checksum_items l r' 99 allow IH E) as (E' & Hp' & Hn').
      rewrite (to_checksum_seq (VTuple r') r' level allow (or_intror eq_refl)).
      rewrite Hp', Hp, Hl, Hn', Hn. simpl. now rewrite E'.
  - rewrite to_checksum_dict in *. destruct allow; [| discriminate].
    destruct (map_res _ d) as [d' |] eqn:E; [| discriminate].
    injection H as <-. rewrite to_checksum_dict.
    apply map_res_Forall2 in E.
    rewrite map_res_fixed; [reflexivity |].
    induction E as [| kv kv' d d' Hkv _ IHd]; constructor.
    + inversion IH as [| ? ? [_ Hv] _]; subst. simpl in Hkv.
      destruct (_to_checksum (snd kv) 0 false) as [v |] eqn:Ev; [| discriminate].
      injection Hkv as <-. simpl. now rewrite (Hv _ _ _ Ev).
    + inversion IH; subst; auto.
Qed.

(** X12: [_to_checksum] changes nothing in a value it returned: at the
    same nesting level the result is converted to itself. *)
Theorem to_checksum_idempotent (c r : pyval) (level : Z) (allow : bool) :
  _to_checksum c level allow = Ok r -> _to_checksum r level allow = Ok r.
Proof. apply to_checksum_twice. Qed.

Lemma to_checksum_idempotent_witness :
  let c := VList [VStr "abcd1234"; VList [VStr "sha256"; VStr "ef56"];
                  VList [VStr "size"; VInt 42]] in
  let r := VList [VStr "abcd1234"; VTuple [VStr "sha256"; VStr "ef56"];
                  VTuple [VStr "size"; VInt 42]] in
  _to_checksum c 0 true = Ok r /\ _to_checksum r 0 true = Ok r.
Proof.
  intros c r. split; [reflexivity |].
  exact (to_checksum_idempotent c r 0 true eq_refl).
Defined.

(** X13: what [to_checksums] returns is a list that it converts to
    itself. *)
Theorem to_checksums_idempotent (checksums r : pyval) :
  to_checksums checksums = Ok r ->
  (exists l, r = VList l) /\ to_checksums r = Ok r.
Proof.
  unfold to_checksums. intros H.
  destruct (iter_val checksums) as [items |]; [| discriminate]. cbn [bind] in H.
  destruct (map_res _ items) as [l | e] eqn:E;
    [| destruct e; discriminate].
  injection H as <-. split; [eauto |]. cbn [iter_val bind].
  apply (map_res_twice _ (fun _ => True)) in E.
  - destruct E as [E _]. now rewrite E.
  - intros x y Hxy. split; [| exact I]. exact (to_checksum_twice x 0 true y Hxy).
Qed.

Lemma to_checksums_idempotent_witness :
  let c := VTuple [VNone; VList [VStr "size"; VInt 42]] in
  let r := VList [VNone; VTuple [VStr "size"; VInt 42]] in
  to_checksums c = Ok r /\ to_checksums r = Ok r.
Proof.
  intros c r. split; [reflexivity |].
  exact (proj2 (to_checksums_idempotent c r eq_refl)).
Defined.

(** ** The dispatcher *)

Lemma tobj_eqb_tuple (l m : list tobj) :
  tobj_eqb (OTuple l) (OTuple m)
  = match l, m with
    | [], [] => true
    | x :: l', y :: m' => tobj_eqb x y && tobj_eqb (OTuple l') (OTuple m')
    | _, _ => false
    end.
Proof. destruct l, m; reflexivity. Qed.

Lemma hashable_tuple (x : tobj) (l : list tobj) :
  hashable (OTuple (x :: l)) = hashable x && hashable (OTuple l).
Proof. reflexivity. Qed.

(** On hashable objects [==] is equality. *)
Lemma tobj_eqb_eq (a : tobj) :
  forall b, hashable a = true -> tobj_eqb a b = true -> a = b.
Proof.
  induction a as [t | s | l IH | l | d] using tobj_tuple_ind; intros b Ha Hab;
    try discriminate Ha.
  - destruct b; try discriminate Hab. simpl in Hab.
    apply pytype_eqb_eq in Hab. now subst.
  - destruct b; try discriminate Hab. simpl in Hab.
    apply String.eqb_eq in Hab. now subst.
  - destruct b as [| | m | |]; try discriminate Hab. f_equal.
    revert m Hab. induction IH as [| x l Hx _ IHl]; intros m Hab;
      rewrite tobj_eqb_tuple in Hab; destruct m as [| y m]; try discriminate Hab.
    + reflexivity.
    + rewrite hashable_tuple in Ha.
      apply andb_true_iff in Ha as [Hhx Hhl].
      apply andb_true_iff in Hab as [Hxy Hlm].
      f_equal; [now apply Hx | now apply IHl].
Qed.

Lemma tobj_in_In (T : tobj) (l : list tobj) :
  hashable T = true -> tobj_in T l = true -> In T l.
Proof.
  intros HT H. apply existsb_exists in H as (x & Hx & Heq).
  apply tobj_eqb_eq in Heq; [now subst | exact HT].
Qed.

Lemma matched_is_instance (v : pyval) (T : tobj) :
  In T CHECKABLE_TYPES -> is_value_of_type v T = Ok true ->
  py_isinstance v T = Ok true.
Proof.
  intros HT H. simpl in HT.
  repeat (destruct HT as [<- | HT]; [| ]); try contradiction;
    destruct v; try reflexivity; discriminate H.
Qed.

Lemma conversions_build_parent (py_str : pyval -> string) (v r : pyval) :
  (to_checksums v = Ok r -> is_list r = true) /\
  (to_dependencies py_str v = Ok r -> is_list r = true) /\
  (to_list_of_strings v = Ok r -> is_list r = true) /\
  (to_list_of_strings_and_tuples v = Ok r -> is_list r = true) /\
  (to_list_of_strings_and_tuples_and_dicts v = Ok r -> is_list r = true) /\
  (to_toolchain_dict v = Ok r -> type_of r = Tdict) /\
  (to_sanity_check_paths_dict v = Ok r -> type_of r = Tdict).
Proof.
  repeat split; intros H.
  - unfold to_checksums in H. destruct (iter_val v) as [items |]; [| discriminate].
    cbn [bind] in H. destruct (map_res _ items) as [x | e];
      [| destruct e; discriminate]. now injection H as <-.
  - unfold to_dependencies in H. destruct (iter_val v) as [items |]; [| discriminate].
    cbn [bind] in H. destruct (map_res _ items); [| discriminate].
    now injection H as <-.
  - destruct v; simpl in H; try discriminate H;
      try match type of H with
          | context [if ?b then _ else _] => destruct b
          end; try discriminate H; now injection H as <-.
  - destruct v; simpl in H; try discriminate H;
      destruct (map_res _ l); try discriminate H; now injection H as <-.
  - destruct v; simpl in H; try discriminate H;
      destruct (map_res _ l); try discriminate H; now injection H as <-.
  - assert (Hseq : forall l, to_toolchain_dict (VList l) = Ok r -> type_of r = Tdict).
    { intros l Hl. unfold to_toolchain_dict in Hl.
      destruct l as [| a [| b [| c [|]]]]; try discriminate Hl.
      - destruct (str_strip a); [| discriminate].
        destruct (str_strip b); [| discriminate]. now injection Hl as <-.
      - destruct (str_strip c); [| discriminate]. cbn [bind] in Hl.
        destruct (existsb _ truthy_tokens);
          [| destruct (existsb _ falsy_tokens); [| discriminate]];
          cbn [bind] in Hl;
          (destruct (str_strip a); [| discriminate]);
          (destruct (str_strip b); [| discriminate]); now injection Hl as <-. }
    destruct v; try discriminate H.
    + exact (Hseq _ H).
    + exact (Hseq _ H).
    + exact (Hseq l H).
    + unfold to_toolchain_dict in H. destruct (sorted (keys d)); [| discriminate].
      cbn [bind] in H. destruct (_ || _); [| discriminate]. now injection H as <-.
  - destruct v; try discriminate H. unfold to_sanity_check_paths_dict in H.
    destruct (map_res _ d); [| discriminate]. now injection H as <-.
Qed.

Lemma registered_conversion
  (py_str : pyval -> string) (py_int py_float : pyval -> result pyval)
  (T : tobj) (f : pyval -> result pyval) (v res : pyval) :
  hashable T = true ->
  conversion_function T (TYPE_CONVERSION_FUNCTIONS py_str py_int py_float) = Some f ->
  f v = Ok res ->
  T = int_ \/ T = float_ \/ py_isinstance res T = Ok true.
Proof.
  intros HT Hf Hres. unfold TYPE_CONVERSION_FUNCTIONS in Hf.
  cbn [conversion_function] in Hf.
  pose proof (conversions_build_parent py_str v res) as
    (Hc & Hd & Hl & Hlt & Hltd & Ht & Hs).
  repeat match type of Hf with
         | (if tobj_eqb T ?k then _ else _) = _ =>
             let E := fresh "E" in
             destruct (tobj_eqb T k) eqn:E;
             [apply (tobj_eqb_eq T k HT) in E; subst T; injection Hf as <- |]
         end; try discriminate Hf; auto.
  - injection Hres as <-. right. right. reflexivity.
  - apply Hc in Hres. destruct res; try discriminate Hres. right. right. reflexivity.
  - apply Hd in Hres. destruct res; try discriminate Hres. right. right. reflexivity.
  - apply Hl in Hres. destruct res; try discriminate Hres. right. right. reflexivity.
  - apply Ht in Hres. destruct res; try discriminate Hres. right. right. reflexivity.
  - apply Hs in Hres. destruct res; try discriminate Hres. right. right. reflexivity.
  - apply Hlt in Hres. destruct res; try discriminate Hres. right. right. reflexivity.
  - apply Hltd in Hres. destruct res; try discriminate Hres. right. right. reflexivity.
Qed.

Lemma conversion_outcome_error (T : tobj) (msg : string) :
  EasyBuildError msg <> conversion_unexpected ->
  conversion_outcome T (Err (EasyBuildError msg)).
Proof. intros H. split; [eauto | intros E; now elim H]. Qed.

Lemma convert_value_type_outcome
  (py_str : pyval -> string) (py_int py_float : pyval -> result pyval)
  (v : pyval) (T : tobj) :
  hashable T = true ->
  conversion_outcome T (convert_value_type py_str py_int py_float v T).
Proof.
  intros HT. unfold convert_value_type.
  assert (Hfunc :
    conversion_outcome T
      (match conversion_function T
               (TYPE_CONVERSION_FUNCTIONS py_str py_int py_float) with
       | Some func =>
           match func v with
           | Err _ => Err conversion_failed
           | Ok res =>
               let* ok := py_isinstance res T in
               if ok then Ok res else Err conversion_unexpected
           end
       | None => Err no_conversion
       end)).
  { destruct (conversion_function T _) as [func |] eqn:Hf;
      [| apply conversion_outcome_error; discriminate].
    destruct (func v) as [res |] eqn:Hres;
      [| apply conversion_outcome_error; discriminate].
    destruct (registered_conversion _ _ _ _ _ _ _ HT Hf Hres)
      as [-> | [-> | Hi]].
    - cbn. destruct (instance_of res Tint) eqn:Ei; cbn.
      + now rewrite Ei.
      + split; [eexists; reflexivity | auto].
    - cbn. destruct (instance_of res Tfloat) eqn:Ei; cbn.
      + now rewrite Ei.
      + split; [eexists; reflexivity | auto].
    - rewrite Hi. exact Hi. }
  assert (Hrest :
    conversion_outcome T
      (let* checkable :=
         if tobj_in T CHECKABLE_TYPES then is_value_of_type v T else Ok false in
       if checkable then Ok v
       else if negb (hashable T) then Err TypeError
       else
         match conversion_function T
                 (TYPE_CONVERSION_FUNCTIONS py_str py_int py_float) with
         | Some func =>
             match func v with
             | Err _ => Err conversion_failed
             | Ok res =>
                 let* ok := py_isinstance res T in
                 if ok then Ok res else Err conversion_unexpected
             end
         | None => Err no_conversion
         end)).
  { destruct (tobj_in T CHECKABLE_TYPES) eqn:HC.
    - apply tobj_in_In in HC; [| exact HT].
      destruct (matcher_returns_on_registered v T) as [b Hb];
        [unfold registered; apply in_or_app; now right |].
      rewrite Hb. cbn [bind]. destruct b.
      + now apply matched_is_instance.
      + rewrite HT. exact Hfunc.
    - cbn [bind]. rewrite HT. exact Hfunc. }
  destruct (tobj_in T EASY_TYPES) eqn:HE; [| exact Hrest].
  apply tobj_in_In in HE; [| exact HT].
  assert (HP : exists P, T = OType P).
  { simpl in HE.
    repeat (destruct HE as [<- | HE]; [eexists; reflexivity |]). contradiction. }
  destruct HP as [P ->]. cbn [py_isinstance bind].
  destruct (instance_of v P) eqn:Ei; [| exact Hrest].
  cbn. now rewrite Ei.
Qed.

(** X14: for a hashable target type, [convert_value_type] returns a
    value that [isinstance] accepts for the target, or raises an
    [EasyBuildError]; the error about a result of an unexpected type can
    only come up for [int] and [float], never for a composite
    descriptor. *)
Theorem convert_value_type_outcomes
  (py_str : pyval -> string) (py_int py_float : pyval -> result pyval)
  (v : pyval) (T : tobj) :
  hashable T = true ->
  (forall r, convert_value_type py_str py_int py_float v T = Ok r ->
             py_isinstance r T = Ok true) /\
  (forall e, convert_value_type py_str py_int py_float v T = Err e ->
             (exists msg, e = EasyBuildError msg) /\
             (e = conversion_unexpected -> T = int_ \/ T = float_)).
Proof.
  intros HT.
  pose proof (convert_value_type_outcome py_str py_int py_float v T HT) as H.
  split.
  - intros r Hr. rewrite Hr in H. exact H.
  - intros e He. rewrite He in H. exact H.
Qed.

Lemma convert_value_type_outcomes_witness :
  let py_str := fun _ : pyval => "" in
  let py_num := fun _ : pyval => Err TypeError in
  hashable TUPLE_OF_STRINGS = true /\
  convert_value_type py_str py_num py_num (VList [VStr "a"]) TUPLE_OF_STRINGS
  = Err no_conversion /\
  (exists msg, no_conversion = EasyBuildError msg).
Proof.
  intros py_str py_num. split; [reflexivity |]. split; [reflexivity |].
  exact (proj1 (proj2 (convert_value_type_outcomes py_str py_num py_num
                         (VList [VStr "a"]) TUPLE_OF_STRINGS eq_refl)
                  no_conversion eq_refl)).
Defined.

(** ** [as_hashable] *)











(** ** Parameter types *)

Lemma sdict_get_set {A} (k k' : string) (v : A) (d : list (string * A)) :
  sdict_get k (sdict_set k' v d)
  = if String.eqb k k' then Some v else sdict_get k d.
Proof.
  induction d as [| [k0 v0] d IH]; simpl.
  - reflexivity.
  - destruct (String.eqb k' k0) eqn:E'; simpl.
    + apply String.eqb_eq in E'. subst k0.
      destruct (String.eqb k k'); reflexivity.
    + rewrite IH. destruct (String.eqb k k0) eqn:E0; [| reflexivity].
      apply String.eqb_eq in E0. subst k0. now rewrite String.eqb_sym, E'.
Qed.

Lemma parameter_type_lookup (deps : list string) (key : string) :
  sdict_get key (PARAMETER_TYPES deps)
  = if existsb (String.eqb key) deps then Some DEPENDENCIES
    else sdict_get key base_parameter_types.
Proof.
  unfold PARAMETER_TYPES. fold base_parameter_types.
  generalize base_parameter_types as types.
  induction deps as [| dep deps IH]; intros types; [reflexivity |].
  cbn [fold_left existsb]. rewrite IH, sdict_get_set.
  destruct (existsb (String.eqb key) deps); [now rewrite orb_true_r |].
  rewrite orb_false_r. destruct (String.eqb key dep); reflexivity.
Qed.

Lemma parameter_types_registered (deps : list string) (key : string) (T : tobj) :
  sdict_get key (PARAMETER_TYPES deps) = Some T -> registered T.
Proof.
  rewrite parameter_type_lookup.
  destruct (existsb (String.eqb key) deps).
  - intros H. injection H as <-. in_registry.
  - unfold base_parameter_types. cbn [sdict_get].
    repeat match goal with
           | |- (if ?b then _ else _) = _ -> _ =>
               destruct b; [intros H; injection H as <-; in_registry |]
           end.
    discriminate.
Qed.

(** X16: the type of a parameter is [DEPENDENCIES] when its name is in
    [DEPENDENCY_PARAMETERS], whatever type the name had before, and the
    type listed for it otherwise.  Without conversion the check of a
    parameter value never raises: it returns the value for a parameter
    without type or with a value of its type, and [(False, None)]
    otherwise. *)
Theorem check_type_of_param_value_plain
  (py_str : pyval -> string) (py_int py_float : pyval -> result pyval)
  (deps : list string) (key : string) (val : pyval) :
  sdict_get key (PARAMETER_TYPES deps)
  = (if existsb (String.eqb key) deps then Some DEPENDENCIES
     else sdict_get key base_parameter_types) /\
  exists ok : bool,
    check_type_of_param_value py_str py_int py_float deps key val false
    = Ok (ok, if ok then val else VNone) /\
    (sdict_get key (PARAMETER_TYPES deps) = None -> ok = true) /\
    (forall T, sdict_get key (PARAMETER_TYPES deps) = Some T ->
               is_value_of_type val T = Ok ok).
Proof.
  split; [apply parameter_type_lookup |].
  unfold check_type_of_param_value.
  destruct (sdict_get key (PARAMETER_TYPES deps)) as [T |] eqn:E.
  - destruct (matcher_returns_on_registered val T) as [b Hb];
      [eapply parameter_types_registered; eassumption |].
    exists b. rewrite Hb. cbn [bind]. split; [destruct b; reflexivity |].
    split; [discriminate |]. intros T' HT'. now injection HT' as <-.
  - exists true. split; [reflexivity |]. split; [reflexivity | discriminate].
Qed.

Lemma check_type_of_param_value_plain_witness :
  let py_str := fun _ : pyval => "" in
  let py_num := fun _ : pyval => Err TypeError in
  sdict_get "name" (PARAMETER_TYPES ["dependencies"; "name"]) = Some DEPENDENCIES /\
  check_type_of_param_value py_str py_num py_num ["dependencies"; "name"]
    "name" (VStr "gzip") false = Ok (false, VNone).
Proof.
  intros py_str py_num.
  pose proof (check_type_of_param_value_plain py_str py_num py_num
                ["dependencies"; "name"] "name" (VStr "gzip"))
    as [Hget (ok & Hcheck & _ & Hok)].
  split; [exact Hget |].
  specialize (Hok DEPENDENCIES Hget). destruct ok; [discriminate Hok | exact Hcheck].
Defined.

(** ** License specifications *)

(** X17: [ensure_iterable_license_specs] returns a list, which is
    [[None]] or holds strings only; it accepts its own result again,
    unchanged, unless the argument was [None]. *)
Theorem ensure_iterable_license_specs_result (specs r : pyval) :
  ensure_iterable_license_specs specs = Ok r ->
  exists l, r = VList l /\
            (l = [VNone] \/ forallb is_str l = true) /\
            (specs <> VNone -> ensure_iterable_license_specs r = Ok r) /\
            (specs = VNone ->
             ensure_iterable_license_specs r = Err unsupported_license_type).
Proof.
  intros H. destruct specs; try discriminate H; simpl in H.
  - injection H as <-. exists [VNone].
    split; [reflexivity |]. split; [now left |].
    split; [intros E; now elim E | reflexivity].
  - injection H as <-. exists [VStr s].
    split; [reflexivity |]. split; [now right |].
    split; [reflexivity | discriminate].
  - destruct (forallb is_str l) eqn:E; [| discriminate]. injection H as <-.
    exists l. split; [reflexivity |]. split; [now right |].
    split; [intros _; simpl; now rewrite E | discriminate].
  - destruct (forallb is_str l) eqn:E; [| discriminate]. injection H as <-.
    exists l. split; [reflexivity |]. split; [now right |].
    split; [intros _; simpl; now rewrite E | discriminate].
Qed.

Lemma ensure_iterable_license_specs_result_witness :
  ensure_iterable_license_specs (VTuple [VStr "a.lic"; VStr "1234@server"])
  = Ok (VList [VStr "a.lic"; VStr "1234@server"]) /\
  exists l, VList [VStr "a.lic"; VStr "1234@server"] = VList l /\
            (l = [VNone] \/ forallb is_str l = true).
Proof.
  split; [reflexivity |].
  destruct (ensure_iterable_license_specs_result
              (VTuple [VStr "a.lic"; VStr "1234@server"])
              (VList [VStr "a.lic"; VStr "1234@server"]) eq_refl)
    as (l & Hl & Hs & _).
  exists l. split; assumption.
Defined.

(** ** Shapes of dependency dicts *)

Lemma not_reserved (s : string) :
  ~ In s reserved_keys ->
  forall k, In k reserved_keys ->
            String.eqb s k = false /\ String.eqb k s = false.
Proof.
  intros Hs k Hk. split; apply String.eqb_neq; intros E; subst; contradiction.
Qed.

Ltac reserved_facts s Hs :=
  let f k := (let H := fresh "H" in
              assert (H : String.eqb s k = false /\ String.eqb k s = false)
                by (apply (not_reserved s Hs); unfold reserved_keys, In; tauto);
              destruct H as [? ?]) in
  f "external_module"; f "name"; f "version"; f "versionsuffix"; f "toolchain".

Lemma dict_get_cons (k k' v : pyval) (d : list (pyval * pyval)) :
  dict_get k ((k', v) :: d) = if pyval_eqb k k' then Some v else dict_get k d.
Proof. reflexivity. Qed.

Lemma dict_set_cons (k v k' v' : pyval) (d : list (pyval * pyval)) :
  dict_set k v ((k', v') :: d)
  = if pyval_eqb k k' then (k', v) :: d else (k', v') :: dict_set k v d.
Proof. reflexivity. Qed.

Lemma list_remove_cons (k x : pyval) (l : list pyval) :
  list_remove k (x :: l) = if pyval_eqb x k then l else x :: list_remove k l.
Proof. reflexivity. Qed.

Lemma pyval_eqb_strs (a b : string) : pyval_eqb (VStr a) (VStr b) = String.eqb a b.
Proof. reflexivity. Qed.

(** Comparisons of two string literals are computed, those with a
    variable are rewritten with the hypotheses. *)
Ltac string_tests :=
  repeat match goal with
         | H : String.eqb ?a ?b = false |- context [String.eqb ?a ?b] => rewrite H
         | |- context [String.eqb ?a ?b] =>
             let r := eval vm_compute in (String.eqb a b) in
             lazymatch r with
             | true => change (String.eqb a b) with true
             | false => change (String.eqb a b) with false
             end
         end.

Ltac dependency_steps :=
  unfold to_dependency;
  repeat progress
    (unfold dict_mem, dict_item;
     rewrite ?dict_get_cons, ?dict_set_cons, ?list_remove_cons, ?pyval_eqb_strs,
       ?String.eqb_refl;
     string_tests;
     cbn [dict_get dict_set list_remove bind fold_left negb andb orb keys map
          fst snd truthy]).

(** X18: [to_dependency] on the simple shapes of a dict.  A single entry
    under a key without a meaning of its own gives the name (the key)
    and the version (the value as a string); name and version entries
    are turned into strings, name first; a further entry under such a
    key is refused once name and version are set; and a dict without
    name or version is refused. *)
Theorem to_dependency_shapes (py_str : pyval -> string) :
  (forall s v,
     ~ In s reserved_keys ->
     to_dependency py_str (VDict [(VStr s, v)])
     = Ok (VDict [(VStr "name", VStr s); (VStr "version", VStr (py_str v))])) /\
  (forall n v,
     let res := Ok (VDict [(VStr "name", VStr (py_str n));
                           (VStr "version", VStr (py_str v))]) in
     to_dependency py_str (VDict [(VStr "name", n); (VStr "version", v)]) = res /\
     to_dependency py_str (VDict [(VStr "version", v); (VStr "name", n)]) = res) /\
  (forall n v s x,
     ~ In s reserved_keys ->
     to_dependency py_str (VDict [(VStr "name", n); (VStr "version", v); (VStr s, x)])
     = Err unexpected_pair) /\
  (forall n, to_dependency py_str (VDict [(VStr "name", n)]) = Err no_name_version) /\
  to_dependency py_str (VDict []) = Err no_name_version.
Proof.
  split; [| split; [| split; [| split]]].
  - intros s v Hs. reserved_facts s Hs. dependency_steps. reflexivity.
  - intros n v. split; reflexivity.
  - intros n v s x Hs. reserved_facts s Hs. dependency_steps. reflexivity.
  - reflexivity.
  - reflexivity.
Qed.

Lemma to_dependency_shapes_witness :
  let py_str := fun v => match v with VStr s => s | _ => "" end in
  ~ In "foo" reserved_keys /\
  to_dependency py_str (VDict [(VStr "foo", VStr "1.2.3")])
  = Ok (VDict [(VStr "name", VStr "foo"); (VStr "version", VStr "1.2.3")]).
Proof.
  intros py_str.
  assert (H : ~ In "foo" reserved_keys) by (simpl; intuition discriminate).
  split; [exact H |].
  exact (proj1 (to_dependency_shapes py_str) "foo" (VStr "1.2.3") H).
Defined.

(** X19: [to_dependencies] on a list returns a list with one item for
    each item of its argument, in which every dict has the keys name and
    version. *)
Theorem to_dependencies_items (py_str : pyval -> string) (l : list pyval) (r : pyval) :
  to_dependencies py_str (VList l) = Ok r ->
  exists items,
    r = VList items /\
    List.length items = List.length l /\
    Forall (fun x => forall d, x = VDict d ->
                               dict_mem (VStr "name") d = true /\
                               dict_mem (VStr "version") d = true) items.
Proof.
  unfold to_dependencies. cbn [iter_val bind]. intros H.
  destruct (map_res (to_dependency py_str) l) as [items |] eqn:E; [| discriminate].
  injection H as <-. exists items. split; [reflexivity |].
  apply map_res_Forall2 in E. split.
  - symmetry. eapply Forall2_length. exact E.
  - induction E as [| dep x l items Hx _ IH]; constructor; [| exact IH].
    intros d ->. destruct (to_dependency_keys py_str dep (VDict d) Hx) as [Hsame Hdict].
    destruct dep; try (specialize (Hsame ltac:(discriminate)); discriminate Hsame).
    destruct (Hdict eq_refl) as (d' & Hd & Hn & Hv). injection Hd as ->. auto.
Qed.

Lemma to_dependencies_items_witness :
  let py_str := fun v => match v with VStr s => s | _ => "" end in
  let l := [VDict [(VStr "foo", VStr "1.2.3")]; VTuple [VStr "bar"; VStr "2.0"]] in
  let r := VList [VDict [(VStr "name", VStr "foo"); (VStr "version", VStr "1.2.3")];
                  VTuple [VStr "bar"; VStr "2.0"]] in
  to_dependencies py_str (VList l) = Ok r /\
  exists items, r = VList items /\ List.length items = List.length l.
Proof.
  intros py_str l r. split; [reflexivity |].
  destruct (to_dependencies_items py_str l r eq_refl) as (items & Hr & Hlen & _).
  exists items. split; assumption.
Defined.

(** ** The dispatcher's check of a converted value *)

(** C2 (amended): when [convert_value_type] gets to the conversion
    function of the target type, a failure of that function is reported
    as a failed conversion; a result is checked with [isinstance]
    against the target, returned when [isinstance] accepts it, and
    reported as an unexpected result, which is another error, when it
    does not.  The matcher is not asked again: for every target but
    [int] and [float], so for every composite descriptor, what the
    conversion function returns is returned. *)
Theorem convert_value_type_checks_isinstance
  (py_str : pyval -> string) (py_int py_float : pyval -> result pyval)
  (v : pyval) (T : tobj) (f : pyval -> result pyval) :
  let convert := convert_value_type py_str py_int py_float in
  hashable T = true ->
  tobj_in T EASY_TYPES = false \/ py_isinstance v T = Ok false ->
  tobj_in T CHECKABLE_TYPES = false \/ is_value_of_type v T = Ok false ->
  conversion_function T (TYPE_CONVERSION_FUNCTIONS py_str py_int py_float) = Some f ->
  (forall e, f v = Err e -> convert v T = Err conversion_failed) /\
  (forall res, f v = Ok res -> py_isinstance res T = Ok true ->
               convert v T = Ok res) /\
  (forall res, f v = Ok res -> py_isinstance res T = Ok false ->
               convert v T = Err conversion_unexpected) /\
  (forall res, f v = Ok res -> T <> int_ -> T <> float_ ->
               convert v T = Ok res) /\
  conversion_unexpected <> conversion_failed.
Proof.
  intros convert HT Heasy Hcheck Hf.
  assert (Hconv : convert v T =
                  match f v with
                  | Err _ => Err conversion_failed
                  | Ok res =>
                      let* ok := py_isinstance res T in
                      if ok then Ok res else Err conversion_unexpected
                  end).
  { unfold convert, convert_value_type.
    assert (He : (if tobj_in T EASY_TYPES then py_isinstance v T else Ok false)
                 = Ok false)
      by (destruct Heasy as [-> | ->]; [reflexivity |];
          destruct (tobj_in T EASY_TYPES); reflexivity).
    assert (Hc : (if tobj_in T CHECKABLE_TYPES then is_value_of_type v T else Ok false)
                 = Ok false)
      by (destruct Hcheck as [-> | ->]; [reflexivity |];
          destruct (tobj_in T CHECKABLE_TYPES); reflexivity).
    rewrite He. cbn [bind]. rewrite Hc. cbn [bind]. rewrite HT, Hf. reflexivity. }
  repeat split.
  - intros e He. now rewrite Hconv, He.
  - intros res Hres Hi. now rewrite Hconv, Hres, Hi.
  - intros res Hres Hi. now rewrite Hconv, Hres, Hi.
  - intros res Hres Hint Hfloat. rewrite Hconv, Hres.
    destruct (registered_conversion _ _ _ _ _ _ _ HT Hf Hres) as [E | [E | Hi]];
      [contradiction | contradiction | now rewrite Hi].
  - discriminate.
Qed.

Lemma convert_value_type_checks_isinstance_witness :
  let py_str := fun _ : pyval => "" in
  let py_num := fun _ : pyval => Err TypeError in
  let val := VDict [(VStr "name", VInt 1); (VStr "version", VInt 2)] in
  hashable TOOLCHAIN_DICT = true /\
  is_value_of_type val TOOLCHAIN_DICT = Ok false /\
  conversion_function TOOLCHAIN_DICT (TYPE_CONVERSION_FUNCTIONS py_str py_num py_num)
  = Some to_toolchain_dict /\
  convert_value_type py_str py_num py_num val TOOLCHAIN_DICT = Ok val.
Proof.
  intros py_str py_num val.
  split; [reflexivity |]. split; [reflexivity |]. split; [reflexivity |].
  apply (proj1 (proj2 (proj2 (proj2
           (convert_value_type_checks_isinstance py_str py_num py_num val
              TOOLCHAIN_DICT to_toolchain_dict eq_refl
              (or_introl eq_refl) (or_intror eq_refl) eq_refl))))).
  - reflexivity.
  - discriminate.
  - discriminate.
Defined.
